(** * Hangar: remote server handlers, arrayset sample writes, torch dataset adapter

    A shallow embedding of
    - [src/hangar/remote/server.py]   (class [HangarServer], the gRPC servicer),
    - [src/hangar/dataset/torch_dset.py] (class [TorchDataset]),
    - the arrayset [__setitem__] contract exercised by [tests/test_arrayset.py],
    together with the properties the specification states about them. *)

From Stdlib Require Import ZArith.
From Stdlib.Strings Require Import Byte.
From Stdlib Require QArith_base.
From stdpp Require Import base option list strings pretty gmap.

Local Open Scope string_scope.
Local Open Scope Z_scope.

Abbreviation bytes := (list byte).

(** ** Python and gRPC runtime values *)

Module Py.

(** Exceptions the handlers can leave with. *)
Inductive Exn :=
| StopIteration
| RuntimeError
| TypeError
| ValueError
| KeyError
| UnboundLocalError
| LibraryError (what : string).

(** [bytearray(n)]: [n] zero bytes; a negative count raises [ValueError]. *)
Definition bytearray (n : Z) : Exn + bytes :=
  if decide (0 ≤ n) then inr (replicate (Z.to_nat n) x00) else inl ValueError.

(** [buf[start : start + size] = src]. Slice bounds clip to the buffer, as
    [take] and [drop] do, so a chunk written past the end is appended. *)
Definition slice_assign (buf : bytes) (start size : nat) (src : bytes) : bytes :=
  take start buf ++ src ++ drop (start + size) buf.

(** PEP 479: from Python 3.7 on, a [StopIteration] raised inside a generator
    body is replaced by [RuntimeError] before it reaches the caller of
    [next]. Earlier interpreters let it through, which ends the iteration. *)
Inductive Runtime := Legacy | Pep479.

End Py.

Module grpc.

Inductive StatusCode :=
| OK
| NOT_FOUND
| ALREADY_EXISTS
| PERMISSION_DENIED
| FAILED_PRECONDITION
| DATA_LOSS
| INTERNAL
| UNKNOWN.

(** The [details] argument of [context.abort]: a plain message, or the
    formatted traceback of a caught exception. *)
Inductive Details :=
| Message (msg : string)
| Traceback (e : Py.Exn).

(** [grpc.ServicerContext]: the status a handler has set for the call so far. *)
Record ServicerContext := {
  code : option StatusCode;
  details : option string;
}.

Definition fresh : ServicerContext := {| code := None; details := None |}.

Definition set_code (c : StatusCode) (ctx : ServicerContext) : ServicerContext :=
  {| code := Some c; details := details ctx |}.

Definition set_details (d : string) (ctx : ServicerContext) : ServicerContext :=
  {| code := code ctx; details := Some d |}.

(** How a unary-response handler leaves: by [return], by [context.abort]
    (which raises and so skips the rest of the handler), or by an exception. *)
Inductive Outcome (R : Type) :=
| Return (r : R)
| Abort (c : StatusCode) (d : Details)
| Raise (e : Py.Exn).
Arguments Return {R} r.
Arguments Abort {R} c d.
Arguments Raise {R} e.

Definition bind {A B} (m : Outcome A) (k : A → Outcome B) : Outcome B :=
  match m with
  | Return a => k a
  | Abort c d => Abort c d
  | Raise e => Raise e
  end.

Definition lift {A} (r : Py.Exn + A) : Outcome A :=
  match r with inl e => Raise e | inr a => Return a end.

(** How a response generator ends after its last [yield]. *)
Inductive GenEnd :=
| Exhausted
| Raised (e : Py.Exn).

(** What the transport pulls out of a response generator. *)
Record Stream (R : Type) := {
  frames : list R;
  ending : GenEnd;
}.
Arguments frames {R} _.
Arguments ending {R} _.

(** The generator protocol applied to the way a generator body finished. *)
Definition generator_exit (rt : Py.Runtime) (body_end : GenEnd) : GenEnd :=
  match body_end, rt with
  | Raised Py.StopIteration, Py.Pep479 => Raised Py.RuntimeError
  | Raised Py.StopIteration, Py.Legacy => Exhausted
  | e, _ => e
  end.

(** The status the client observes for a call that returned normally. *)
Definition completion_code (ctx : ServicerContext) : StatusCode :=
  default OK (code ctx).

End grpc.

Notation "x ←ᵍ m ; k" := (grpc.bind m (λ x, k))
  (at level 20, m at level 100, k at level 200, right associativity, only parsing).

(** ** Protocol messages ([hangar_service_pb2]) *)

Module pb.

Record ErrorProto := { code : Z; message : string }.

Definition default_error : ErrorProto := {| code := 0; message := "" |}.
Definition ok : ErrorProto := {| code := 0; message := "OK" |}.

Record BranchRecord := { name : string; commit : string }.

Definition default_branch : BranchRecord := {| name := ""; commit := "" |}.

Record CommitRecord := { parent : bytes; ref : bytes; spec : bytes }.

Definition default_commit_record : CommitRecord :=
  {| parent := []; ref := []; spec := [] |}.

Inductive DataType := NP_ARRAY | STR | BYTES | UNRECOGNIZED (tag : Z).

Inductive DataLocation := REMOTE_SERVER | OTHER_LOCATION (tag : Z).

Record PushBranchRecordRequest := { pbr_rec : BranchRecord }.
Record PushBranchRecordReply := { pbr_error : ErrorProto }.

Record FetchCommitRequest := { fc_commit : string }.
Record FetchCommitReply := {
  fcr_commit : string;
  fcr_total_byte_size : Z;
  fcr_record : CommitRecord;
  fcr_error : ErrorProto;
}.

Record PushCommitRequest := {
  pc_commit : string;
  pc_total_byte_size : Z;
  pc_record : CommitRecord;
}.
Record PushCommitReply := { pcr_error : ErrorProto }.

Record SchemaRecord := { digest : string; blob : bytes }.
Record PushSchemaRequest := { ps_rec : SchemaRecord }.
Record PushSchemaReply := { psr_error : ErrorProto }.

Record FetchFindDataOriginRequest := { ffo_digest : string }.
Record FetchDataReply := {
  fdr_uri : string;
  fdr_raw_data : bytes;
  fdr_nbytes : Z;
  fdr_error : ErrorProto;
}.
Record DataOriginReply := {
  dor_location : DataLocation;
  dor_data_type : DataType;
  dor_digest : string;
  dor_uri : string;
  dor_compression : bool;
  dor_compression_opts : gmap string string;
}.

Record PushFindDataOriginRequest := {
  pfo_digest : string;
  pfo_data_type : DataType;
  pfo_compression_is_desired : bool;
}.
Record PushFindDataOriginReply := {
  pfor_digest : string;
  pfor_location : DataLocation;
  pfor_uri : string;
  pfor_compression_expected : bool;
  pfor_compression_opts_expected : gmap string string;
}.

Record PushDataRequest := {
  pd_uri : string;
  pd_data_type : DataType;
  pd_schema_hash : string;
  pd_nbytes : Z;
  pd_raw_data : bytes;
}.
Record PushDataReply := { pdr_error : ErrorProto }.

Record FindMissingCommitsRequest := {
  fmc_branch : BranchRecord;
  fmc_commits : list string;
}.
Record FindMissingCommitsReply := {
  fmcr_branch : BranchRecord;
  fmcr_commits : list string;
  fmcr_error : ErrorProto;
}.

End pb.


(** ** The server ([hangar/remote/server.py]) *)

Module server.

Import grpc.

(** *** Server state *)

(** The reference environment holds three entries per commit, under the keys
    [commit_ref_db_key_from_raw_key], [commit_parent_db_key_from_raw_key] and
    [commit_spec_db_key_from_raw_key]; each key family is one map here. *)
Record RefEnv := {
  commit_ref : gmap string bytes;
  commit_parent : gmap string bytes;
  commit_spec : gmap string bytes;
}.

(** The hash environment: data digest to backend locator (keys made by
    [hash_data_db_key_from_raw_key]) and schema digest to schema blob (keys
    made by [hash_schema_db_key_from_raw_key]). *)
Record HashEnv := {
  hash_data : gmap string string;
  hash_schema : gmap string bytes;
}.

Record Environments := {
  refenv : RefEnv;
  branchenv : gmap string string;
  hashenv : HashEnv;
}.

(** Modelled from the spec: [DataWriter] ([hangar/remote/content.py] is not
    among the sources), reduced to the flag [is_cm] the handlers read: whether
    the writer context is open. *)
Record DataWriter := { is_cm : bool }.

Record HangarServer := {
  env : Environments;
  DW : DataWriter;
}.

Definition Result (R : Type) : Type := Outcome R * ServicerContext * HangarServer.

Definition with_refenv (r : RefEnv) (self : HangarServer) : HangarServer :=
  {| env := {| refenv := r;
               branchenv := branchenv (env self);
               hashenv := hashenv (env self) |};
     DW := DW self |}.

Definition with_branchenv (b : gmap string string) (self : HangarServer) : HangarServer :=
  {| env := {| refenv := refenv (env self);
               branchenv := b;
               hashenv := hashenv (env self) |};
     DW := DW self |}.

Definition with_hashenv (h : HashEnv) (self : HangarServer) : HangarServer :=
  {| env := {| refenv := refenv (env self);
               branchenv := branchenv (env self);
               hashenv := h |};
     DW := DW self |}.

Definition with_DW (w : DataWriter) (self : HangarServer) : HangarServer :=
  {| env := env self; DW := w |}.

(** A repository in which nothing has been recorded, no push context open. *)
Definition empty_server : HangarServer :=
  {| env := {| refenv := {| commit_ref := ∅; commit_parent := ∅; commit_spec := ∅ |};
               branchenv := ∅;
               hashenv := {| hash_data := ∅; hash_schema := ∅ |} |};
     DW := {| is_cm := false |} |}.

(** *** Collaborators outside the sources

    Libraries ([blosc]) and modules of the package the handlers call whose
    behaviour the handlers do not depend on beyond their signature. *)
Class Collaborators := {
  (** a deserialised sample: an array, a string or a bytes object *)
  PyData : Type;
  (** [blosc.decompress] *)
  blosc_decompress : bytes → Py.Exn + bytes;
  (** [chunks.deserialize_data] *)
  deserialize_data : pb.DataType → bytes → Py.Exn + PyData;
  (** [hash_func_from_tcode (str dtype_code)] *)
  hash_func_from_tcode : pb.DataType → Py.Exn + (PyData → string);
  (** [DataWriter.data schema_hash data_digest data]: the exception raised,
      if any, and the server afterwards *)
  DW_data : string → string → PyData → HangarServer → option Py.Exn * HangarServer;
  (** [chunks.chunk_bytes] *)
  chunk_bytes : bytes → list bytes;
  (** the parent digests recorded in a commit's parent value *)
  commit_parents : bytes → list string;
  (** [commiting.move_process_data_to_store] *)
  move_process_data_to_store : HangarServer → HangarServer;
  (** the rendering of [hash_data_db_key_from_raw_key digest] in a message *)
  hash_data_db_key_from_raw_key : string → string;
}.

(** *** Modules of the package that are not among the sources *)

(** Modelled from the spec: [heads.get_branch_names], absent from the sources.
    A branch is a named pointer to a commit digest; these are the names. *)
Definition get_branch_names (branchenv : gmap string string) : list string :=
  elements (dom branchenv).

(** Modelled from the spec: [heads.get_branch_head_commit], absent from the
    sources. The head a branch points to; the handlers catch [ValueError] for
    a branch that does not exist. *)
Definition get_branch_head_commit (branchenv : gmap string string) (branch_name : string)
  : Py.Exn + string :=
  match branchenv !! branch_name with
  | Some head => inr head
  | None => inl Py.ValueError
  end.

(** Modelled from the spec: [heads.create_branch], absent from the sources
    ([create(name, base=digest)]). *)
Definition create_branch (branchenv : gmap string string) (name base_commit : string)
  : gmap string string :=
  <[name := base_commit]> branchenv.

(** Modelled from the spec: [heads.set_branch_head_commit], absent from the
    sources; the named pointer is moved to the digest. *)
Definition set_branch_head_commit (branchenv : gmap string string) (branch_name commit : string)
  : gmap string string :=
  <[branch_name := commit]> branchenv.

(** [txn.put(key, value, overwrite=False)]: the store afterwards and whether
    the value was written. *)
Definition put_no_overwrite {V} (key : string) (value : V) (db : gmap string V)
  : gmap string V * bool :=
  match db !! key with
  | Some _ => (db, false)
  | None => (<[key := value]> db, true)
  end.

(** Modelled from the spec: [ContentWriter.commit] ([hangar/remote/content.py]
    is not among the sources). Following the docstring of [PushCommit], it
    "will not overwrite data if a commit hash is already recorded": each of
    the three entries is put without overwriting, and the result is the digest
    when all three were new and [False] ([None]) otherwise. *)
Definition CW_commit (commit : string) (parentVal specVal refVal : bytes) (self : HangarServer)
  : option string * HangarServer :=
  let r := refenv (env self) in
  let '(parents, cmtParExists) := put_no_overwrite commit parentVal (commit_parent r) in
  let '(refs, cmtRefExists) := put_no_overwrite commit refVal (commit_ref r) in
  let '(specs, cmtSpcExists) := put_no_overwrite commit specVal (commit_spec r) in
  let self' := with_refenv {| commit_ref := refs; commit_parent := parents;
                              commit_spec := specs |} self in
  (if cmtParExists && cmtRefExists && cmtSpcExists then Some commit else None, self').

(** Modelled from the spec: [ContentWriter.schema], absent from the sources.
    Following the docstring of [PushSchema], it "will not overwrite a schema
    hash which already exists on the server"; the result is the digest when
    the blob was written and [False] ([None]) otherwise. *)
Definition CW_schema (schema_hash : string) (schemaVal : bytes) (self : HangarServer)
  : option string * HangarServer :=
  let h := hashenv (env self) in
  let '(schemas, schemaExists) := put_no_overwrite schema_hash schemaVal (hash_schema h) in
  (if schemaExists then Some schema_hash else None,
   with_hashenv {| hash_data := hash_data h; hash_schema := schemas |} self).

(** [not digest] for a result that is [False] or a string. *)
Definition falsy (digest : option string) : bool :=
  match digest with
  | None => true
  | Some d => bool_decide (d = "")
  end.

(** Modelled from the spec: [DataWriter.__enter__], absent from the sources:
    "BEGIN (open writer context)" of the push state machine; [is_cm] tells
    which side of it the writer is on. *)
Definition DW_enter (self : HangarServer) : HangarServer :=
  with_DW {| is_cm := true |} self.

(** Modelled from the spec: [DataWriter.__exit__], absent from the sources:
    "END (close context)". *)
Definition DW_exit (self : HangarServer) : HangarServer :=
  with_DW {| is_cm := false |} self.

(** Modelled from the spec: the specification [backend_decoder] returns,
    absent from the sources: the backend code and the backend-private rest. *)
Record DataSpec := { backend : string; locator_private : string }.

(** Modelled from the spec: [backend_decoder], absent from the sources. A
    locator is "an opaque string prefixed by a two-character backend code";
    the decoded specification exposes that code as [backend]. *)
Definition backend_decoder (hashVal : string) : DataSpec :=
  {| backend := String.substring 0 2 hashVal;
     locator_private := String.substring 2 (String.length hashVal - 2)%nat hashVal |}.

(** Modelled from the spec: [commiting.list_all_commits], absent from the
    sources: the digests of all commits recorded in the reference environment. *)
Definition list_all_commits (r : RefEnv) : list string :=
  elements (dom (commit_ref r)).

Section history.
Context `{Collaborators}.

(** Modelled from the spec: the walk of [summarize.list_history], absent from
    the sources: the commits met following parent links from [c], at most
    [fuel] commits deep. *)
Fixpoint ancestors (parents_of : string → list string) (fuel : nat) (c : string)
  : list string :=
  match fuel with
  | O => []
  | S fuel' => c :: flat_map (ancestors parents_of fuel') (parents_of c)
  end.

(** Modelled from the spec: the parents recorded for commit [c]; none for a
    commit without a parent entry. *)
Definition parents_of (r : RefEnv) (c : string) : list string :=
  match commit_parent r !! c with
  | Some parentVal => commit_parents parentVal
  | None => []
  end.

(** Modelled from the spec: the result of [summarize.list_history], with the
    fields the handlers read, ['head'] and ['order']. *)
Record History := { head : string; order : list string }.

(** Modelled from the spec: [summarize.list_history], absent from the sources:
    "history(name)", the commits reachable from the head of the branch;
    [ValueError] when the branch does not exist. A path without repetition
    visits at most every commit with a parent entry and one more, which
    bounds the walk. *)
Definition list_history (r : RefEnv) (branchenv : gmap string string) (branch_name : string)
  : Py.Exn + History :=
  match get_branch_head_commit branchenv branch_name with
  | inl e => inl e
  | inr h =>
      inr {| head := h;
             order := ancestors (parents_of r) (S (size (commit_parent r))) h |}
  end.

(** [p] is recorded as a parent of [c]. *)
Definition parent_link (r : RefEnv) (c p : string) : Prop := p ∈ parents_of r c.

End history.

(** *** The handlers of [HangarServer] *)

Section handlers.
Context `{Collaborators}.

(** [PushBranchRecord]: update the head of a branch, creating the record if
    it did not exist. *)
Definition PushBranchRecord (request : pb.PushBranchRecordRequest)
    (context : ServicerContext) (self : HangarServer) : Result pb.PushBranchRecordReply :=
  let branch_name := pb.name (pb.pbr_rec request) in
  let commit := pb.commit (pb.pbr_rec request) in
  let branch_names := get_branch_names (branchenv (env self)) in
  if decide (branch_name ∉ branch_names) then
    let self := with_branchenv (create_branch (branchenv (env self)) branch_name commit) self in
    (Return {| pb.pbr_error := pb.ok |}, context, self)
  else
    match get_branch_head_commit (branchenv (env self)) branch_name with
    | inl e => (Raise e, context, self)
    | inr current_head =>
        if decide (current_head = commit) then
          let msg := "NO CHANGE TO BRANCH: " +:+ branch_name +:+ " WITH HEAD: " +:+ current_head in
          (Abort ALREADY_EXISTS (Message msg), context, self)
        else
          let self :=
            with_branchenv (set_branch_head_commit (branchenv (env self)) branch_name commit) self in
          (Return {| pb.pbr_error := pb.ok |}, context, self)
    end.

(** [FetchCommit], a response generator: the frames it yields, how it ends,
    and the call context afterwards. *)
Definition FetchCommit (rt : Py.Runtime) (request : pb.FetchCommitRequest)
    (context : ServicerContext) (self : HangarServer)
  : Stream pb.FetchCommitReply * ServicerContext :=
  let commit := pb.fc_commit request in
  let commitRefVal := commit_ref (refenv (env self)) !! commit in
  let commitParentVal := commit_parent (refenv (env self)) !! commit in
  let commitSpecVal := commit_spec (refenv (env self)) !! commit in
  match commitRefVal with
  | None =>
      let msg := "COMMIT: " +:+ commit +:+ " DOES NOT EXIST ON SERVER" in
      let context := set_code NOT_FOUND (set_details msg context) in
      let err := {| pb.code := 5; pb.message := msg |} in
      let reply := {| pb.fcr_commit := commit; pb.fcr_total_byte_size := 0;
                      pb.fcr_record := pb.default_commit_record; pb.fcr_error := err |} in
      ({| frames := [reply]; ending := generator_exit rt (Raised Py.StopIteration) |}, context)
  | Some commitRefVal =>
      let raw_data_chunks := chunk_bytes commitRefVal in
      let bsize := Z.of_nat (length commitRefVal) in
      match commitParentVal, commitSpecVal with
      | Some parentVal, Some specVal =>
          let reply chunk :=
            {| pb.fcr_commit := commit; pb.fcr_total_byte_size := bsize;
               pb.fcr_record := {| pb.parent := parentVal; pb.ref := chunk; pb.spec := specVal |};
               pb.fcr_error := pb.default_error |} in
          ({| frames := reply <$> raw_data_chunks; ending := generator_exit rt Exhausted |},
           context)
      | _, _ =>
          (* [False] assigned to a bytes field of the record *)
          ({| frames := []; ending := generator_exit rt (Raised Py.TypeError) |}, context)
      end
  end.

Record PushCommitLocals := {
  pcl_commit : string;
  pcl_refBytes : bytes;
  pcl_offset : nat;
  pcl_specVal : bytes;
  pcl_parentVal : bytes;
}.

(** One turn of [for idx, request in enumerate(request_iterator)] in
    [PushCommit]; the locals are unbound ([None]) before the first turn. *)
Definition PushCommit_body (idx : nat) (request : pb.PushCommitRequest)
    (locals : option PushCommitLocals) : Outcome (option PushCommitLocals) :=
  locals ←ᵍ (if decide (idx = 0%nat) then
               refBytes ←ᵍ lift (Py.bytearray (pb.pc_total_byte_size request));
               Return (Some {| pcl_commit := pb.pc_commit request;
                               pcl_refBytes := refBytes;
                               pcl_offset := 0;
                               pcl_specVal := pb.spec (pb.pc_record request);
                               pcl_parentVal := pb.parent (pb.pc_record request) |})
             else Return locals);
  match locals with
  | None => Raise Py.UnboundLocalError
  | Some l =>
      let size := length (pb.ref (pb.pc_record request)) in
      Return (Some {| pcl_commit := pcl_commit l;
                      pcl_refBytes := Py.slice_assign (pcl_refBytes l) (pcl_offset l) size
                                        (pb.ref (pb.pc_record request));
                      pcl_offset := pcl_offset l + size;
                      pcl_specVal := pcl_specVal l;
                      pcl_parentVal := pcl_parentVal l |})
  end.

Fixpoint PushCommit_loop (idx : nat) (request_iterator : list pb.PushCommitRequest)
    (locals : option PushCommitLocals) : Outcome (option PushCommitLocals) :=
  match request_iterator with
  | [] => Return locals
  | request :: rest =>
      locals ←ᵍ PushCommit_body idx request locals;
      PushCommit_loop (S idx) rest locals
  end.

(** [PushCommit]: record the contents of a new commit sent to the server. *)
Definition PushCommit (request_iterator : list pb.PushCommitRequest)
    (context : ServicerContext) (self : HangarServer) : Result pb.PushCommitReply :=
  match PushCommit_loop 0 request_iterator None with
  | Abort c d => (Abort c d, context, self)
  | Raise e => (Raise e, context, self)
  | Return None => (Raise Py.UnboundLocalError, context, self)
  | Return (Some l) =>
      let '(digest, self) :=
        CW_commit (pcl_commit l) (pcl_parentVal l) (pcl_specVal l) (pcl_refBytes l) self in
      if falsy digest then
        let msg := "COMMIT: " +:+ pcl_commit l +:+ " ALREADY EXISTS" in
        let context := set_details msg (set_code ALREADY_EXISTS context) in
        let err := {| pb.code := 6; pb.message := msg |} in
        (Return {| pb.pcr_error := err |}, context, self)
      else
        let self := move_process_data_to_store self in
        (Return {| pb.pcr_error := pb.ok |}, context, self)
  end.

(** [PushSchema]: add a new schema byte specification record. *)
Definition PushSchema (request : pb.PushSchemaRequest)
    (context : ServicerContext) (self : HangarServer) : Result pb.PushSchemaReply :=
  let schema_hash := pb.digest (pb.ps_rec request) in
  let schema_val := pb.blob (pb.ps_rec request) in
  let '(digest, self) := CW_schema schema_hash schema_val self in
  if falsy digest then
    let msg := "SCHEMA: " +:+ schema_hash +:+ " ALREADY EXISTS ON SERVER" in
    let context := set_code ALREADY_EXISTS (set_details msg context) in
    let err := {| pb.code := 6; pb.message := msg |} in
    (Return {| pb.psr_error := err |}, context, self)
  else
    (Return {| pb.psr_error := pb.ok |}, context, self).

(** The frames of [FetchFindDataOrigin]: a [FetchDataReply] carrying the
    error for a digest the server does not have, a [DataOriginReply] otherwise. *)
Inductive DataOriginFrame :=
| ErrorFrame (reply : pb.FetchDataReply)
| OriginFrame (response : pb.DataOriginReply).

Definition compression_opts (cname : string) : gmap string string :=
  {[ "id" := "blosc"; "cname" := cname; "clevel" := "3" ]}.

(** The [if]/[elif] chain on [spec.backend]; [None] is the [raise TypeError]. *)
Definition data_type_of_backend (backend : string) : option pb.DataType :=
  if decide (backend ∈ ["01"; "00"; "10"]) then Some pb.NP_ARRAY
  else if decide (backend = "30") then Some pb.STR
  else if decide (backend = "31") then Some pb.BYTES
  else None.

(** [for digest in digests] of [FetchFindDataOrigin]: frames yielded, the way
    the generator body finishes, the call context. *)
Fixpoint FetchFindDataOrigin_loop (self : HangarServer) (digests : list string)
    (context : ServicerContext) : list DataOriginFrame * GenEnd * ServicerContext :=
  match digests with
  | [] => ([], Exhausted, context)
  | digest :: rest =>
      match hash_data (hashenv (env self)) !! digest with
      | None =>
          let msg := "HASH DOES NOT EXIST: " +:+ hash_data_db_key_from_raw_key digest in
          let context := set_code NOT_FOUND (set_details msg context) in
          let err := {| pb.code := 5; pb.message := msg |} in
          let reply := {| pb.fdr_uri := ""; pb.fdr_raw_data := []; pb.fdr_nbytes := 0;
                          pb.fdr_error := err |} in
          ([ErrorFrame reply], Raised Py.StopIteration, context)
      | Some hashVal =>
          let spec := backend_decoder hashVal in
          match data_type_of_backend (backend spec) with
          | None => ([], Raised Py.TypeError, context)
          | Some dtype =>
              let response :=
                {| pb.dor_location := pb.REMOTE_SERVER;
                   pb.dor_data_type := dtype;
                   pb.dor_digest := digest;
                   pb.dor_uri := digest;
                   pb.dor_compression := true;
                   pb.dor_compression_opts := compression_opts "blosclz" |} in
              let '(later, fin, context) := FetchFindDataOrigin_loop self rest context in
              (OriginFrame response :: later, fin, context)
          end
      end
  end.

Definition FetchFindDataOrigin (rt : Py.Runtime)
    (request_iterator : list pb.FetchFindDataOriginRequest)
    (context : ServicerContext) (self : HangarServer)
  : Stream DataOriginFrame * ServicerContext :=
  let digests := pb.ffo_digest <$> request_iterator in
  let '(yielded, fin, context) := FetchFindDataOrigin_loop self digests context in
  ({| frames := yielded; ending := generator_exit rt fin |}, context).

(** The compression a pusher is told to use for one request of
    [PushFindDataOrigin]. *)
Definition reply_compression (request : pb.PushFindDataOriginRequest)
  : Py.Exn + (bool * gmap string string) :=
  if pb.pfo_compression_is_desired request then
    match pb.pfo_data_type request with
    | pb.NP_ARRAY => inr (true, compression_opts "blosclz")
    | pb.STR => inr (true, compression_opts "zstd")
    | pb.BYTES => inr (true, compression_opts "blosclz")
    | pb.UNRECOGNIZED _ => inl Py.TypeError
    end
  else inr (false, ∅).

Fixpoint PushFindDataOrigin_loop (all_requests : list pb.PushFindDataOriginRequest)
  : list pb.PushFindDataOriginReply * GenEnd :=
  match all_requests with
  | [] => ([], Exhausted)
  | request :: rest =>
      match reply_compression request with
      | inl e => ([], Raised e)
      | inr (reply_compression_expected, reply_compression_opts_expected) =>
          let reply :=
            {| pb.pfor_digest := pb.pfo_digest request;
               pb.pfor_location := pb.REMOTE_SERVER;
               pb.pfor_uri := pb.pfo_digest request;
               pb.pfor_compression_expected := reply_compression_expected;
               pb.pfor_compression_opts_expected := reply_compression_opts_expected |} in
          let '(later, fin) := PushFindDataOrigin_loop rest in
          (reply :: later, fin)
      end
  end.

Definition PushFindDataOrigin (rt : Py.Runtime)
    (request_iterator : list pb.PushFindDataOriginRequest)
  : Stream pb.PushFindDataOriginReply :=
  let '(yielded, fin) := PushFindDataOrigin_loop request_iterator in
  {| frames := yielded; ending := generator_exit rt fin |}.

(** [PushBeginContext] and [PushEndContext]: enter and leave the data writer. *)
Definition PushBeginContext (context : ServicerContext) (self : HangarServer)
  : Result pb.ErrorProto :=
  (Return pb.ok, context, DW_enter self).

Definition PushEndContext (context : ServicerContext) (self : HangarServer)
  : Result pb.ErrorProto :=
  (Return pb.ok, context, DW_exit self).

Record PushDataLocals := {
  uri : string;
  dtype_code : pb.DataType;
  schema_hash : string;
  dBytes : bytes;
  offset : nat;
}.

(** One turn of [for idx, request in enumerate(request_iterator)] in
    [PushData]; the locals are unbound ([None]) before the first turn. *)
Definition PushData_body (self : HangarServer) (idx : nat) (request : pb.PushDataRequest)
    (locals : option PushDataLocals) : Outcome (option PushDataLocals) :=
  locals ←ᵍ (if decide (idx = 0%nat) then
               if negb (is_cm (DW self)) then
                 Abort FAILED_PRECONDITION (Message "Attept to push without opening context")
               else
                 dBytes ←ᵍ lift (Py.bytearray (pb.pd_nbytes request));
                 Return (Some {| uri := pb.pd_uri request;
                                 dtype_code := pb.pd_data_type request;
                                 schema_hash := pb.pd_schema_hash request;
                                 dBytes := dBytes;
                                 offset := 0 |})
             else Return locals);
  match locals with
  | None => Raise Py.UnboundLocalError
  | Some l =>
      let size := length (pb.pd_raw_data request) in
      Return (Some {| uri := uri l;
                      dtype_code := dtype_code l;
                      schema_hash := schema_hash l;
                      dBytes := Py.slice_assign (dBytes l) (offset l) size
                                  (pb.pd_raw_data request);
                      offset := offset l + size |})
  end.

Fixpoint PushData_loop (self : HangarServer) (idx : nat)
    (request_iterator : list pb.PushDataRequest) (locals : option PushDataLocals)
  : Outcome (option PushDataLocals) :=
  match request_iterator with
  | [] => Return locals
  | request :: rest =>
      locals ←ᵍ PushData_body self idx request locals;
      PushData_loop self (S idx) rest locals
  end.

(** What [PushData] computes from the assembled stream before it compares
    digests: the decompressed, deserialised sample and its hash. *)
Definition rehash (l : PushDataLocals) : Outcome (PyData * string) :=
  uncompBytes ←ᵍ lift (blosc_decompress (dBytes l));
  recieved_data ←ᵍ lift (deserialize_data (dtype_code l) uncompBytes);
  hash_func ←ᵍ lift (hash_func_from_tcode (dtype_code l));
  Return (recieved_data, hash_func recieved_data).

(** [PushData]: receive a compressed stream of binary data from the client. *)
Definition PushData (request_iterator : list pb.PushDataRequest)
    (context : ServicerContext) (self : HangarServer) : Result pb.PushDataReply :=
  match PushData_loop self 0 request_iterator None with
  | Abort c d => (Abort c d, context, self)
  | Raise e => (Raise e, context, self)
  | Return None => (Raise Py.UnboundLocalError, context, self)
  | Return (Some l) =>
      match rehash l with
      | Abort c d => (Abort c d, context, self)
      | Raise e => (Raise e, context, self)
      | Return (recieved_data, recieved_hash) =>
          if decide (recieved_hash ≠ uri l) then
            let msg := "HASH MANGLED, received: " +:+ recieved_hash
                       +:+ " != expected digest: " +:+ uri l in
            (Abort DATA_LOSS (Message msg), context, self)
          else
            match DW_data (schema_hash l) recieved_hash recieved_data self with
            | (Some e, self) => (Abort INTERNAL (Traceback e), context, self)
            | (None, self) => (Return {| pb.pdr_error := pb.ok |}, context, self)
            end
      end
  end.

(** [FetchFindMissingCommits]: commit digests existing on the server which are
    not present on the client. [list(a.difference(b))] enumerates the
    difference of two sets. *)
Definition FetchFindMissingCommits (request : pb.FindMissingCommitsRequest)
    (context : ServicerContext) (self : HangarServer)
  : Outcome pb.FindMissingCommitsReply * ServicerContext :=
  let c_branch_name := pb.name (pb.fmc_branch request) in
  let c_ordered_commits := pb.fmc_commits request in
  match list_history (refenv (env self)) (branchenv (env self)) c_branch_name with
  | inl Py.ValueError =>
      let msg := "BRANCH NOT EXIST. Name: " +:+ c_branch_name in
      let context := set_details msg (set_code NOT_FOUND context) in
      let err := {| pb.code := 5; pb.message := msg |} in
      (Return {| pb.fmcr_branch := pb.default_branch; pb.fmcr_commits := [];
                 pb.fmcr_error := err |}, context)
  | inl e => (Raise e, context)
  | inr s_history =>
      let s_orderset : gset string := list_to_set (order s_history) in
      let c_orderset : gset string := list_to_set c_ordered_commits in
      let c_missing := elements (s_orderset ∖ c_orderset) in
      let brch := {| pb.name := c_branch_name; pb.commit := head s_history |} in
      if decide (length c_missing = 0%nat) then
        (Return {| pb.fmcr_branch := brch; pb.fmcr_commits := []; pb.fmcr_error := pb.ok |},
         context)
      else
        (Return {| pb.fmcr_branch := brch; pb.fmcr_commits := [] ++ c_missing;
                   pb.fmcr_error := pb.ok |}, context)
  end.

(** [PushFindMissingCommits]: commit digests existing on the client which are
    not present on the server. *)
Definition PushFindMissingCommits (request : pb.FindMissingCommitsRequest)
    (context : ServicerContext) (self : HangarServer)
  : Outcome pb.FindMissingCommitsReply * ServicerContext :=
  let c_branch_name := pb.name (pb.fmc_branch request) in
  let c_head_commit := pb.commit (pb.fmc_branch request) in
  let c_ordered_commits := pb.fmc_commits request in
  let s_commits := list_all_commits (refenv (env self)) in
  let s_orderset : gset string := list_to_set s_commits in
  let c_orderset : gset string := list_to_set c_ordered_commits in
  let s_missing := elements (c_orderset ∖ s_orderset) in
  let brch := {| pb.name := c_branch_name; pb.commit := c_head_commit |} in
  if decide (length s_missing = 0%nat) then
    (Return {| pb.fmcr_branch := brch; pb.fmcr_commits := []; pb.fmcr_error := pb.ok |},
     context)
  else
    (Return {| pb.fmcr_branch := brch; pb.fmcr_commits := [] ++ s_missing;
               pb.fmcr_error := pb.ok |}, context).

End handlers.

(** The same collaborators with another [DataWriter.data]. *)
Definition with_DW_data (C : Collaborators)
    (writer : string → string → @PyData C → HangarServer → option Py.Exn * HangarServer)
  : Collaborators :=
  {| PyData := @PyData C;
     blosc_decompress := @blosc_decompress C;
     deserialize_data := @deserialize_data C;
     hash_func_from_tcode := @hash_func_from_tcode C;
     DW_data := writer;
     chunk_bytes := @chunk_bytes C;
     commit_parents := @commit_parents C;
     move_process_data_to_store := @move_process_data_to_store C;
     hash_data_db_key_from_raw_key := @hash_data_db_key_from_raw_key C |}.

(** The calls that open and close the push context, in the order served. *)
Inductive ContextCall := BeginContext | EndContext.

Definition serve_context_call (self : HangarServer) (call : ContextCall) : HangarServer :=
  match call with
  | BeginContext => (PushBeginContext fresh self).2
  | EndContext => (PushEndContext fresh self).2
  end.

Definition serve_context_calls (calls : list ContextCall) (self : HangarServer)
  : HangarServer :=
  foldl serve_context_call self calls.

(** A commit is recorded when its three entries are in the reference
    environment. *)
Definition commit_recorded (r : RefEnv) (commit : string) : Prop :=
  is_Some (commit_ref r !! commit)
  ∧ is_Some (commit_parent r !! commit)
  ∧ is_Some (commit_spec r !! commit).

(** A digest the server can report: it has a locator with a known backend. *)
Definition reportable (self : HangarServer) (digest : string) : Prop :=
  ∃ hashVal dtype,
    hash_data (hashenv (env self)) !! digest = Some hashVal
    ∧ data_type_of_backend (backend (backend_decoder hashVal)) = Some dtype.

(** The codec named to a pusher that desires compression, by data type. *)
Definition pushed_cname (data_type : pb.DataType) : string :=
  match data_type with
  | pb.STR => "zstd"
  | _ => "blosclz"
  end.

(** A unary call succeeds when the handler returns a reply and the status the
    call completes with is OK. *)
Definition succeeds {R} (res : Result R) : Prop :=
  ∃ reply, res.1.1 = Return reply ∧ completion_code res.1.2 = OK.

End server.

(** ** Further handlers of the server *)

Module server_rest.

Import grpc server.

Record FetchBranchRecordRequest := { fbq_rec : pb.BranchRecord }.
Record FetchBranchRecordReply := { fbr_rec : pb.BranchRecord; fbr_error : pb.ErrorProto }.

Record FetchSchemaRequest := { fsq_rec : pb.SchemaRecord }.
Record FetchSchemaReply := { fsr_rec : pb.SchemaRecord; fsr_error : pb.ErrorProto }.

Record FindMissingSchemasRequest := {
  fms_commit : string;
  fms_schema_digests : list string;
}.
Record FindMissingSchemasReply := {
  fmsr_commit : string;
  fmsr_schema_digests : list string;
  fmsr_error : pb.ErrorProto;
}.

(** [FetchBranchRecord]: return the current HEAD commit of a branch. *)
Definition FetchBranchRecord (request : FetchBranchRecordRequest)
    (context : ServicerContext) (self : HangarServer) : Result FetchBranchRecordReply :=
  let branch_name := pb.name (fbq_rec request) in
  match get_branch_head_commit (branchenv (env self)) branch_name with
  | inr head =>
      let rec := {| pb.name := branch_name; pb.commit := head |} in
      (Return {| fbr_rec := rec; fbr_error := pb.ok |}, context, self)
  | inl Py.ValueError =>
      let msg := "BRANCH: " +:+ branch_name +:+ " DOES NOT EXIST ON SERVER." in
      (Abort NOT_FOUND (Message msg), context, self)
  | inl e => (Raise e, context, self)
  end.

(** [FetchSchema]: return the raw byte specification of the schema with the
    requested hash. *)
Definition FetchSchema (request : FetchSchemaRequest)
    (context : ServicerContext) (self : HangarServer) : Result FetchSchemaReply :=
  let schema_hash := pb.digest (fsq_rec request) in
  match hash_schema (hashenv (env self)) !! schema_hash with
  | Some schemaExists =>
      let rec := {| pb.digest := schema_hash; pb.blob := schemaExists |} in
      (Return {| fsr_rec := rec; fsr_error := pb.ok |}, context, self)
  | None =>
      let msg := "SCHEMA HASH: " +:+ schema_hash +:+ " DOES NOT EXIST ON SERVER" in
      let context := set_code NOT_FOUND (set_details msg context) in
      let err := {| pb.code := 5; pb.message := msg |} in
      let rec := {| pb.digest := schema_hash; pb.blob := [] |} in
      (Return {| fsr_rec := rec; fsr_error := err |}, context, self)
  end.

(** Modelled from the spec: [HashQuery.list_all_schema_digests], absent from
    the sources: the digests of all schemas recorded in the hash environment. *)
Definition list_all_schema_digests (h : HashEnv) : list string :=
  elements (dom (hash_schema h)).

(** [PushFindMissingSchemas]: schema digests existing on the client and not on
    the server. *)
Definition PushFindMissingSchemas (request : FindMissingSchemasRequest)
    (context : ServicerContext) (self : HangarServer)
  : Outcome FindMissingSchemasReply * ServicerContext :=
  let commit := fms_commit request in
  let c_schemas : gset string := list_to_set (fms_schema_digests request) in
  let s_schemas : gset string :=
    list_to_set (list_all_schema_digests (hashenv (env self))) in
  let s_missing := elements (c_schemas ∖ s_schemas) in
  (Return {| fmsr_commit := commit; fmsr_schema_digests := [] ++ s_missing;
             fmsr_error := pb.ok |}, context).

(** What the server reads out of a commit it unpacks into a temporary
    database: [commiting.unpack_commit_ref] followed by
    [RecordQuery.schema_hashes]; the exception raised, if any. *)
Class CommitContents := {
  schema_hashes : RefEnv → string → Py.Exn + list string;
}.

(** [FetchFindMissingSchemas]: schema digests of a commit existing on the
    server and not on the client. *)
Definition FetchFindMissingSchemas `{CommitContents} (request : FindMissingSchemasRequest)
    (context : ServicerContext) (self : HangarServer)
  : Outcome FindMissingSchemasReply * ServicerContext :=
  let commit := fms_commit request in
  let c_schemas : gset string := list_to_set (fms_schema_digests request) in
  match schema_hashes (refenv (env self)) commit with
  | inl e => (Raise e, context)
  | inr hashes =>
      let s_schemas : gset string := list_to_set hashes in
      let c_missing := elements (s_schemas ∖ c_schemas) in
      (Return {| fmsr_commit := commit; fmsr_schema_digests := [] ++ c_missing;
                 fmsr_error := pb.ok |}, context)
  end.

(** The bytes a stream of chunks is assembled into over a buffer of [size]
    zero bytes: the chunks in order, then what is left of the buffer. *)
Definition assembled (size : Z) (chunks : list bytes) : bytes :=
  concat chunks ++ replicate (Z.to_nat size - length (concat chunks)) x00.

(** The reply [PushFindDataOrigin] gives to a request it accepts. *)
Definition origin_reply (request : pb.PushFindDataOriginRequest)
  : pb.PushFindDataOriginReply :=
  {| pb.pfor_digest := pb.pfo_digest request;
     pb.pfor_location := pb.REMOTE_SERVER;
     pb.pfor_uri := pb.pfo_digest request;
     pb.pfor_compression_expected := pb.pfo_compression_is_desired request;
     pb.pfor_compression_opts_expected :=
       if pb.pfo_compression_is_desired request
       then compression_opts (pushed_cname (pb.pfo_data_type request))
       else ∅ |}.

(** A request [PushFindDataOrigin] cannot answer: compression is desired for
    a data type it does not know. *)
Definition unanswerable (request : pb.PushFindDataOriginRequest) : Prop :=
  pb.pfo_compression_is_desired request = true
  ∧ ∃ tag, pb.pfo_data_type request = pb.UNRECOGNIZED tag.

(** The origin [FetchFindDataOrigin] reports for a digest whose backend maps
    to [dtype]. *)
Definition origin_response (digest : string) (dtype : pb.DataType) : pb.DataOriginReply :=
  {| pb.dor_location := pb.REMOTE_SERVER;
     pb.dor_data_type := dtype;
     pb.dor_digest := digest;
     pb.dor_uri := digest;
     pb.dor_compression := true;
     pb.dor_compression_opts := compression_opts "blosclz" |}.

(** What [FetchData] calls to read and pack a sample: the read accessor of a
    backend ([self._rFs[backend].read_data], which raises for a backend
    without accessor), [chunks.serialize_data] and [blosc.compress] with its
    [clevel], [cname] and [shuffle] arguments. *)
Class Readers := {
  Sample : Type;
  read_data : string → DataSpec → Py.Exn + Sample;
  serialize_data : Sample → pb.DataType * bytes;
  blosc_compress : bytes → Z → string → bool → bytes;
}.

(** [FetchData]: the packed bytes of the sample of a digest. Every way the
    handler can fail comes before its first [yield], so its run is either the
    whole stream of frames, an abort, or an exception. *)
Definition FetchData `{Collaborators} `{Readers} (uri : string)
    (context : ServicerContext) (self : HangarServer)
  : Outcome (list pb.FetchDataReply) :=
  match hash_data (hashenv (env self)) !! uri with
  | None => Abort NOT_FOUND (Traceback (Py.LibraryError "FileNotFoundError"))
  | Some hashVal =>
      let spec := backend_decoder hashVal in
      data ←ᵍ lift (read_data (backend spec) spec);
      let '(dtype_code, raw_record) := serialize_data data in
      let compressed_record := blosc_compress raw_record 3 "blosclz" false in
      Return ((λ raw_chunk,
                 {| pb.fdr_uri := uri;
                    pb.fdr_raw_data := raw_chunk;
                    pb.fdr_nbytes := Z.of_nat (length compressed_record);
                    pb.fdr_error := pb.ok |}) <$> chunk_bytes compressed_record)
  end.

(** [commiting.move_process_data_to_store] moves data files into the store;
    this says that it leaves the environments and the writer alone. *)
Definition store_keeps_env `{Collaborators} : Prop :=
  ∀ self, env (move_process_data_to_store self) = env self
          ∧ DW (move_process_data_to_store self) = DW self.

End server_rest.

(** ** Writing a sample into an arrayset

    The arrayset class itself is not among the sources; [tests/test_arrayset.py]
    and [tests/property_based/test_pbt_arrayset.py] exercise it. The model
    below follows the specification of [set(key, value)]. *)

Module arrayset.

(** Modelled from the spec: what a caller may pass as a sample key (the tests
    pass integers, floats and strings). *)
Inductive PyKey :=
| KInt (n : Z)
| KFloat (x : QArith_base.Q)
| KStr (s : string).

(** Modelled from the spec: a key an arrayset records, "a tagged variant
    { Int(u64), Str(String ≤64) }". Integer and string keys are distinct ([1]
    and ['1'] coexist). *)
Inductive SampleKey :=
| Int (n : N)
| Str (s : string).

#[global] Instance SampleKey_eq_dec : EqDecision SampleKey.
Proof. solve_decision. Defined.

#[global] Instance SampleKey_countable : Countable SampleKey.
Proof.
  refine (inj_countable' (λ k, match k with Int n => inl n | Str s => inr s end)
                         (λ x, match x with inl n => Int n | inr s => Str s end) _).
  intros []; reflexivity.
Defined.

(** Modelled from the spec: the alphabet of names, [A-Za-z0-9_.-]
    ([string.ascii_letters + string.digits + '_-.'] in the property tests). *)
Definition is_name_char (a : Ascii.ascii) : bool :=
  let n := Ascii.nat_of_ascii a in
  ((65 <=? n) && (n <=? 90) || (97 <=? n) && (n <=? 122) || (48 <=? n) && (n <=? 57)
   || (n =? 95) || (n =? 45) || (n =? 46))%nat.

(** Modelled from the spec: every character of [s] is in the alphabet. *)
Fixpoint all_name_chars (s : string) : bool :=
  match s with
  | EmptyString => true
  | String a rest => is_name_char a && all_name_chars rest
  end.

(** Modelled from the spec: the key check of [set(key, value)], absent from
    the sources. "Sample keys are either non-negative integers or strings of
    length 1–64 over [A-Za-z0-9_.-]"; any other key is refused ([None]). *)
Definition validate_key (key : PyKey) : option SampleKey :=
  match key with
  | KInt n => if decide (0 ≤ n) then Some (Int (Z.to_N n)) else None
  | KFloat _ => None
  | KStr s =>
      if decide (1 ≤ String.length s ≤ 64)%nat then
        if all_name_chars s then Some (Str s) else None
      else None
  end.

(** Modelled from the spec: a dense array as the arrayset sees it: element
    type, shape, memory order and the element bytes. *)
Record ndarray := {
  dtype : string;
  shape : list nat;
  c_contiguous : bool;
  buffer : bytes;
}.

(** Modelled from the spec: what a caller may pass as a sample value. *)
Inductive PyValue :=
| Array (a : ndarray)
| NotAnArray.

(** Modelled from the spec: the schema of an arrayset, "element type, rank,
    maximum per-axis extent, a [variable_shape] flag, and the default backend
    code". *)
Record Schema := {
  schema_dtype : string;
  schema_max_shape : list nat;
  variable_shape : bool;
  default_backend : string;
}.

(** Modelled from the spec: "per-axis extent vs max"; [true] when every
    extent is within the maximum of its axis (the lists have the same length
    where this is used). *)
Fixpoint within_max (dims maxima : list nat) : bool :=
  match dims, maxima with
  | d :: dims', m :: maxima' => (d <=? m)%nat && within_max dims' maxima'
  | _, _ => true
  end.

(** Modelled from the spec: the value check of [set(key, value)], absent from
    the sources: "validates value against schema (dtype, rank, per-axis extent
    vs max)"; "non-contiguous or column-major inputs are rejected"; with
    [variable_shape=false] "all samples must match shape exactly". The result
    is the message of the [ValueError], or [None] for a value that passes. *)
Definition verify_array (sch : Schema) (value : PyValue) : option string :=
  match value with
  | NotAnArray => Some "`data` argument type"
  | Array a =>
      if negb (c_contiguous a) then Some "`data` must be C contiguous array."
      else if decide (dtype a ≠ schema_dtype sch) then Some "dtype != aset dtype"
      else if variable_shape sch then
        if decide (length (shape a) ≠ length (schema_max_shape sch)) then
          Some "data rank != aset rank"
        else if negb (within_max (shape a) (schema_max_shape sch)) then
          Some "dimensions of data exceeds schema max"
        else None
      else if decide (shape a ≠ schema_max_shape sch) then Some "data shape != fixed aset shape"
      else None
  end.

(** Modelled from the spec: the hash space, absent from the sources: the
    digest of a tensor, computed over its canonical byte serialisation (dtype
    tag, shape, element bytes). *)
Class HashSpace := {
  tensor_digest : string → list nat → bytes → string;
}.

(** Modelled from the spec: a backend locator, the two-character backend code
    and the backend-private remainder, here the slot the payload was written
    to. *)
Record Locator := { code : string; slot : nat }.

(** Modelled from the spec: a writer checkout's view of one arrayset: its
    schema, the recorded samples (key to digest), the hash index (digest to
    locator) and the payloads the backend holds, by slot. *)
Record Arrayset := {
  schema : Schema;
  samples : gmap SampleKey string;
  hash_index : gmap string Locator;
  payloads : list ndarray;
}.

(** Modelled from the spec: how [aset[key] = value] leaves. *)
Inductive SetResult :=
| Stored (key : SampleKey) (digest : string)
| ValueError (msg : string).

Section set.
Context `{HashSpace}.

(** Modelled from the spec: "computes digest". *)
Definition digest_of (a : ndarray) : string :=
  tensor_digest (dtype a) (shape a) (buffer a).

(** Modelled from the spec: the deduplicating write of [set(key, value)],
    absent from the sources: "before writing, the caller checks whether the
    digest already exists; the backend stores only fresh payloads". *)
Definition write_payload (a : ndarray) (digest : string) (aset : Arrayset) : Arrayset :=
  match hash_index aset !! digest with
  | Some _ => aset
  | None =>
      let locator := {| code := default_backend (schema aset);
                        slot := length (payloads aset) |} in
      {| schema := schema aset;
         samples := samples aset;
         hash_index := <[digest := locator]> (hash_index aset);
         payloads := payloads aset ++ [a] |}
  end.

(** Modelled from the spec: "records (key → digest)". *)
Definition record_sample (key : SampleKey) (digest : string) (aset : Arrayset) : Arrayset :=
  {| schema := schema aset;
     samples := <[key := digest]> (samples aset);
     hash_index := hash_index aset;
     payloads := payloads aset |}.

(** Modelled from the spec: [aset[key] = value], absent from the sources:
    "validates key (type and character set), validates value against schema,
    [...] computes digest, deduplicates via hash index, stores or reuses
    locator, records (key → digest)". The result and the arrayset afterwards. *)
Definition setitem (key : PyKey) (value : PyValue) (aset : Arrayset)
  : SetResult * Arrayset :=
  match validate_key key with
  | None => (ValueError "Sample name provided is not suitable", aset)
  | Some k =>
      match verify_array (schema aset) value, value with
      | Some msg, _ => (ValueError msg, aset)
      | None, NotAnArray => (ValueError "`data` argument type", aset)
      | None, Array a =>
          let digest := digest_of a in
          (Stored k digest, record_sample k digest (write_payload a digest aset))
      end
  end.

(** Modelled from the spec: [len(aset)], the number of keys recorded. *)
Definition len (aset : Arrayset) : nat := size (samples aset).

End set.

(** A sample the schema does not admit: with [variable_shape=false] its shape
    or its dtype differs from the schema's; with [variable_shape=true] its
    rank differs from the schema's or one of its extents is above the maximum
    of that axis. *)
Definition violates_schema (sch : Schema) (a : ndarray) : Prop :=
  if variable_shape sch then
    length (shape a) ≠ length (schema_max_shape sch)
    ∨ ∃ axis extent maximum,
        shape a !! axis = Some extent
        ∧ schema_max_shape sch !! axis = Some maximum
        ∧ (maximum < extent)%nat
  else
    shape a ≠ schema_max_shape sch ∨ dtype a ≠ schema_dtype sch.

(** A key that is a float, a negative integer, or a string of more than 64
    characters. *)
Definition unsuitable_key (key : PyKey) : Prop :=
  match key with
  | KFloat _ => True
  | KInt n => n < 0
  | KStr s => (64 < String.length s)%nat
  end.

End arrayset.

(** ** Reading a sample back from an arrayset *)

Module arrayset_rest.

Import arrayset.

(** A value the schema admits: a C-contiguous array of the schema's element
    type whose shape is the schema's, or, with [variable_shape], has the
    schema's rank and no extent above the maximum of its axis. *)
Definition conforms (sch : Schema) (value : PyValue) : Prop :=
  match value with
  | NotAnArray => False
  | Array a =>
      c_contiguous a = true
      ∧ dtype a = schema_dtype sch
      ∧ if variable_shape sch
        then Forall2 (λ extent maximum, extent ≤ maximum)%nat (shape a) (schema_max_shape sch)
        else shape a = schema_max_shape sch
  end.

(** Modelled from the spec: how [aset[key]] leaves. *)
Inductive GetResult :=
| Found (a : ndarray)
| KeyError
| Unresolved (digest : string).

(** Modelled from the spec: [aset[key]], absent from the sources: "resolves
    digest via stored mapping, resolves locator via hash index, reads payload
    via backend accessor". A key that is not recorded is a [KeyError]. *)
Definition getitem (key : PyKey) (aset : Arrayset) : GetResult :=
  match validate_key key with
  | None => KeyError
  | Some k =>
      match samples aset !! k with
      | None => KeyError
      | Some digest =>
          match hash_index aset !! digest with
          | None => Unresolved digest
          | Some locator =>
              match payloads aset !! slot locator with
              | None => Unresolved digest
              | Some a => Found a
              end
          end
      end
  end.

(** Every recorded sample has its digest in the hash index, and every entry
    of the hash index locates a stored payload of that digest. *)
Definition resolvable `{HashSpace} (aset : Arrayset) : Prop :=
  (∀ k digest, samples aset !! k = Some digest → is_Some (hash_index aset !! digest))
  ∧ (∀ digest locator,
       hash_index aset !! digest = Some locator →
       ∃ a, payloads aset !! slot locator = Some a ∧ digest_of a = digest).

(** Every payload the backend holds is C contiguous, as every value that
    passes the value check is. *)
Definition stored_contiguous (aset : Arrayset) : Prop :=
  Forall (λ a, c_contiguous a = true) (payloads aset).

(** The hash space tells tensors apart: two tensors of one digest have the
    same element type, shape and element bytes. *)
Definition collision_free `{HashSpace} : Prop :=
  ∀ dtype1 shape1 buffer1 dtype2 shape2 buffer2,
    tensor_digest dtype1 shape1 buffer1 = tensor_digest dtype2 shape2 buffer2 →
    dtype1 = dtype2 ∧ shape1 = shape2 ∧ buffer1 = buffer2.

End arrayset_rest.

(** ** The torch dataset adapter ([hangar/dataset/torch_dset.py]) *)

Module torch_dset.

(** A Python [dict] with string keys: entries in insertion order, no key twice. *)
Record PyDict (V : Type) := {
  items : list (string * V);
  keys_unique : NoDup items.*1;
}.
Arguments items {V} _.
Arguments keys_unique {V} _.

(** [list(d.keys())] *)
Definition keys {V} (d : PyDict V) : list string := (items d).*1.

(** [iter(a)] on a column sample, as [zip] calls it. *)
Class PyIter (A : Type) := py_iter : A → Py.Exn + list A.

Section dataset.
(** [Column]: a column object; [A]: the value a column holds for one sample. *)
Context {Column A : Type} `{PyIter A}.

(** Modelled from the spec: what [HangarDataset.index_get] hands back, "the
    tuple (or named record) of values [...] across arraysets": the sample of
    the only column, or a tuple with one component per column. *)
Inductive Data :=
| Sample (a : A)
| Tuple (components : list A).

(** Modelled from the spec: [hangar.dataset.common.HangarDataset], absent
    from the sources; the adapter reads its [columns], its length and
    [index_get]. *)
Record HangarDataset := {
  columns : PyDict Column;
  dataset_len : nat;
  index_get : Z → Py.Exn + Data;
}.

Record TorchDataset := {
  dataset : HangarDataset;
  column_names : list string;
  as_dict : bool;
}.

(** [TorchDataset.__init__] *)
Definition init (hangar_dataset : HangarDataset) (as_dict : bool) : TorchDataset :=
  {| dataset := hangar_dataset;
     column_names := keys (columns hangar_dataset);
     as_dict := as_dict |}.

(** [TorchDataset.__len__] *)
Definition len (self : TorchDataset) : nat := dataset_len (dataset self).

(** The values [__getitem__] returns. *)
Inductive Item :=
| Plain (data : Data)
| Dict (entries : list (string * Data))
| OrderedDict (entries : list (string * A)).

(** [d[k] = v] on an ordered dictionary: a known key keeps its place. *)
Fixpoint od_set (k : string) (v : A) (d : list (string * A)) : list (string * A) :=
  match d with
  | [] => [(k, v)]
  | (k', v') :: d' => if decide (k = k') then (k, v) :: d' else (k', v') :: od_set k v d'
  end.

(** [OrderedDict(pairs)] *)
Definition OrderedDict_of (pairs : list (string * A)) : list (string * A) :=
  foldl (λ d kv, od_set kv.1 kv.2 d) [] pairs.

(** [iter(data)] *)
Definition iter_data (data : Data) : Py.Exn + list A :=
  match data with
  | Tuple components => inr components
  | Sample a => py_iter a
  end.

(** [TorchDataset.__getitem__] *)
Definition getitem (self : TorchDataset) (index : Z) : Py.Exn + Item :=
  match index_get (dataset self) index with
  | inl e => inl e
  | inr data =>
      if negb (as_dict self) then inr (Plain data)
      else
        match column_names self with
        | [name] => inr (Dict [(name, data)])
        | _ =>
            match iter_data data with
            | inl e => inl e
            | inr components =>
                inr (OrderedDict (OrderedDict_of (zip (column_names self) components)))
            end
        end
  end.

End dataset.

Arguments Data : clear implicits.
Arguments HangarDataset : clear implicits.
Arguments TorchDataset : clear implicits.
Arguments Item : clear implicits.

End torch_dset.

(** ** Reading the items of the torch dataset *)

Module torch_dset_rest.

(** [d[k]] on the entries of an ordered dictionary. *)
Fixpoint od_lookup {A} (k : string) (d : list (string * A)) : option A :=
  match d with
  | [] => None
  | (k', v) :: d' => if decide (k = k') then Some v else od_lookup k d'
  end.

End torch_dset_rest.

(** ** Concrete collaborators and repositories used to run the handlers *)

Module fixtures.

Import grpc server.

(** The digest of the bytes of [s] is [s] itself; data travels uncompressed;
    [DataWriter.data] files every sample under backend [00]; a commit's
    parent value is the parent digest, empty for a root commit. *)
#[export] Instance plain : Collaborators := {|
  PyData := bytes;
  blosc_decompress b := inr b;
  deserialize_data _ b := inr b;
  hash_func_from_tcode _ := inr String.string_of_list_byte;
  DW_data _ data_digest _ self :=
    (None,
     with_hashenv {| hash_data := <[data_digest := "00:" +:+ data_digest]>
                                    (hash_data (hashenv (env self)));
                     hash_schema := hash_schema (hashenv (env self)) |} self);
  chunk_bytes b := [b];
  commit_parents b := match b with [] => [] | _ => [String.string_of_list_byte b] end;
  move_process_data_to_store self := self;
  hash_data_db_key_from_raw_key d := "h:" +:+ d;
|}.

Definition b (s : string) : bytes := String.list_byte_of_string s.

(** The same collaborators with a codec that refuses an empty payload. *)
Definition refusing_empty : Collaborators :=
  {| PyData := bytes;
     blosc_decompress payload :=
       match payload with
       | [] => inl (Py.LibraryError "blosc")
       | _ => inr payload
       end;
     deserialize_data _ payload := inr payload;
     hash_func_from_tcode _ := inr String.string_of_list_byte;
     DW_data := @DW_data plain;
     chunk_bytes := @chunk_bytes plain;
     commit_parents := @commit_parents plain;
     move_process_data_to_store := @move_process_data_to_store plain;
     hash_data_db_key_from_raw_key := @hash_data_db_key_from_raw_key plain |}.

(** A server inside a push context that already holds the sample ["d"]. *)
Definition pushing_server : HangarServer :=
  {| env := {| refenv := {| commit_ref := ∅; commit_parent := ∅; commit_spec := ∅ |};
               branchenv := ∅;
               hashenv := {| hash_data := {[ "d" := "00:d" ]}; hash_schema := ∅ |} |};
     DW := {| is_cm := true |} |}.

(** One [PushData] frame asserting digest [uri] for the payload [payload]. *)
Definition push_frame (uri payload : string) : pb.PushDataRequest :=
  {| pb.pd_uri := uri;
     pb.pd_data_type := pb.NP_ARRAY;
     pb.pd_schema_hash := "s";
     pb.pd_nbytes := Z.of_nat (String.length payload);
     pb.pd_raw_data := b payload |}.

(** A server that holds the root commit ["c1"], the schema ["s1"] and the
    branch ["master"] pointing at ["c1"]. *)
Definition holding_server : HangarServer :=
  {| env := {| refenv := {| commit_ref := {[ "c1" := b "refs" ]};
                            commit_parent := {[ "c1" := [] ]};
                            commit_spec := {[ "c1" := b "spec" ]} |};
               branchenv := {[ "master" := "c1" ]};
               hashenv := {| hash_data := ∅; hash_schema := {[ "s1" := b "schema" ]} |} |};
     DW := {| is_cm := false |} |}.

(** The single frame that uploads commit [commit] with the given parent value. *)
Definition commit_frame (commit parent : string) : pb.PushCommitRequest :=
  {| pb.pc_commit := commit;
     pb.pc_total_byte_size := 4;
     pb.pc_record := {| pb.parent := b parent; pb.ref := b "refs"; pb.spec := b "spec" |} |}.

Definition branch_request (name commit : string) : pb.PushBranchRecordRequest :=
  {| pb.pbr_rec := {| pb.name := name; pb.commit := commit |} |}.

Definition schema_request (digest blob : string) : pb.PushSchemaRequest :=
  {| pb.ps_rec := {| pb.digest := digest; pb.blob := b blob |} |}.

(** A client pushes the chain [c1, c2] (["c2"] has parent ["c1"]) and then
    the branch ["master"] at ["c2"] to an empty server. *)
Definition after_c1 : HangarServer :=
  (PushCommit [commit_frame "c1" ""] fresh empty_server).2.

Definition after_c2 : HangarServer :=
  (PushCommit [commit_frame "c2" "c1"] fresh after_c1).2.

Definition pushed_chain : HangarServer :=
  (PushBranchRecord (branch_request "master" "c2") fresh after_c2).2.

(** A server that holds the string sample ["t"] under backend [30] and the
    array sample ["a"] under backend [00]. *)
Definition string_server : HangarServer :=
  {| env := {| refenv := {| commit_ref := ∅; commit_parent := ∅; commit_spec := ∅ |};
               branchenv := ∅;
               hashenv := {| hash_data := {[ "t" := "30:abc"; "a" := "00:xyz" ]};
                             hash_schema := ∅ |} |};
     DW := {| is_cm := false |} |}.

Definition origin_request (digest : string) : pb.FetchFindDataOriginRequest :=
  {| pb.ffo_digest := digest |}.

(** A server whose sample ["d"] is filed under a backend code the handlers do
    not know, next to the array sample ["a"]. *)
Definition odd_backend_server : HangarServer :=
  {| env := {| refenv := {| commit_ref := ∅; commit_parent := ∅; commit_spec := ∅ |};
               branchenv := ∅;
               hashenv := {| hash_data := {[ "d" := "50:d"; "a" := "00:xyz" ]};
                             hash_schema := ∅ |} |};
     DW := {| is_cm := false |} |}.

(** What the schemas of a commit are taken to be when running
    [FetchFindMissingSchemas]: ["s1"] and ["s2"] for a recorded commit. *)
Definition two_schemas : server_rest.CommitContents :=
  {| server_rest.schema_hashes r commit :=
       match commit_ref r !! commit with
       | Some _ => inr ["s1"; "s2"]
       | None => inl Py.KeyError
       end |}.

(** What a peer that has no commit asks about a branch. *)
Definition fresh_peer_request (branch_name : string) : pb.FindMissingCommitsRequest :=
  {| pb.fmc_branch := {| pb.name := branch_name; pb.commit := "" |};
     pb.fmc_commits := [] |}.

(** A hash space in which a digest spells out what it covers. *)
#[export] Instance spelled_digest : arrayset.HashSpace := {|
  arrayset.tensor_digest dtype shape buffer :=
    dtype +:+ "/" +:+ String.string_of_list_byte buffer;
|}.

(** A hash space whose digest is the decimal numeral of the code of the
    element type, the shape and the element bytes, so that no two tensors
    share one. *)
Definition numbered_digest : arrayset.HashSpace := {|
  arrayset.tensor_digest dtype shape buffer :=
    pretty (encode (dtype, shape, String.string_of_list_byte buffer));
|}.

(** An empty arrayset of fixed shape [(2, 3)] and one of variable shape with
    maximum [(2, 3)]. *)
Definition fixed_aset : arrayset.Arrayset :=
  {| arrayset.schema := {| arrayset.schema_dtype := "int64";
                           arrayset.schema_max_shape := [2; 3]%nat;
                           arrayset.variable_shape := false;
                           arrayset.default_backend := "00" |};
     arrayset.samples := ∅;
     arrayset.hash_index := ∅;
     arrayset.payloads := [] |}.

Definition variable_aset : arrayset.Arrayset :=
  {| arrayset.schema := {| arrayset.schema_dtype := "float32";
                           arrayset.schema_max_shape := [2; 3]%nat;
                           arrayset.variable_shape := true;
                           arrayset.default_backend := "10" |};
     arrayset.samples := ∅;
     arrayset.hash_index := ∅;
     arrayset.payloads := [] |}.

(** A C-contiguous array of the given element type and shape. *)
Definition array_of (dtype : string) (shape : list nat) (content : string)
  : arrayset.ndarray :=
  {| arrayset.dtype := dtype;
     arrayset.shape := shape;
     arrayset.c_contiguous := true;
     arrayset.buffer := b content |}.

(** Readers that find the locator itself in every known backend and pack by
    prefixing the codec name. *)
Definition naming_readers : server_rest.Readers :=
  {| server_rest.Sample := string;
     server_rest.read_data backend spec :=
       if decide (backend ∈ ["00"; "01"; "10"; "30"; "31"])
       then inr (locator_private spec) else inl Py.KeyError;
     server_rest.serialize_data data := (pb.STR, b data);
     server_rest.blosc_compress raw clevel cname shuffle := (b cname ++ raw)%list |}.

Definition name_of_65_characters : string :=
  "VeryLongNameIsInvalidOver64CharactersNotAllowedVeryLongNameIsInva".

(** Samples are named by strings here; a string is not iterated over. *)
#[export] Instance opaque_sample : torch_dset.PyIter string := λ _, inl Py.TypeError.

Definition image_class_columns : torch_dset.PyDict unit :=
  {| torch_dset.items := [("images", tt); ("classes", tt)];
     torch_dset.keys_unique := ltac:(apply (bool_decide_unpack _); exact I) |}.

Definition image_columns : torch_dset.PyDict unit :=
  {| torch_dset.items := [("images", tt)];
     torch_dset.keys_unique := ltac:(apply (bool_decide_unpack _); exact I) |}.

(** A dataset of three samples over the columns [images] and [classes], and
    one over [images] alone. *)
Definition image_class_dataset : torch_dset.HangarDataset unit string :=
  {| torch_dset.columns := image_class_columns;
     torch_dset.dataset_len := 3;
     torch_dset.index_get index :=
       if decide (0 ≤ index < 3) then inr (torch_dset.Tuple ["img"; "cls"])
       else inl Py.KeyError |}.

Definition image_dataset : torch_dset.HangarDataset unit string :=
  {| torch_dset.columns := image_columns;
     torch_dset.dataset_len := 3;
     torch_dset.index_get index :=
       if decide (0 ≤ index < 3) then inr (torch_dset.Sample "img")
       else inl Py.KeyError |}.

End fixtures.

(** * Properties *)

Module server_facts.

Import grpc server.

Section facts.
Context `{Collaborators}.

Lemma PushData_loop_first_closed self request rest :
  is_cm (DW self) = false →
  PushData_loop self 0 (request :: rest) None
  = Abort FAILED_PRECONDITION (Message "Attept to push without opening context").
Proof.
  intros Hcm. simpl. unfold PushData_body. simpl. rewrite Hcm. reflexivity.
Qed.

(** The writer flag after a run of context calls is decided by the last one. *)
Lemma is_cm_after_context_calls calls self :
  is_cm (DW (serve_context_calls calls self))
  = match last calls with
    | Some BeginContext => true
    | Some EndContext => false
    | None => is_cm (DW self)
    end.
Proof.
  unfold serve_context_calls.
  induction calls as [|call calls _] using rev_ind; [reflexivity|].
  rewrite foldl_app, last_snoc. simpl. destruct call; reflexivity.
Qed.

(** C2. A non-empty [PushData] stream that arrives while no push context is
    open (the server started closed, and the last context call served, if
    any, was not a [PushBeginContext]) is aborted with FAILED_PRECONDITION at
    its first frame: the receiving loop leaves with the abort before the
    buffer is allocated, nothing is assembled, and the server is left as it
    was. *)
Theorem PushData_without_context_fails calls self0 request rest context :
  is_cm (DW self0) = false →
  last calls ≠ Some BeginContext →
  let self := serve_context_calls calls self0 in
  PushData_loop self 0 (request :: rest) None
  = Abort FAILED_PRECONDITION (Message "Attept to push without opening context")
  ∧ PushData (request :: rest) context self
    = (Abort FAILED_PRECONDITION (Message "Attept to push without opening context"),
       context, self).
Proof.
  intros Hclosed Hlast self.
  assert (Hcm : is_cm (DW self) = false).
  { subst self. rewrite is_cm_after_context_calls.
    destruct (last calls) as [[]|]; [congruence|reflexivity|assumption]. }
  pose proof (PushData_loop_first_closed self request rest Hcm) as Hloop.
  split; [exact Hloop|].
  unfold PushData. rewrite Hloop. reflexivity.
Qed.

(** After its first turn the receiving loop runs to the end of the stream and
    keeps the digest, data type and schema the first frame named. *)
Lemma PushData_loop_rest self rest : ∀ idx l,
  idx ≠ 0%nat →
  ∃ l', PushData_loop self idx rest (Some l) = Return (Some l')
        ∧ uri l' = uri l
        ∧ dtype_code l' = dtype_code l
        ∧ schema_hash l' = schema_hash l.
Proof.
  induction rest as [|request rest IH]; intros idx l Hidx; simpl.
  - eauto.
  - unfold PushData_body. destruct (decide (idx = 0%nat)); [done|]. simpl.
    edestruct (IH (S idx)) as (l' & -> & Huri & Hdtype & Hschema); [lia|].
    exists l'. done.
Qed.

(** Inside an open context a non-empty stream whose first frame announces a
    size is received whole. *)
Lemma PushData_loop_completes self first rest :
  is_cm (DW self) = true →
  0 ≤ pb.pd_nbytes first →
  ∃ l, PushData_loop self 0 (first :: rest) None = Return (Some l)
       ∧ uri l = pb.pd_uri first
       ∧ dtype_code l = pb.pd_data_type first
       ∧ schema_hash l = pb.pd_schema_hash first.
Proof.
  intros Hcm Hsize. simpl. unfold PushData_body, Py.bytearray. simpl.
  rewrite Hcm. destruct (decide (0 ≤ pb.pd_nbytes first)); [|done]. simpl.
  edestruct (PushData_loop_rest self rest 1) as (l' & -> & Huri & Hdtype & Hschema); [lia|].
  exists l'. done.
Qed.

(** C1 (as amended). A [PushData] stream received inside an open push context
    is assembled into [l], whose asserted digest is the [uri] of the first
    frame. When re-hashing the assembled payload gives another digest, the
    call is aborted with DATA_LOSS and the server is returned as it was; the
    outcome is the same whatever [DataWriter.data] would do, which is not
    called. In the hash index an entry for the asserted digest (or any other)
    is therefore there afterwards exactly when it was there before. *)
Theorem PushData_digest_mismatch first rest context self :
  is_cm (DW self) = true →
  0 ≤ pb.pd_nbytes first →
  ∃ l,
    PushData_loop self 0 (first :: rest) None = Return (Some l)
    ∧ uri l = pb.pd_uri first
    ∧ ∀ recieved_data recieved_hash,
        rehash l = Return (recieved_data, recieved_hash) →
        recieved_hash ≠ pb.pd_uri first →
        PushData (first :: rest) context self
        = (Abort DATA_LOSS
             (Message ("HASH MANGLED, received: " +:+ recieved_hash
                       +:+ " != expected digest: " +:+ pb.pd_uri first)),
           context, self)
        ∧ (∀ digest,
             hash_data (hashenv (env (PushData (first :: rest) context self).2)) !! digest
             = hash_data (hashenv (env self)) !! digest)
        ∧ (∀ writer,
             @PushData (with_DW_data H writer) (first :: rest) context self
             = PushData (first :: rest) context self).
Proof.
  intros Hcm Hsize.
  destruct (PushData_loop_completes self first rest Hcm Hsize) as (l & Hloop & Huri & _).
  exists l. split; [exact Hloop|]. split; [exact Huri|].
  intros recieved_data recieved_hash Hhash Hne.
  assert (Hres : PushData (first :: rest) context self
                 = (Abort DATA_LOSS
                      (Message ("HASH MANGLED, received: " +:+ recieved_hash
                                +:+ " != expected digest: " +:+ pb.pd_uri first)),
                    context, self)).
  { unfold PushData. rewrite Hloop, Hhash, Huri.
    destruct (decide (recieved_hash ≠ pb.pd_uri first)); done. }
  split; [exact Hres|]. split.
  - intros digest. rewrite Hres. reflexivity.
  - intros writer. rewrite Hres. unfold PushData. rewrite Hloop.
    change (@rehash (with_DW_data H writer) l) with (@rehash H l).
    rewrite Hhash, Huri.
    destruct (decide (recieved_hash ≠ pb.pd_uri first)); done.
Qed.

End facts.

End server_facts.

Module server_checks.

Import grpc server fixtures server_facts.

Lemma PushData_without_context_fails_witness :
  let self := serve_context_calls [BeginContext; EndContext] empty_server in
  PushData_loop self 0 [push_frame "d" "d"] None
  = Abort FAILED_PRECONDITION (Message "Attept to push without opening context")
  ∧ PushData [push_frame "d" "d"] fresh self
    = (Abort FAILED_PRECONDITION (Message "Attept to push without opening context"),
       fresh, self).
Proof.
  apply (PushData_without_context_fails [BeginContext; EndContext] empty_server
           (push_frame "d" "d") [] fresh).
  - reflexivity.
  - simpl. discriminate.
Defined.

(** C1 as stated fails where the server already holds the asserted digest: a
    tampered stream for ["d"] (its payload hashes to ["x"]) is refused with
    DATA_LOSS, and the entry for ["d"] recorded earlier is still there. *)
Lemma PushData_mismatch_known_digest_remains :
  let after := PushData [push_frame "d" "x"] fresh pushing_server in
  is_cm (DW pushing_server) = true
  ∧ after.1.1 = Abort DATA_LOSS
                  (Message "HASH MANGLED, received: x != expected digest: d")
  ∧ ¬ (hash_data (hashenv (env after.2)) !! "d" = None).
Proof.
  split; [reflexivity|]. split; [reflexivity|].
  vm_compute. discriminate.
Qed.

Lemma PushData_digest_mismatch_witness :
  PushData [push_frame "y" "x"] fresh pushing_server
  = (Abort DATA_LOSS (Message "HASH MANGLED, received: x != expected digest: y"),
     fresh, pushing_server)
  ∧ hash_data (hashenv (env (PushData [push_frame "y" "x"] fresh pushing_server).2)) !! "y"
    = hash_data (hashenv (env pushing_server)) !! "y".
Proof.
  destruct (@PushData_digest_mismatch plain (push_frame "y" "x") [] fresh pushing_server)
    as (l & Hloop & Huri & Hmismatch).
  - reflexivity.
  - simpl. lia.
  - injection Hloop as <-.
    destruct (Hmismatch (b "x") "x") as (Hres & Hindex & _).
    + reflexivity.
    + simpl. discriminate.
    + split; [exact Hres|apply Hindex].
Defined.

End server_checks.

Module repush_facts.

Import grpc server.

Section facts.
Context `{Collaborators}.

(** After its first turn the receiving loop of [PushCommit] runs to the end
    of the stream and keeps the commit the first frame named. *)
Lemma PushCommit_loop_rest rest : ∀ idx l,
  idx ≠ 0%nat →
  ∃ l', PushCommit_loop idx rest (Some l) = Return (Some l')
        ∧ pcl_commit l' = pcl_commit l.
Proof.
  induction rest as [|request rest IH]; intros idx l Hidx; simpl.
  - eauto.
  - unfold PushCommit_body. destruct (decide (idx = 0%nat)); [done|]. simpl.
    edestruct (IH (S idx)) as (l' & -> & Hcommit); [lia|].
    exists l'. done.
Qed.

Lemma PushCommit_loop_completes first rest :
  0 ≤ pb.pc_total_byte_size first →
  ∃ l, PushCommit_loop 0 (first :: rest) None = Return (Some l)
       ∧ pcl_commit l = pb.pc_commit first.
Proof.
  intros Hsize. simpl. unfold PushCommit_body, Py.bytearray. simpl.
  destruct (decide (0 ≤ pb.pc_total_byte_size first)); [|done]. simpl.
  edestruct (PushCommit_loop_rest rest 1) as (l' & -> & Hcommit); [lia|].
  exists l'. done.
Qed.

Lemma put_no_overwrite_present {V} key (value : V) db :
  is_Some (db !! key) → put_no_overwrite key value db = (db, false).
Proof. intros [v Hv]. unfold put_no_overwrite. rewrite Hv. reflexivity. Qed.

Lemma CW_commit_recorded commit parentVal specVal refVal self :
  commit_recorded (refenv (env self)) commit →
  CW_commit commit parentVal specVal refVal self = (None, self).
Proof.
  intros (Href & Hpar & Hspec). unfold CW_commit.
  rewrite !put_no_overwrite_present by assumption. simpl.
  f_equal. destruct self as [[[? ? ?] ? ?] ?]. reflexivity.
Qed.

Lemma CW_schema_present schema_hash schemaVal self :
  is_Some (hash_schema (hashenv (env self)) !! schema_hash) →
  CW_schema schema_hash schemaVal self = (None, self).
Proof.
  intros Hs. unfold CW_schema. rewrite put_no_overwrite_present by assumption.
  f_equal. destruct self as [[? ? [? ?]] ?]. reflexivity.
Qed.

(** C3 (as amended). Re-pushing what the server already holds leaves the
    server as it was and is reported with ALREADY_EXISTS, not with success:
    - [PushCommit] of a recorded commit returns a reply whose error is code 6
      and sets the status of the call to ALREADY_EXISTS;
    - [PushSchema] of a recorded schema digest does the same;
    - [PushBranchRecord] of the commit the branch already points to aborts
      the call with ALREADY_EXISTS. *)
Theorem repush_reports_already_exists :
  (∀ first rest context self,
     0 ≤ pb.pc_total_byte_size first →
     commit_recorded (refenv (env self)) (pb.pc_commit first) →
     let msg := "COMMIT: " +:+ pb.pc_commit first +:+ " ALREADY EXISTS" in
     PushCommit (first :: rest) context self
     = (Return {| pb.pcr_error := {| pb.code := 6; pb.message := msg |} |},
        set_details msg (set_code ALREADY_EXISTS context), self))
  ∧ (∀ request context self,
       is_Some (hash_schema (hashenv (env self)) !! pb.digest (pb.ps_rec request)) →
       let msg := "SCHEMA: " +:+ pb.digest (pb.ps_rec request)
                  +:+ " ALREADY EXISTS ON SERVER" in
       PushSchema request context self
       = (Return {| pb.psr_error := {| pb.code := 6; pb.message := msg |} |},
          set_code ALREADY_EXISTS (set_details msg context), self))
  ∧ (∀ request context self,
       branchenv (env self) !! pb.name (pb.pbr_rec request)
       = Some (pb.commit (pb.pbr_rec request)) →
       let msg := "NO CHANGE TO BRANCH: " +:+ pb.name (pb.pbr_rec request)
                  +:+ " WITH HEAD: " +:+ pb.commit (pb.pbr_rec request) in
       PushBranchRecord request context self
       = (Abort ALREADY_EXISTS (Message msg), context, self)).
Proof.
  split; [|split].
  - intros first rest context self Hsize Hrec msg.
    destruct (PushCommit_loop_completes first rest Hsize) as (l & Hloop & Hcommit).
    unfold PushCommit. rewrite Hloop, Hcommit, CW_commit_recorded by assumption.
    reflexivity.
  - intros request context self Hs msg.
    unfold PushSchema. rewrite CW_schema_present by assumption. reflexivity.
  - intros request context self Hhead msg.
    unfold PushBranchRecord, get_branch_names, get_branch_head_commit.
    destruct (decide (_ ∉ _)) as [Hnot|_].
    + exfalso. apply Hnot. apply elem_of_elements, elem_of_dom. eauto.
    + rewrite Hhead. destruct (decide (_ = _)); [reflexivity|done].
Qed.

End facts.

End repush_facts.

Module repush_checks.

Import grpc server fixtures repush_facts.

(** C3 as stated fails: on a server that holds commit ["c1"], schema ["s1"]
    and branch ["master"] at ["c1"], none of the three re-pushes succeeds.
    [PushBranchRecord] aborts, and the other two complete with a status that
    is not OK. *)
Lemma repush_is_not_success :
  ¬ succeeds (PushBranchRecord (branch_request "master" "c1") fresh holding_server)
  ∧ ¬ succeeds (PushCommit [commit_frame "c1" ""] fresh holding_server)
  ∧ ¬ succeeds (PushSchema (schema_request "s1" "schema") fresh holding_server).
Proof.
  assert (Hbranch :
    (PushBranchRecord (branch_request "master" "c1") fresh holding_server).1.1
    = Abort ALREADY_EXISTS (Message "NO CHANGE TO BRANCH: master WITH HEAD: c1"))
    by (vm_compute; reflexivity).
  assert (Hcommit :
    completion_code (PushCommit [commit_frame "c1" ""] fresh holding_server).1.2
    = ALREADY_EXISTS) by (vm_compute; reflexivity).
  assert (Hschema :
    completion_code (PushSchema (schema_request "s1" "schema") fresh holding_server).1.2
    = ALREADY_EXISTS) by (vm_compute; reflexivity).
  split; [|split]; intros (reply & Hret & Hcode); congruence.
Qed.

Lemma repush_reports_already_exists_witness :
  PushCommit [commit_frame "c1" ""] fresh holding_server
  = (Return {| pb.pcr_error := {| pb.code := 6; pb.message := "COMMIT: c1 ALREADY EXISTS" |} |},
     set_details "COMMIT: c1 ALREADY EXISTS" (set_code ALREADY_EXISTS fresh), holding_server)
  ∧ PushSchema (schema_request "s1" "schema") fresh holding_server
    = (Return {| pb.psr_error :=
                   {| pb.code := 6; pb.message := "SCHEMA: s1 ALREADY EXISTS ON SERVER" |} |},
       set_code ALREADY_EXISTS (set_details "SCHEMA: s1 ALREADY EXISTS ON SERVER" fresh),
       holding_server)
  ∧ PushBranchRecord (branch_request "master" "c1") fresh holding_server
    = (Abort ALREADY_EXISTS (Message "NO CHANGE TO BRANCH: master WITH HEAD: c1"),
       fresh, holding_server).
Proof.
  destruct (@repush_reports_already_exists plain) as (Hcommit & Hschema & Hbranch).
  split; [|split].
  - apply (Hcommit (commit_frame "c1" "") [] fresh holding_server).
    + simpl. lia.
    + split; [|split]; vm_compute; eexists; reflexivity.
  - apply (Hschema (schema_request "s1" "schema") fresh holding_server).
    vm_compute. eexists. reflexivity.
  - apply (Hbranch (branch_request "master" "c1") fresh holding_server).
    vm_compute. reflexivity.
Defined.

End repush_checks.

Module history_facts.

Import server.

(** Within [fuel] the walk meets exactly the commits fewer than [fuel] links
    away. *)
Lemma ancestors_nsteps (parents : string → list string) : ∀ fuel h c,
  c ∈ ancestors parents fuel h
  ↔ ∃ n, (n < fuel)%nat ∧ nsteps (λ a b, b ∈ parents a) n h c.
Proof.
  induction fuel as [|fuel IH]; intros h c; simpl.
  - split; [intros Hin; by apply elem_of_nil in Hin|intros (n & Hlt & _); lia].
  - rewrite elem_of_cons, list_elem_of_In, in_flat_map. split.
    + intros [->|(p & Hp & Hc)].
      * exists 0%nat. split; [lia|constructor].
      * apply list_elem_of_In in Hp, Hc. apply IH in Hc as (n & Hlt & Hpath).
        exists (S n). split; [lia|]. by econstructor.
    + intros (n & Hlt & Hpath). inversion Hpath as [|m ? p ? Hstep Hrest]; subst.
      * by left.
      * right. exists p. rewrite <- !list_elem_of_In. split; [done|].
        apply IH. exists m. split; [lia|done].
Qed.

(** A path either never leaves from [x], or has a last departure from [x]
    after which it never leaves from [x] again. *)
Lemma last_departure (R : relation string) (x : string) n a c :
  nsteps R n a c →
  (∃ k, nsteps (λ u v, R u v ∧ u ≠ x) k a c)
  ∨ (∃ p k, R x p ∧ nsteps (λ u v, R u v ∧ u ≠ x) k p c).
Proof.
  induction 1 as [a|n a b c Hstep _ IH].
  - left. exists 0%nat. constructor.
  - destruct IH as [(k & Hk)|Hlater]; [|by right].
    destruct (decide (a = x)) as [->|Hne].
    + right. eauto.
    + left. exists (S k). by econstructor.
Qed.

(** When every link leaves from a member of [X], whatever is reachable is
    reachable in at most [size X] links. *)
Lemma short_path : ∀ (N : nat) (X : gset string) (R : relation string),
  size X = N →
  (∀ a b, R a b → a ∈ X) →
  ∀ n h c, nsteps R n h c → ∃ m, (m ≤ size X)%nat ∧ nsteps R m h c.
Proof.
  induction N as [|N IH]; intros X R Hsize Hsrc n h c Hpath.
  - exists 0%nat. split; [lia|].
    inversion Hpath as [|n' ? b ? Hstep _]; subst; [constructor|].
    apply Hsrc in Hstep. apply size_empty_inv in Hsize. set_solver.
  - destruct (last_departure R h n h c Hpath) as [(k & Hk)|(p & k & Hstep & Hk)].
    + exists 0%nat. split; [lia|].
      inversion Hk as [|k' ? b ? [_ Hne] _]; subst; [constructor|done].
    + assert (Hh : h ∈ X) by (by eapply Hsrc).
      assert (Hsmaller : size (X ∖ {[h]}) = N).
      { rewrite size_difference by set_solver. rewrite size_singleton. lia. }
      destruct (IH (X ∖ {[h]}) (λ u v, R u v ∧ u ≠ h) Hsmaller) with (n := k) (h := p) (c := c)
        as (m & Hm & Hshort); [|done|].
      * intros a b [Hab Hne]. apply Hsrc in Hab. set_solver.
      * exists (S m). split; [lia|]. econstructor; [done|].
        apply (nsteps_congruence (λ u, u) R) in Hshort; [done|]. by intros u v [? _].
Qed.

Section facts.
Context `{Collaborators}.

(** The history of a branch is what can be reached from its head along
    parent links. *)
Lemma list_history_reachable r branchenv branch_name h :
  list_history r branchenv branch_name = inr h →
  branchenv !! branch_name = Some (head h)
  ∧ ∀ c, c ∈ order h ↔ rtc (parent_link r) (head h) c.
Proof.
  unfold list_history, get_branch_head_commit.
  destruct (branchenv !! branch_name) as [hd|]; [|done].
  intros [= <-]. cbn [head order]. split; [done|]. intros c.
  change (c ∈ ancestors (parents_of r) (S (size (commit_parent r))) hd
          ↔ rtc (parent_link r) hd c).
  rewrite ancestors_nsteps, rtc_nsteps. split.
  - intros (n & _ & Hpath). by exists n.
  - intros (n & Hpath).
    destruct (short_path _ (dom (commit_parent r)) (parent_link r) eq_refl) with n hd c
      as (m & Hm & Hshort); [|done|].
    + intros a b. unfold parent_link, parents_of. rewrite elem_of_dom.
      destruct (commit_parent r !! a); [eauto|]. intros Hin. by apply elem_of_nil in Hin.
    + exists m. rewrite size_dom in Hm. split; [lia|done].
Qed.

End facts.

End history_facts.

Module missing_facts.

Import grpc server fixtures history_facts.

Lemma elements_difference_spec (xs ys : list string) c :
  c ∈ elements ((list_to_set xs : gset string) ∖ list_to_set ys) ↔ c ∈ xs ∧ c ∉ ys.
Proof. rewrite elem_of_elements, elem_of_difference, !elem_of_list_to_set. done. Qed.

Section facts.
Context `{Collaborators}.

Lemma FetchFindMissingCommits_difference request context self h :
  list_history (refenv (env self)) (branchenv (env self)) (pb.name (pb.fmc_branch request))
  = inr h →
  ∃ reply,
    FetchFindMissingCommits request context self = (Return reply, context)
    ∧ pb.fmcr_error reply = pb.ok
    ∧ pb.fmcr_branch reply
      = {| pb.name := pb.name (pb.fmc_branch request); pb.commit := head h |}
    ∧ NoDup (pb.fmcr_commits reply)
    ∧ ∀ c, c ∈ pb.fmcr_commits reply ↔ c ∈ order h ∧ c ∉ pb.fmc_commits request.
Proof.
  intros Hh. unfold FetchFindMissingCommits. rewrite Hh.
  set (c_missing := elements _).
  assert (Hspec : ∀ c, c ∈ c_missing ↔ c ∈ order h ∧ c ∉ pb.fmc_commits request)
    by (intros c; apply elements_difference_spec).
  assert (Hnodup : NoDup c_missing) by apply NoDup_elements.
  destruct (decide (length c_missing = 0%nat)) as [Hnil|_];
    (eexists; split; [reflexivity|]; simpl; split; [done|split; [done|split]]).
  - apply NoDup_nil_2.
  - intros c. rewrite <- Hspec. destruct c_missing; [done|discriminate].
  - exact Hnodup.
  - exact Hspec.
Qed.

Lemma PushFindMissingCommits_difference request context self :
  ∃ reply,
    PushFindMissingCommits request context self = (Return reply, context)
    ∧ pb.fmcr_error reply = pb.ok
    ∧ pb.fmcr_branch reply = pb.fmc_branch request
    ∧ NoDup (pb.fmcr_commits reply)
    ∧ ∀ c, c ∈ pb.fmcr_commits reply
           ↔ c ∈ pb.fmc_commits request ∧ c ∉ list_all_commits (refenv (env self)).
Proof.
  unfold PushFindMissingCommits.
  set (s_missing := elements _).
  assert (Hspec : ∀ c, c ∈ s_missing
                       ↔ c ∈ pb.fmc_commits request
                         ∧ c ∉ list_all_commits (refenv (env self)))
    by (intros c; apply elements_difference_spec).
  assert (Hnodup : NoDup s_missing) by apply NoDup_elements.
  assert (Hbranch : {| pb.name := pb.name (pb.fmc_branch request);
                       pb.commit := pb.commit (pb.fmc_branch request) |}
                    = pb.fmc_branch request) by (destruct (pb.fmc_branch request); done).
  destruct (decide (length s_missing = 0%nat)) as [Hnil|_];
    (eexists; split; [reflexivity|]; simpl; split; [done|split; [done|split]]).
  - apply NoDup_nil_2.
  - intros c. rewrite <- Hspec. destruct s_missing; [done|discriminate].
  - exact Hnodup.
  - exact Hspec.
Qed.

End facts.

(** C4. Missing-set reconciliation is set difference. For a branch the
    server has, the commits [FetchFindMissingCommits] replies with are, without
    repetition, exactly those reachable from the head of the branch along
    parent links (the branch history) that are not in the client's list; the
    commits [PushFindMissingCommits] replies with are exactly those of the
    client's list that are not among the commits of the server. In
    particular, after the chain [c1, c2] and the branch ["master"] at ["c2"]
    were pushed to an empty server (each push succeeding), a peer with no
    commits is told that it misses {c1, c2}, with head ["c2"]. *)
Theorem find_missing_commits_set_difference :
  (∀ (C : Collaborators) request context self head_commit,
     branchenv (env self) !! pb.name (pb.fmc_branch request) = Some head_commit →
     ∃ reply,
       FetchFindMissingCommits request context self = (Return reply, context)
       ∧ pb.fmcr_error reply = pb.ok
       ∧ pb.commit (pb.fmcr_branch reply) = head_commit
       ∧ NoDup (pb.fmcr_commits reply)
       ∧ ∀ c, c ∈ pb.fmcr_commits reply
              ↔ rtc (parent_link (refenv (env self))) head_commit c
                ∧ c ∉ pb.fmc_commits request)
  ∧ (∀ request context self,
       ∃ reply,
         PushFindMissingCommits request context self = (Return reply, context)
         ∧ pb.fmcr_error reply = pb.ok
         ∧ NoDup (pb.fmcr_commits reply)
         ∧ ∀ c, c ∈ pb.fmcr_commits reply
                ↔ c ∈ pb.fmc_commits request
                  ∧ c ∉ list_all_commits (refenv (env self)))
  ∧ (succeeds (PushCommit [commit_frame "c1" ""] fresh empty_server)
     ∧ succeeds (PushCommit [commit_frame "c2" "c1"] fresh after_c1)
     ∧ succeeds (PushBranchRecord (branch_request "master" "c2") fresh after_c2)
     ∧ ∃ reply,
         FetchFindMissingCommits (fresh_peer_request "master") fresh pushed_chain
         = (Return reply, fresh)
         ∧ pb.fmcr_error reply = pb.ok
         ∧ pb.commit (pb.fmcr_branch reply) = "c2"
         ∧ (list_to_set (pb.fmcr_commits reply) : gset string) = {[ "c1"; "c2" ]}).
Proof.
  split; [|split; [|split; [|split; [|split]]]].
  - intros C request context self head_commit Hbranch.
    destruct (list_history (refenv (env self)) (branchenv (env self))
                (pb.name (pb.fmc_branch request))) as [e|h] eqn:Hh.
    { unfold list_history, get_branch_head_commit in Hh. by rewrite Hbranch in Hh. }
    destruct (list_history_reachable _ _ _ _ Hh) as [Hhead Hreach].
    assert (head h = head_commit) as Heq by congruence.
    destruct (FetchFindMissingCommits_difference request context self h Hh)
      as (reply & Hret & Herr & Hbrch & Hnodup & Hspec).
    exists reply. split; [done|]. split; [done|].
    split; [by rewrite Hbrch|]. split; [done|].
    intros c. rewrite Hspec, Hreach, Heq. done.
  - intros request context self.
    destruct (PushFindMissingCommits_difference request context self)
      as (reply & Hret & Herr & _ & Hnodup & Hspec).
    exists reply. done.
  - eexists. split; vm_compute; reflexivity.
  - eexists. split; vm_compute; reflexivity.
  - eexists. split; vm_compute; reflexivity.
  - eexists. split; [vm_compute; reflexivity|].
    split; [reflexivity|]. split; [reflexivity|]. vm_compute. reflexivity.
Qed.

End missing_facts.

Module missing_checks.

Import grpc server fixtures missing_facts.

Lemma find_missing_commits_set_difference_witness :
  ∃ reply,
    FetchFindMissingCommits (fresh_peer_request "master") fresh pushed_chain
    = (Return reply, fresh)
    ∧ pb.fmcr_error reply = pb.ok
    ∧ pb.commit (pb.fmcr_branch reply) = "c2"
    ∧ NoDup (pb.fmcr_commits reply)
    ∧ ∀ c, c ∈ pb.fmcr_commits reply
           ↔ rtc (parent_link (refenv (env pushed_chain))) "c2" c ∧ c ∉ [].
Proof.
  apply (proj1 find_missing_commits_set_difference plain
           (fresh_peer_request "master") fresh pushed_chain "c2").
  vm_compute. reflexivity.
Defined.

End missing_checks.

Module stream_facts.

Import grpc server.

#[local] Arguments backend_decoder : simpl never.
#[local] Arguments data_type_of_backend : simpl never.
#[local] Arguments compression_opts : simpl never.

(** [FetchCommit] does not call any collaborator on a commit it lacks. *)
Lemma FetchCommit_missing `{Collaborators} rt request context self :
  commit_ref (refenv (env self)) !! pb.fc_commit request = None →
  FetchCommit rt request context self
  = let msg := "COMMIT: " +:+ pb.fc_commit request +:+ " DOES NOT EXIST ON SERVER" in
    ({| frames := [ {| pb.fcr_commit := pb.fc_commit request;
                       pb.fcr_total_byte_size := 0;
                       pb.fcr_record := pb.default_commit_record;
                       pb.fcr_error := {| pb.code := 5; pb.message := msg |} |} ];
        ending := generator_exit rt (Raised Py.StopIteration) |},
     set_code NOT_FOUND (set_details msg context)).
Proof. intros Hnone. unfold FetchCommit. rewrite Hnone. reflexivity. Qed.

Section facts.
Context `{Collaborators}.

Lemma FetchFindDataOrigin_loop_missing self before digest after context :
  Forall (reportable self) before →
  hash_data (hashenv (env self)) !! digest = None →
  let msg := "HASH DOES NOT EXIST: " +:+ hash_data_db_key_from_raw_key digest in
  ∃ origins : list pb.DataOriginReply,
    FetchFindDataOrigin_loop self (before ++ digest :: after) context
    = (((OriginFrame <$> origins)
          ++ [ErrorFrame {| pb.fdr_uri := ""; pb.fdr_raw_data := []; pb.fdr_nbytes := 0;
                            pb.fdr_error := {| pb.code := 5; pb.message := msg |} |}])%list,
       Raised Py.StopIteration,
       set_code NOT_FOUND (set_details msg context))
    ∧ pb.dor_digest <$> origins = before.
Proof.
  intros Hbefore Hnone msg. induction Hbefore as [|d before (hashVal & dtype & Hd & Hty) _ IH].
  - exists []. simpl. rewrite Hnone. done.
  - destruct IH as (origins & IH & Hdigests). simpl in *. rewrite Hd, Hty, IH. simpl.
    eexists (_ :: origins). split; [reflexivity|]. rewrite fmap_cons. f_equal. exact Hdigests.
Qed.

End facts.

(** C5. What the streaming fetch handlers do on a missing record. [FetchCommit]
    on a commit the server lacks, and [FetchFindDataOrigin] on reaching a
    digest the server lacks (after the origin frames of the digests before
    it), yield one error frame with code 5, having set the status of the call
    to NOT_FOUND, and then execute [raise StopIteration()]. On a runtime with
    PEP 479 the generator therefore ends by raising [RuntimeError]; only on a
    legacy runtime does the stream end as an exhausted iterator. *)
Theorem missing_record_stream_ending :
  (∀ (C : Collaborators) rt request context self,
     commit_ref (refenv (env self)) !! pb.fc_commit request = None →
     let served := FetchCommit rt request context self in
     ∃ reply,
       frames served.1 = [reply]
       ∧ pb.code (pb.fcr_error reply) = 5
       ∧ code served.2 = Some NOT_FOUND
       ∧ ending served.1
         = match rt with
           | Py.Pep479 => Raised Py.RuntimeError
           | Py.Legacy => Exhausted
           end)
  ∧ (∀ (C : Collaborators) rt before request after context self,
       Forall (reportable self) (pb.ffo_digest <$> before) →
       hash_data (hashenv (env self)) !! pb.ffo_digest request = None →
       let served := FetchFindDataOrigin rt (before ++ request :: after) context self in
       ∃ origins reply,
         frames served.1 = ((OriginFrame <$> origins) ++ [ErrorFrame reply])%list
         ∧ pb.dor_digest <$> origins = pb.ffo_digest <$> before
         ∧ pb.code (pb.fdr_error reply) = 5
         ∧ code served.2 = Some NOT_FOUND
         ∧ ending served.1
           = match rt with
             | Py.Pep479 => Raised Py.RuntimeError
             | Py.Legacy => Exhausted
             end).
Proof.
  split.
  - intros C rt request context self Hnone served. subst served.
    rewrite FetchCommit_missing by assumption. simpl.
    eexists. repeat split.
  - intros C rt before request after context self Hbefore Hnone served. subst served.
    unfold FetchFindDataOrigin. rewrite fmap_app, fmap_cons.
    destruct (FetchFindDataOrigin_loop_missing self _ _ (pb.ffo_digest <$> after)
                context Hbefore Hnone) as (origins & -> & Hdigests).
    simpl. eexists origins, _. repeat split. done.
Qed.

End stream_facts.

Module stream_checks.

Import grpc server fixtures stream_facts.

Lemma missing_record_stream_ending_witness :
  (∃ reply,
     frames (FetchCommit Py.Pep479 {| pb.fc_commit := "c9" |} fresh holding_server).1 = [reply]
     ∧ pb.code (pb.fcr_error reply) = 5
     ∧ code (FetchCommit Py.Pep479 {| pb.fc_commit := "c9" |} fresh holding_server).2
       = Some NOT_FOUND
     ∧ ending (FetchCommit Py.Pep479 {| pb.fc_commit := "c9" |} fresh holding_server).1
       = Raised Py.RuntimeError)
  ∧ (∃ origins reply,
       frames (FetchFindDataOrigin Py.Pep479 [origin_request "a"; origin_request "z"]
                 fresh string_server).1
       = ((OriginFrame <$> origins) ++ [ErrorFrame reply])%list
       ∧ pb.dor_digest <$> origins = ["a"]
       ∧ pb.code (pb.fdr_error reply) = 5
       ∧ code (FetchFindDataOrigin Py.Pep479 [origin_request "a"; origin_request "z"]
                 fresh string_server).2 = Some NOT_FOUND
       ∧ ending (FetchFindDataOrigin Py.Pep479 [origin_request "a"; origin_request "z"]
                   fresh string_server).1 = Raised Py.RuntimeError).
Proof.
  split.
  - apply (proj1 missing_record_stream_ending plain Py.Pep479 {| pb.fc_commit := "c9" |}
             fresh holding_server).
    vm_compute. reflexivity.
  - apply (proj2 missing_record_stream_ending plain Py.Pep479 [origin_request "a"]
             (origin_request "z") [] fresh string_server).
    + apply Forall_cons. split; [|apply Forall_nil_2].
      exists "00:xyz", pb.NP_ARRAY. split; vm_compute; reflexivity.
    + vm_compute. reflexivity.
Defined.

(** C6 as stated fails for [FetchFindDataOrigin] on a string payload: the
    sample ["t"] lives under backend code [30], its origin is reported with
    data type STR, and the options advertised name blosclz, not zstd. *)
Lemma string_origin_advertises_blosclz :
  ∃ response,
    frames (FetchFindDataOrigin Py.Pep479 [origin_request "t"] fresh string_server).1
    = [OriginFrame response]
    ∧ hash_data (hashenv (env string_server)) !! pb.dor_digest response = Some "30:abc"
    ∧ backend (backend_decoder "30:abc") = "30"
    ∧ pb.dor_data_type response = pb.STR
    ∧ pb.dor_compression_opts response !! "cname" = Some "blosclz"
    ∧ pb.dor_compression_opts response
      ≠ {[ "id" := "blosc"; "cname" := "zstd"; "clevel" := "3" ]}.
Proof.
  eexists. split; [vm_compute; reflexivity|].
  split; [vm_compute; reflexivity|]. split; [reflexivity|]. split; [reflexivity|].
  assert (Hcname : compression_opts "blosclz" !! "cname" = Some "blosclz")
    by (vm_compute; reflexivity).
  split; [exact Hcname|].
  intros Heq. change (compression_opts "blosclz" = compression_opts "zstd") in Heq.
  assert (Hzstd : compression_opts "zstd" !! "cname" = Some "zstd")
    by (vm_compute; reflexivity).
  rewrite <- Heq, Hcname in Hzstd. discriminate.
Qed.

End stream_checks.

Module arrayset_facts.

Import arrayset.

Lemma within_max_exceeded : ∀ dims maxima axis extent maximum,
  dims !! axis = Some extent →
  maxima !! axis = Some maximum →
  (maximum < extent)%nat →
  within_max dims maxima = false.
Proof.
  induction dims as [|d dims IH]; intros maxima axis extent maximum Hd Hm Hlt; [done|].
  destruct maxima as [|m maxima]; [done|]. simpl.
  destruct axis as [|axis]; simpl in *.
  - injection Hd as ->. injection Hm as ->.
    apply andb_false_iff. left. apply Nat.leb_gt. exact Hlt.
  - apply andb_false_iff. right. eauto.
Qed.

Lemma verify_array_violation sch a :
  violates_schema sch a → ∃ msg, verify_array sch (Array a) = Some msg.
Proof.
  unfold violates_schema, verify_array. intros Hbad.
  destruct (c_contiguous a); simpl; [|eauto].
  destruct (decide (dtype a ≠ schema_dtype sch)); [eauto|].
  destruct (variable_shape sch).
  - destruct (decide (length (shape a) ≠ length (schema_max_shape sch))); [eauto|].
    destruct Hbad as [?|(axis & extent & maximum & Hd & Hm & Hlt)]; [done|].
    rewrite (within_max_exceeded _ _ _ _ _ Hd Hm Hlt). simpl. eauto.
  - destruct (decide (shape a ≠ schema_max_shape sch)); [eauto|].
    destruct Hbad; done.
Qed.

Lemma validate_key_unsuitable key : unsuitable_key key → validate_key key = None.
Proof.
  destruct key as [n|x|s]; simpl; intros Hbad; [|done|].
  - destruct (decide (0 ≤ n)); [lia|done].
  - destruct (decide (1 ≤ String.length s ≤ 64)%nat); [lia|done].
Qed.

Section facts.
Context `{HashSpace}.

Lemma setitem_stored key k a aset :
  validate_key key = Some k →
  verify_array (schema aset) (Array a) = None →
  setitem key (Array a) aset
  = (Stored k (digest_of a), record_sample k (digest_of a) (write_payload a (digest_of a) aset)).
Proof. intros Hk Hv. unfold setitem. rewrite Hk, Hv. reflexivity. Qed.

Lemma write_payload_indexed a digest aset :
  is_Some (hash_index (write_payload a digest aset) !! digest).
Proof.
  unfold write_payload. destruct (hash_index aset !! digest) eqn:Hd.
  - rewrite Hd. eauto.
  - simpl. rewrite lookup_insert_eq. eauto.
Qed.

Lemma write_payload_known a digest aset :
  is_Some (hash_index aset !! digest) → write_payload a digest aset = aset.
Proof. intros [loc Hloc]. unfold write_payload. rewrite Hloc. reflexivity. Qed.

Lemma write_payload_schema a digest aset :
  schema (write_payload a digest aset) = schema aset.
Proof. unfold write_payload. destruct (hash_index aset !! digest); reflexivity. Qed.

Lemma write_payload_samples a digest aset :
  samples (write_payload a digest aset) = samples aset.
Proof. unfold write_payload. destruct (hash_index aset !! digest); reflexivity. Qed.

(** C7. Writing the same array a second time, under the same or another key,
    gives the same digest and leaves the hash index (with its one locator for
    that digest) and the stored payloads as the first write left them; the
    second write only records its key, so the arrayset counts the keys
    recorded before together with the distinct keys written. *)
Theorem same_array_written_twice key1 key2 k1 k2 a aset :
  validate_key key1 = Some k1 →
  validate_key key2 = Some k2 →
  verify_array (schema aset) (Array a) = None →
  let first := setitem key1 (Array a) aset in
  let second := setitem key2 (Array a) first.2 in
  first.1 = Stored k1 (digest_of a)
  ∧ second.1 = Stored k2 (digest_of a)
  ∧ is_Some (hash_index first.2 !! digest_of a)
  ∧ hash_index second.2 = hash_index first.2
  ∧ payloads second.2 = payloads first.2
  ∧ samples second.2 = <[k2 := digest_of a]> (samples first.2)
  ∧ len second.2 = size (dom (samples aset) ∪ {[k1; k2]}).
Proof.
  intros Hk1 Hk2 Hv first second.
  assert (Hfirst : first = (Stored k1 (digest_of a),
            record_sample k1 (digest_of a) (write_payload a (digest_of a) aset)))
    by (apply setitem_stored; assumption).
  assert (Hindexed : is_Some (hash_index first.2 !! digest_of a))
    by (rewrite Hfirst; apply write_payload_indexed).
  assert (Hsecond : second = (Stored k2 (digest_of a),
            record_sample k2 (digest_of a) first.2)).
  { subst second. rewrite setitem_stored with (k := k2); [|assumption|].
    - rewrite write_payload_known by exact Hindexed. reflexivity.
    - rewrite Hfirst. simpl. rewrite write_payload_schema. exact Hv. }
  rewrite Hsecond. simpl. repeat split; try done.
  - rewrite Hfirst. reflexivity.
  - unfold len. simpl. rewrite <- size_dom, dom_insert_L.
    rewrite Hfirst. simpl. rewrite dom_insert_L, write_payload_samples.
    f_equal. apply set_eq. intros k.
    rewrite !elem_of_union, !elem_of_singleton. tauto.
Qed.

(** C8. A sample the schema does not admit is refused with a ValueError, and
    the arrayset is left as it was. *)
Theorem schema_violation_rejected key a aset :
  violates_schema (schema aset) a →
  ∃ msg, setitem key (Array a) aset = (ValueError msg, aset).
Proof.
  intros Hbad. destruct (verify_array_violation _ _ Hbad) as [msg Hmsg].
  unfold setitem. destruct (validate_key key); [|eauto].
  rewrite Hmsg. eauto.
Qed.

(** C9. Assigning under a float key, a negative integer key or a string key
    of more than 64 characters is refused with a ValueError, and the arrayset
    (its keys and its length with it) is left as it was. *)
Theorem unsuitable_key_rejected key value aset :
  unsuitable_key key →
  let after := (setitem key value aset).2 in
  (∃ msg, setitem key value aset = (ValueError msg, aset))
  ∧ dom (samples after) = dom (samples aset)
  ∧ len after = len aset.
Proof.
  intros Hbad after. subst after. unfold setitem.
  rewrite (validate_key_unsuitable _ Hbad). simpl. eauto.
Qed.

End facts.

End arrayset_facts.

Module arrayset_checks.

Import arrayset fixtures arrayset_facts.

Lemma same_array_written_twice_witness :
  let a := array_of "int64" [2; 3]%nat "abcdef" in
  let first := setitem (KStr "1") (Array a) fixed_aset in
  let second := setitem (KStr "2") (Array a) first.2 in
  first.1 = Stored (Str "1") (digest_of a)
  ∧ second.1 = Stored (Str "2") (digest_of a)
  ∧ is_Some (hash_index first.2 !! digest_of a)
  ∧ hash_index second.2 = hash_index first.2
  ∧ payloads second.2 = payloads first.2
  ∧ samples second.2 = <[Str "2" := digest_of a]> (samples first.2)
  ∧ len second.2 = size (dom (samples fixed_aset) ∪ {[Str "1"; Str "2"]}).
Proof.
  apply (same_array_written_twice (KStr "1") (KStr "2") (Str "1") (Str "2")
           (array_of "int64" [2; 3]%nat "abcdef") fixed_aset);
    vm_compute; reflexivity.
Defined.

Lemma schema_violation_rejected_witness :
  (∃ msg, setitem (KStr "3") (Array (array_of "int64" [3; 4]%nat "abcdefghijkl")) fixed_aset
          = (ValueError msg, fixed_aset))
  ∧ (∃ msg, setitem (KInt 1) (Array (array_of "float32" [2; 4]%nat "abcdefgh")) variable_aset
            = (ValueError msg, variable_aset)).
Proof.
  split.
  - apply (schema_violation_rejected (KStr "3")
             (array_of "int64" [3; 4]%nat "abcdefghijkl") fixed_aset).
    left. simpl. discriminate.
  - apply (schema_violation_rejected (KInt 1)
             (array_of "float32" [2; 4]%nat "abcdefgh") variable_aset).
    right. exists 1%nat, 4%nat, 3%nat. simpl. repeat split; lia.
Defined.

Lemma unsuitable_key_rejected_witness :
  let value := Array (array_of "int64" [2; 3]%nat "abcdef") in
  ((∃ msg, setitem (KFloat (QArith_base.Qmake 21 10)) value fixed_aset
           = (ValueError msg, fixed_aset))
   ∧ len (setitem (KFloat (QArith_base.Qmake 21 10)) value fixed_aset).2 = 0%nat)
  ∧ ((∃ msg, setitem (KInt (-1)) value fixed_aset = (ValueError msg, fixed_aset))
     ∧ len (setitem (KInt (-1)) value fixed_aset).2 = 0%nat)
  ∧ ((∃ msg, setitem (KStr name_of_65_characters) value fixed_aset
             = (ValueError msg, fixed_aset))
     ∧ len (setitem (KStr name_of_65_characters) value fixed_aset).2 = 0%nat).
Proof.
  intros value.
  pose proof (unsuitable_key_rejected (KFloat (QArith_base.Qmake 21 10)) value fixed_aset)
    as Hfloat.
  pose proof (unsuitable_key_rejected (KInt (-1)) value fixed_aset) as Hneg.
  pose proof (unsuitable_key_rejected (KStr name_of_65_characters) value fixed_aset)
    as Hlong.
  simpl in Hfloat, Hneg, Hlong.
  split; [|split].
  - destruct Hfloat as (Hres & _ & Hlen); [exact I|]. split; [exact Hres|exact Hlen].
  - destruct Hneg as (Hres & _ & Hlen); [lia|]. split; [exact Hres|exact Hlen].
  - destruct Hlong as (Hres & _ & Hlen); [lia|]. split; [exact Hres|exact Hlen].
Defined.

End arrayset_checks.

Module torch_dset_facts.

Import torch_dset.

#[local] Open Scope list_scope.

Section facts.
Context {Column A : Type} `{PyIter A}.

Lemma od_set_fresh (k : string) (v : A) d :
  k ∉ d.*1 → od_set k v d = d ++ [(k, v)].
Proof.
  induction d as [|[k' v'] d IH]; simpl; [done|].
  intros Hfresh. apply not_elem_of_cons in Hfresh as [Hne Hfresh].
  destruct (decide (k = k')); [done|]. by rewrite IH.
Qed.

Lemma foldl_od_set_nodup (pairs : list (string * A)) : ∀ acc,
  NoDup ((acc ++ pairs).*1) →
  foldl (λ d kv, od_set kv.1 kv.2 d) acc pairs = acc ++ pairs.
Proof.
  induction pairs as [|[k v] pairs IH]; intros acc Hnodup; simpl.
  - by rewrite app_nil_r.
  - rewrite od_set_fresh.
    + rewrite IH; rewrite <- app_assoc; done.
    + rewrite fmap_app in Hnodup. apply NoDup_app in Hnodup as (_ & Hdisjoint & _).
      intros Hin. apply (Hdisjoint k Hin). simpl. left.
Qed.

(** An ordered dictionary built from pairs with distinct keys holds the pairs
    in their order. *)
Lemma OrderedDict_of_nodup (pairs : list (string * A)) :
  NoDup pairs.*1 → OrderedDict_of pairs = pairs.
Proof. intros Hnodup. unfold OrderedDict_of. by rewrite foldl_od_set_nodup. Qed.

Lemma zip_keys_nodup (names : list string) : ∀ components : list A,
  NoDup names → NoDup (zip names components).*1.
Proof.
  induction names as [|name names IH]; intros components Hnodup; [constructor|].
  destruct components as [|a components]; [constructor|]. simpl.
  apply NoDup_cons in Hnodup as [Hfresh Hnodup].
  constructor; [|by apply IH].
  intros Hin. apply Hfresh. apply list_elem_of_fmap in Hin as ([k a'] & -> & Hin).
  by apply elem_of_zip_l in Hin.
Qed.

(** C10. For a dataset made by the constructor and an index at which
    [index_get] returns [data]: without [as_dict] the item is [data] itself;
    with [as_dict] and exactly one column it is the one-entry dict from that
    column's name to [data]; with [as_dict] and two or more columns, [data]
    being a tuple, it is the ordered dictionary that pairs the column names,
    in the order of the columns, with the components of the tuple. *)
Theorem getitem_contract (hangar_dataset : HangarDataset Column A) (flag : bool)
    (index : Z) (data : Data A) :
  index_get hangar_dataset index = inr data →
  let self := init hangar_dataset flag in
  (flag = false → getitem self index = inr (Plain data))
  ∧ (flag = true → ∀ name,
       column_names self = [name] →
       getitem self index = inr (Dict [(name, data)]))
  ∧ (flag = true → (2 ≤ length (column_names self))%nat → ∀ components,
       data = Tuple components →
       getitem self index = inr (OrderedDict (zip (column_names self) components))).
Proof.
  intros Hget self. unfold getitem. subst self. simpl. rewrite Hget.
  split; [|split].
  - intros ->. reflexivity.
  - intros -> name ->. reflexivity.
  - intros -> Hlen components ->. simpl.
    rewrite OrderedDict_of_nodup
      by (apply zip_keys_nodup, (keys_unique (columns hangar_dataset))).
    destruct (keys (columns hangar_dataset)) as [|n1 [|n2 names]]; simpl in Hlen; [lia|lia|].
    reflexivity.
Qed.

End facts.

End torch_dset_facts.

Module torch_dset_checks.

Import torch_dset fixtures torch_dset_facts.

Lemma getitem_contract_witness :
  getitem (init image_class_dataset false) 1 = inr (Plain (Tuple ["img"; "cls"]))
  ∧ getitem (init image_dataset true) 1 = inr (Dict [("images", Sample "img")])
  ∧ getitem (init image_class_dataset true) 1
    = inr (OrderedDict [("images", "img"); ("classes", "cls")]).
Proof.
  split; [|split].
  - apply (getitem_contract image_class_dataset false 1 (Tuple ["img"; "cls"]));
      reflexivity.
  - apply (getitem_contract image_dataset true 1 (Sample "img")); reflexivity.
  - destruct (getitem_contract image_class_dataset true 1 (Tuple ["img"; "cls"]) eq_refl)
      as (_ & _ & Hordered).
    apply (Hordered eq_refl) with (components := ["img"; "cls"]);
      [simpl; lia|reflexivity].
Defined.

End torch_dset_checks.

(** * Further properties of the server *)

Module assembly_facts.

Import grpc server server_rest.

#[local] Open Scope list_scope.
#[local] Open Scope nat_scope.

(** Writing a chunk at the current offset extends what has been assembled by
    that chunk and leaves the buffer beyond it as it was. *)
Lemma slice_assign_chain (buf : bytes) (off : nat) (c : bytes) (t : nat) :
  off ≤ length buf →
  off + length c ≤ length (Py.slice_assign buf off (length c) c)
  ∧ take (off + length c) (Py.slice_assign buf off (length c) c) = take off buf ++ c
  ∧ drop (off + length c + t) (Py.slice_assign buf off (length c) c)
    = drop (off + length c + t) buf.
Proof.
  intros Hoff. unfold Py.slice_assign.
  assert (Hlen : length (take off buf ++ c) = off + length c)
    by (rewrite length_app, length_take_le; lia).
  rewrite (app_assoc (take off buf) c). split; [|split].
  - rewrite length_app, Hlen. lia.
  - by rewrite take_app_length'.
  - rewrite drop_app_add' by done. rewrite drop_drop. done.
Qed.

Lemma assembled_cons (size : Z) (c : bytes) (chunks : list bytes) (buf : bytes) :
  buf = replicate (Z.to_nat size) x00 →
  take (length c) (Py.slice_assign buf 0 (length c) c)
  ++ concat chunks
  ++ drop (length c + length (concat chunks)) (Py.slice_assign buf 0 (length c) c)
  = assembled size (c :: chunks).
Proof.
  intros ->.
  destruct (slice_assign_chain (replicate (Z.to_nat size) x00) 0 c (length (concat chunks)))
    as (_ & Htake & Hdrop); [lia|].
  simpl in Htake, Hdrop. rewrite Htake, Hdrop, drop_replicate.
  unfold assembled. simpl. rewrite length_app, <- app_assoc. done.
Qed.

Section facts.
Context `{Collaborators}.

Lemma PushData_loop_rest_assembles self rest : ∀ idx l,
  idx ≠ 0 →
  offset l ≤ length (dBytes l) →
  let chunks := pb.pd_raw_data <$> rest in
  ∃ l', PushData_loop self idx rest (Some l) = Return (Some l')
        ∧ uri l' = uri l
        ∧ dtype_code l' = dtype_code l
        ∧ schema_hash l' = schema_hash l
        ∧ offset l' = offset l + length (concat chunks)
        ∧ dBytes l' = take (offset l) (dBytes l) ++ concat chunks
                      ++ drop (offset l + length (concat chunks)) (dBytes l).
Proof.
  induction rest as [|request rest IH]; intros idx l Hidx Hoff; simpl.
  - exists l. rewrite Nat.add_0_r, take_drop. done.
  - unfold PushData_body. destruct (decide (idx = 0)); [done|]. simpl.
    set (c := pb.pd_raw_data request).
    destruct (slice_assign_chain (dBytes l) (offset l) c
                (length (concat (pb.pd_raw_data <$> rest))) Hoff)
      as (Hlen & Htake & Hdrop).
    edestruct (IH (S idx)) as (l' & -> & Huri & Hdtype & Hschema & Hoffset & Hbytes);
      [lia|exact Hlen|].
    cbn [offset dBytes uri dtype_code schema_hash] in *.
    exists l'. fold c. change (list_fmap _ _ ?f rest) with (f <$> rest).
    rewrite length_app, Nat.add_assoc.
    split; [done|]. split; [done|]. split; [done|]. split; [done|]. split; [done|].
    rewrite Hbytes, Htake, Hdrop, <- !app_assoc. done.
Qed.

(** X1. Inside an open context, the receiving loop of [PushData] assembles a
    stream whose first frame announces a non-negative size into that many
    zero bytes overwritten from the start by the chunks in order: the chunks
    one after the other, followed by the zeros the chunks did not reach (none
    when the chunks fill or overrun the announced size). Digest, data type
    and schema come from the first frame. *)
Theorem PushData_loop_assembles self first rest :
  is_cm (DW self) = true →
  (0 ≤ pb.pd_nbytes first)%Z →
  let chunks := pb.pd_raw_data <$> first :: rest in
  PushData_loop self 0 (first :: rest) None
  = Return (Some {| uri := pb.pd_uri first;
                    dtype_code := pb.pd_data_type first;
                    schema_hash := pb.pd_schema_hash first;
                    dBytes := assembled (pb.pd_nbytes first) chunks;
                    offset := length (concat chunks) |}).
Proof.
  intros Hcm Hsize chunks. subst chunks. simpl.
  unfold PushData_body, Py.bytearray. simpl. rewrite Hcm.
  destruct (decide (0 ≤ pb.pd_nbytes first)%Z); [|done]. simpl.
  set (buf := replicate (Z.to_nat (pb.pd_nbytes first)) x00).
  set (c := pb.pd_raw_data first).
  destruct (slice_assign_chain buf 0 c 0) as (Hlen & _); [lia|].
  edestruct (PushData_loop_rest_assembles self rest 1) as
    (l' & -> & Huri & Hdtype & Hschema & Hoffset & Hbytes); [lia|exact Hlen|].
  simpl in *. destruct l' as [u d s bs o]. simpl in *. subst u d s o.
  rewrite Hbytes, (assembled_cons (pb.pd_nbytes first)) by done.
  rewrite length_app. done.
Qed.

Lemma PushCommit_loop_rest_assembles rest : ∀ idx l,
  idx ≠ 0 →
  pcl_offset l ≤ length (pcl_refBytes l) →
  let chunks := (λ request, pb.ref (pb.pc_record request)) <$> rest in
  ∃ l', PushCommit_loop idx rest (Some l) = Return (Some l')
        ∧ pcl_commit l' = pcl_commit l
        ∧ pcl_specVal l' = pcl_specVal l
        ∧ pcl_parentVal l' = pcl_parentVal l
        ∧ pcl_offset l' = pcl_offset l + length (concat chunks)
        ∧ pcl_refBytes l' = take (pcl_offset l) (pcl_refBytes l) ++ concat chunks
                            ++ drop (pcl_offset l + length (concat chunks)) (pcl_refBytes l).
Proof.
  induction rest as [|request rest IH]; intros idx l Hidx Hoff; simpl.
  - exists l. rewrite Nat.add_0_r, take_drop. done.
  - unfold PushCommit_body. destruct (decide (idx = 0)); [done|]. simpl.
    set (c := pb.ref (pb.pc_record request)).
    destruct (slice_assign_chain (pcl_refBytes l) (pcl_offset l) c
                (length (concat ((λ request, pb.ref (pb.pc_record request)) <$> rest))) Hoff)
      as (Hlen & Htake & Hdrop).
    edestruct (IH (S idx)) as (l' & -> & Hcommit & Hspec & Hparent & Hoffset & Hbytes);
      [lia|exact Hlen|].
    cbn [pcl_offset pcl_refBytes pcl_commit pcl_specVal pcl_parentVal] in *.
    exists l'. fold c. change (list_fmap _ _ ?f rest) with (f <$> rest).
    rewrite length_app, Nat.add_assoc.
    split; [done|]. split; [done|]. split; [done|]. split; [done|]. split; [done|].
    rewrite Hbytes, Htake, Hdrop, <- !app_assoc. done.
Qed.

(** X2. The receiving loop of [PushCommit] assembles a stream whose first
    frame announces a non-negative size into the ref chunks in order,
    followed by the zeros of the announced size the chunks did not reach.
    Commit digest, spec and parent value come from the first frame; those of
    later frames are ignored. *)
Theorem PushCommit_loop_assembles first rest :
  (0 ≤ pb.pc_total_byte_size first)%Z →
  let chunks := (λ request, pb.ref (pb.pc_record request)) <$> first :: rest in
  PushCommit_loop 0 (first :: rest) None
  = Return (Some {| pcl_commit := pb.pc_commit first;
                    pcl_refBytes := assembled (pb.pc_total_byte_size first) chunks;
                    pcl_offset := length (concat chunks);
                    pcl_specVal := pb.spec (pb.pc_record first);
                    pcl_parentVal := pb.parent (pb.pc_record first) |}).
Proof.
  intros Hsize chunks. subst chunks. simpl.
  unfold PushCommit_body, Py.bytearray. simpl.
  destruct (decide (0 ≤ pb.pc_total_byte_size first)%Z); [|done]. simpl.
  set (buf := replicate (Z.to_nat (pb.pc_total_byte_size first)) x00).
  set (c := pb.ref (pb.pc_record first)).
  destruct (slice_assign_chain buf 0 c 0) as (Hlen & _); [lia|].
  edestruct (PushCommit_loop_rest_assembles rest 1) as
    (l' & -> & Hcommit & Hspec & Hparent & Hoffset & Hbytes); [lia|exact Hlen|].
  simpl in *. destruct l' as [cm bs o sp pa]. simpl in *. subst cm o sp pa.
  rewrite Hbytes, (assembled_cons (pb.pc_total_byte_size first)) by done.
  rewrite length_app. done.
Qed.

End facts.

End assembly_facts.

Module push_data_facts.

Import grpc server server_rest assembly_facts.

Section facts.
Context `{Collaborators}.

(** X3. Inside an open context, a stream whose assembled bytes decompress and
    deserialise to a sample that hashes to the asserted digest is handed to
    [DataWriter.data] once, with the schema and digest of the first frame.
    The call returns OK with the server the writer left, or, if the writer
    raised, is aborted with INTERNAL, again with the server the writer left. *)
Theorem PushData_verified_write first rest context self uncompBytes recieved_data hash_func :
  is_cm (DW self) = true →
  0 ≤ pb.pd_nbytes first →
  blosc_decompress (assembled (pb.pd_nbytes first) (pb.pd_raw_data <$> first :: rest))
  = inr uncompBytes →
  deserialize_data (pb.pd_data_type first) uncompBytes = inr recieved_data →
  hash_func_from_tcode (pb.pd_data_type first) = inr hash_func →
  hash_func recieved_data = pb.pd_uri first →
  PushData (first :: rest) context self
  = match DW_data (pb.pd_schema_hash first) (pb.pd_uri first) recieved_data self with
    | (Some e, after) => (Abort INTERNAL (Traceback e), context, after)
    | (None, after) => (Return {| pb.pdr_error := pb.ok |}, context, after)
    end.
Proof.
  intros Hcm Hsize Hunc Hdata Hfunc Hhash.
  unfold PushData. rewrite PushData_loop_assembles by assumption.
  unfold rehash. cbn [dBytes dtype_code uri schema_hash].
  rewrite Hunc. cbn [lift bind]. rewrite Hdata. cbn [lift bind].
  rewrite Hfunc. cbn [lift bind]. rewrite Hhash.
  destruct (decide (pb.pd_uri first ≠ pb.pd_uri first)); [done|].
  reflexivity.
Qed.

(** X4. Inside an open context, a stream whose assembled bytes do not
    decompress, or whose decompressed bytes do not deserialise, or whose data
    type has no hash function, makes the call leave with that exception: it
    is not turned into a status, nothing is compared or written, and the
    server is as it was. *)
Theorem PushData_undecodable first rest context self e :
  is_cm (DW self) = true →
  0 ≤ pb.pd_nbytes first →
  let payload := assembled (pb.pd_nbytes first) (pb.pd_raw_data <$> first :: rest) in
  blosc_decompress payload = inl e
  ∨ (∃ uncompBytes,
       blosc_decompress payload = inr uncompBytes
       ∧ (deserialize_data (pb.pd_data_type first) uncompBytes = inl e
          ∨ (∃ recieved_data,
               deserialize_data (pb.pd_data_type first) uncompBytes = inr recieved_data
               ∧ hash_func_from_tcode (pb.pd_data_type first) = inl e))) →
  PushData (first :: rest) context self = (Raise e, context, self).
Proof.
  intros Hcm Hsize payload Hfail. subst payload.
  unfold PushData. rewrite PushData_loop_assembles by assumption.
  unfold rehash. cbn [dBytes dtype_code uri schema_hash].
  destruct Hfail as [Hunc|(uncompBytes & Hunc & [Hdata|(recieved_data & Hdata & Hfunc)])];
    rewrite Hunc; cbn [lift bind]; [done| |]; rewrite Hdata; cbn [lift bind]; [done|].
  rewrite Hfunc. reflexivity.
Qed.

(** X5. A stream without frames makes both receiving handlers leave with
    [UnboundLocalError], whether or not a push context is open; a first frame
    announcing a negative size makes them leave with [ValueError] ([PushData]
    inside an open context, where it gets that far). In each case the server
    and the call context are as they were. *)
Theorem receiving_handlers_malformed_stream context self :
  PushData [] context self = (Raise Py.UnboundLocalError, context, self)
  ∧ PushCommit [] context self = (Raise Py.UnboundLocalError, context, self)
  ∧ (∀ first rest,
       is_cm (DW self) = true →
       pb.pd_nbytes first < 0 →
       PushData (first :: rest) context self = (Raise Py.ValueError, context, self))
  ∧ (∀ first rest,
       pb.pc_total_byte_size first < 0 →
       PushCommit (first :: rest) context self = (Raise Py.ValueError, context, self)).
Proof.
  split; [reflexivity|]. split; [reflexivity|]. split.
  - intros first rest Hcm Hneg. unfold PushData. simpl.
    unfold PushData_body, Py.bytearray. simpl. rewrite Hcm.
    destruct (decide (0 ≤ pb.pd_nbytes first)); [lia|]. reflexivity.
  - intros first rest Hneg. unfold PushCommit. simpl.
    unfold PushCommit_body, Py.bytearray. simpl.
    destruct (decide (0 ≤ pb.pc_total_byte_size first)); [lia|]. reflexivity.
Qed.

End facts.

End push_data_facts.

Module push_data_checks.

Import grpc server server_rest fixtures assembly_facts push_data_facts.

Lemma PushData_loop_assembles_witness :
  PushData_loop pushing_server 0
    [push_frame "abcd" "ab"; push_frame "ignored" "cd"] None
  = Return (Some {| uri := "abcd"; dtype_code := pb.NP_ARRAY; schema_hash := "s";
                    dBytes := b "abcd"; offset := 4 |}).
Proof.
  apply (PushData_loop_assembles pushing_server
           (push_frame "abcd" "ab") [push_frame "ignored" "cd"]).
  - reflexivity.
  - simpl. lia.
Defined.

Lemma PushCommit_loop_assembles_witness :
  PushCommit_loop 0 [commit_frame "c1" ""; commit_frame "c2" "c1"] None
  = Return (Some {| pcl_commit := "c1"; pcl_refBytes := b "refsrefs"; pcl_offset := 8;
                    pcl_specVal := b "spec"; pcl_parentVal := [] |}).
Proof.
  apply (PushCommit_loop_assembles (commit_frame "c1" "") [commit_frame "c2" "c1"]).
  simpl. lia.
Defined.

Lemma PushData_verified_write_witness :
  PushData [push_frame "abcd" "ab"; push_frame "ignored" "cd"] fresh pushing_server
  = match DW_data "s" "abcd" (b "abcd") pushing_server with
    | (Some e, after) => (Abort INTERNAL (Traceback e), fresh, after)
    | (None, after) => (Return {| pb.pdr_error := pb.ok |}, fresh, after)
    end.
Proof.
  apply (@PushData_verified_write plain (push_frame "abcd" "ab")
           [push_frame "ignored" "cd"] fresh pushing_server (b "abcd") (b "abcd")
           String.string_of_list_byte).
  - reflexivity.
  - simpl. lia.
  - reflexivity.
  - reflexivity.
  - reflexivity.
  - reflexivity.
Defined.

Lemma PushData_undecodable_witness :
  @PushData refusing_empty
    [ {| pb.pd_uri := "d"; pb.pd_data_type := pb.NP_ARRAY; pb.pd_schema_hash := "s";
         pb.pd_nbytes := 0; pb.pd_raw_data := [] |} ] fresh pushing_server
  = (Raise (Py.LibraryError "blosc"), fresh, pushing_server).
Proof.
  apply (@PushData_undecodable refusing_empty).
  - reflexivity.
  - simpl. lia.
  - left. reflexivity.
Defined.

Lemma receiving_handlers_malformed_stream_witness :
  PushData [ {| pb.pd_uri := "d"; pb.pd_data_type := pb.NP_ARRAY; pb.pd_schema_hash := "s";
                pb.pd_nbytes := -1; pb.pd_raw_data := b "x" |} ] fresh pushing_server
  = (Raise Py.ValueError, fresh, pushing_server)
  ∧ PushCommit [ {| pb.pc_commit := "c1"; pb.pc_total_byte_size := -4;
                    pb.pc_record := pb.default_commit_record |} ] fresh holding_server
    = (Raise Py.ValueError, fresh, holding_server).
Proof.
  split.
  - apply (proj1 (proj2 (proj2 (@receiving_handlers_malformed_stream plain fresh
                                  pushing_server)))).
    + reflexivity.
    + simpl. lia.
  - apply (proj2 (proj2 (proj2 (@receiving_handlers_malformed_stream plain fresh
                                  holding_server)))).
    simpl. lia.
Defined.

End push_data_checks.

Module records_facts.

Import grpc server server_rest assembly_facts missing_facts.

Lemma put_no_overwrite_keeps {V} key (value : V) db k v :
  db !! k = Some v → (put_no_overwrite key value db).1 !! k = Some v.
Proof.
  intros Hk. unfold put_no_overwrite. destruct (db !! key) eqn:Hkey; simpl; [done|].
  rewrite lookup_insert_ne; [done|]. congruence.
Qed.

Lemma put_no_overwrite_lookup {V} key (value : V) db :
  (put_no_overwrite key value db).1 !! key = Some (default value (db !! key)).
Proof.
  unfold put_no_overwrite. destruct (db !! key) eqn:Hkey; simpl; [done|].
  by rewrite lookup_insert_eq.
Qed.

Lemma put_no_overwrite_dom {V} key (value : V) db :
  dom (put_no_overwrite key value db).1 = {[key]} ∪ dom db.
Proof.
  unfold put_no_overwrite. destruct (db !! key) eqn:Hkey; simpl.
  - apply elem_of_dom_2 in Hkey. apply set_eq. intros k.
    rewrite elem_of_union, elem_of_singleton. split; [tauto|]. by intros [->|?].
  - by rewrite dom_insert_L.
Qed.

Lemma put_no_overwrite_new {V} key (value : V) db :
  db !! key = None → put_no_overwrite key value db = (<[key := value]> db, true).
Proof. intros Hkey. unfold put_no_overwrite. by rewrite Hkey. Qed.

(** X6. A branch the server does not have is answered by aborting with
    NOT_FOUND. After [PushBranchRecord], whether it created the branch, moved
    it, or aborted with ALREADY_EXISTS because nothing changed,
    [FetchBranchRecord] of that branch returns the pushed commit. *)
Theorem FetchBranchRecord_after_PushBranchRecord request context self query context' :
  pb.name (fbq_rec query) = pb.name (pb.pbr_rec request) →
  let pushed := PushBranchRecord request context self in
  (branchenv (env self) !! pb.name (pb.pbr_rec request) = None →
   FetchBranchRecord query context' self
   = (Abort NOT_FOUND
        (Message ("BRANCH: " +:+ pb.name (pb.pbr_rec request)
                  +:+ " DOES NOT EXIST ON SERVER.")),
      context', self))
  ∧ (pushed.1.1 = Return {| pb.pbr_error := pb.ok |}
     ∨ (∃ msg, pushed.1.1 = Abort ALREADY_EXISTS (Message msg)) ∧ pushed.2 = self)
  ∧ pushed.1.2 = context
  ∧ FetchBranchRecord query context' pushed.2
    = (Return {| fbr_rec := pb.pbr_rec request; fbr_error := pb.ok |}, context', pushed.2).
Proof.
  intros Hname pushed. subst pushed.
  destruct request as [[name commit]]. simpl in *.
  unfold FetchBranchRecord, PushBranchRecord, get_branch_names, get_branch_head_commit.
  rewrite Hname. simpl. split.
  { intros ->. reflexivity. }
  destruct (decide (name ∉ elements (dom (branchenv (env self))))) as [Hnew|Hold]; simpl.
  - unfold create_branch. rewrite lookup_insert_eq. eauto.
  - destruct (branchenv (env self) !! name) as [current|] eqn:Hcurrent.
    + destruct (decide (current = commit)) as [->|Hne]; simpl.
      * rewrite Hcurrent. eauto 10.
      * unfold set_branch_head_commit. rewrite lookup_insert_eq. eauto.
    + exfalso. apply Hold. rewrite elem_of_elements. by apply not_elem_of_dom.
Qed.

(** X7. [PushBranchRecord] touches nothing but the head of the named branch:
    every other branch reads as before, and the commits, the hash
    environment and the writer are as they were. *)
Theorem PushBranchRecord_frame request context self :
  let after := (PushBranchRecord request context self).2 in
  (∀ other context' query,
     other ≠ pb.name (pb.pbr_rec request) →
     pb.name (fbq_rec query) = other →
     (FetchBranchRecord query context' after).1 = (FetchBranchRecord query context' self).1)
  ∧ refenv (env after) = refenv (env self)
  ∧ hashenv (env after) = hashenv (env self)
  ∧ DW after = DW self.
Proof.
  intros after. subst after.
  destruct request as [[name commit]]. simpl.
  assert (Hother : ∀ other context' query,
            other ≠ name → pb.name (fbq_rec query) = other →
            (FetchBranchRecord query context'
               (with_branchenv (<[name := commit]> (branchenv (env self))) self)).1
            = (FetchBranchRecord query context' self).1).
  { intros other context' query Hne Hquery.
    unfold FetchBranchRecord, get_branch_head_commit. simpl. rewrite Hquery.
    rewrite lookup_insert_ne by done.
    by destruct (branchenv (env self) !! other). }
  unfold PushBranchRecord, get_branch_names, get_branch_head_commit. simpl.
  destruct (decide _) as [Hnew|Hold]; simpl.
  - split; [|done]. intros. by eapply Hother.
  - destruct (branchenv (env self) !! name) as [current|] eqn:Hcurrent; simpl; [|done].
    destruct (decide (current = commit)); simpl; [done|].
    split; [|done]. intros. by eapply Hother.
Qed.

Section facts.
Context `{Collaborators}.

Lemma PushCommit_refenv first rest context self :
  store_keeps_env →
  0 ≤ pb.pc_total_byte_size first →
  let after := (PushCommit (first :: rest) context self).2 in
  let chunks := (λ request, pb.ref (pb.pc_record request)) <$> first :: rest in
  let r := refenv (env self) in
  refenv (env after)
  = {| commit_ref :=
         (put_no_overwrite (pb.pc_commit first)
            (assembled (pb.pc_total_byte_size first) chunks) (commit_ref r)).1;
       commit_parent :=
         (put_no_overwrite (pb.pc_commit first) (pb.parent (pb.pc_record first))
            (commit_parent r)).1;
       commit_spec :=
         (put_no_overwrite (pb.pc_commit first) (pb.spec (pb.pc_record first))
            (commit_spec r)).1 |}
  ∧ branchenv (env after) = branchenv (env self)
  ∧ hashenv (env after) = hashenv (env self)
  ∧ DW after = DW self.
Proof.
  intros Hstore Hsize after chunks r. subst after chunks r.
  unfold PushCommit. rewrite PushCommit_loop_assembles by assumption.
  unfold CW_commit. cbn [pcl_commit pcl_parentVal pcl_specVal pcl_refBytes].
  destruct (put_no_overwrite _ _ (commit_parent _)) as [parents p1].
  destruct (put_no_overwrite _ _ (commit_ref _)) as [refs p2].
  destruct (put_no_overwrite _ _ (commit_spec _)) as [specs p3].
  destruct (falsy _); simpl; [done|].
  destruct (Hstore (with_refenv {| commit_ref := refs; commit_parent := parents;
                                   commit_spec := specs |} self)) as [-> ->].
  done.
Qed.

(** X8. [PushCommit] never overwrites: whatever the stream, every ref, parent
    and spec entry recorded before the call is recorded with the same value
    after it, and branches, hash environment and writer are untouched. *)
Theorem PushCommit_never_overwrites request_iterator context self :
  store_keeps_env →
  let after := (PushCommit request_iterator context self).2 in
  (∀ c v, commit_ref (refenv (env self)) !! c = Some v →
          commit_ref (refenv (env after)) !! c = Some v)
  ∧ (∀ c v, commit_parent (refenv (env self)) !! c = Some v →
            commit_parent (refenv (env after)) !! c = Some v)
  ∧ (∀ c v, commit_spec (refenv (env self)) !! c = Some v →
            commit_spec (refenv (env after)) !! c = Some v)
  ∧ branchenv (env after) = branchenv (env self)
  ∧ hashenv (env after) = hashenv (env self)
  ∧ DW after = DW self.
Proof.
  intros Hstore after. subst after.
  destruct request_iterator as [|first rest]; [done|].
  destruct (decide (0 ≤ pb.pc_total_byte_size first)) as [Hsize|Hneg].
  - destruct (PushCommit_refenv first rest context self Hstore Hsize)
      as (-> & Hbranch & Hhash & Hdw).
    simpl. repeat split; try done; intros c v Hc; by apply put_no_overwrite_keeps.
  - unfold PushCommit. simpl. unfold PushCommit_body, Py.bytearray. simpl.
    destruct (decide (0 ≤ pb.pc_total_byte_size first)); done.
Qed.

(** X9. A commit the server has no entry for, pushed under a non-empty
    digest, is accepted with OK, and [FetchCommit] then streams it back: one
    frame per chunk of the assembled ref bytes, each carrying the digest, the
    size of the ref bytes and the parent and spec values of the first frame
    pushed; the stream ends exhausted and sets no status. *)
Theorem FetchCommit_after_PushCommit first rest context self rt query context' :
  store_keeps_env →
  0 ≤ pb.pc_total_byte_size first →
  pb.pc_commit first ≠ "" →
  commit_ref (refenv (env self)) !! pb.pc_commit first = None →
  commit_parent (refenv (env self)) !! pb.pc_commit first = None →
  commit_spec (refenv (env self)) !! pb.pc_commit first = None →
  pb.fc_commit query = pb.pc_commit first →
  let pushed := PushCommit (first :: rest) context self in
  let refBytes :=
    assembled (pb.pc_total_byte_size first)
      ((λ request, pb.ref (pb.pc_record request)) <$> first :: rest) in
  pushed.1 = (Return {| pb.pcr_error := pb.ok |}, context)
  ∧ FetchCommit rt query context' pushed.2
    = ({| frames :=
            (λ chunk,
               {| pb.fcr_commit := pb.pc_commit first;
                  pb.fcr_total_byte_size := Z.of_nat (length refBytes);
                  pb.fcr_record := {| pb.parent := pb.parent (pb.pc_record first);
                                      pb.ref := chunk;
                                      pb.spec := pb.spec (pb.pc_record first) |};
                  pb.fcr_error := pb.default_error |}) <$> chunk_bytes refBytes;
          ending := Exhausted |}, context').
Proof.
  intros Hstore Hsize Hname Href Hparent Hspec Hquery pushed refBytes.
  destruct (PushCommit_refenv first rest context self Hstore Hsize) as (Hrefenv & _).
  fold pushed in Hrefenv. split.
  - subst pushed. unfold PushCommit. rewrite PushCommit_loop_assembles by assumption.
    unfold CW_commit. cbn [pcl_commit pcl_parentVal pcl_specVal pcl_refBytes].
    rewrite !put_no_overwrite_new by assumption. simpl.
    destruct (bool_decide_reflect (pb.pc_commit first = "")); done.
  - unfold FetchCommit. rewrite Hquery, Hrefenv. simpl.
    rewrite !put_no_overwrite_lookup, Href, Hparent, Hspec. simpl.
    by destruct rt.
Qed.

(** X10. After [PushCommit] has received a commit (a stream whose first frame
    announces a non-negative size), [PushFindMissingCommits] no longer reports
    that commit as missing and reports every other digest as before. *)
Theorem PushFindMissingCommits_after_PushCommit first rest context self request context' :
  store_keeps_env →
  0 ≤ pb.pc_total_byte_size first →
  let after := (PushCommit (first :: rest) context self).2 in
  ∃ before_reply after_reply,
    PushFindMissingCommits request context' self = (Return before_reply, context')
    ∧ PushFindMissingCommits request context' after = (Return after_reply, context')
    ∧ ∀ c, c ∈ pb.fmcr_commits after_reply
           ↔ c ∈ pb.fmcr_commits before_reply ∧ c ≠ pb.pc_commit first.
Proof.
  intros Hstore Hsize after.
  destruct (PushCommit_refenv first rest context self Hstore Hsize) as (Hrefenv & _).
  fold after in Hrefenv.
  destruct (PushFindMissingCommits_difference request context' self)
    as (before_reply & Hbefore & _ & _ & _ & Hb).
  destruct (PushFindMissingCommits_difference request context' after)
    as (after_reply & Hafter & _ & _ & _ & Ha).
  exists before_reply, after_reply. split; [done|]. split; [done|].
  intros c. rewrite Ha, Hb. unfold list_all_commits. rewrite Hrefenv. simpl.
  rewrite !elem_of_elements, put_no_overwrite_dom.
  rewrite not_elem_of_union, not_elem_of_singleton. tauto.
Qed.

End facts.

End records_facts.

Module records_checks.

Import grpc server server_rest fixtures records_facts.

Lemma plain_store_keeps_env : @store_keeps_env plain.
Proof. intros self. split; reflexivity. Defined.

Lemma FetchBranchRecord_after_PushBranchRecord_witness :
  let query := {| fbq_rec := {| pb.name := "dev"; pb.commit := "" |} |} in
  let pushed := PushBranchRecord (branch_request "dev" "c1") fresh holding_server in
  FetchBranchRecord query fresh holding_server
  = (Abort NOT_FOUND (Message "BRANCH: dev DOES NOT EXIST ON SERVER."), fresh, holding_server)
  ∧ FetchBranchRecord query fresh pushed.2
    = (Return {| fbr_rec := {| pb.name := "dev"; pb.commit := "c1" |}; fbr_error := pb.ok |},
       fresh, pushed.2).
Proof.
  intros query pushed.
  destruct (FetchBranchRecord_after_PushBranchRecord (branch_request "dev" "c1") fresh
              holding_server query fresh eq_refl) as (Hmissing & _ & _ & Hfetch).
  split; [|exact Hfetch].
  apply Hmissing. vm_compute. reflexivity.
Defined.

Lemma PushBranchRecord_frame_witness :
  let after := (PushBranchRecord (branch_request "dev" "c1") fresh holding_server).2 in
  let query := {| fbq_rec := {| pb.name := "master"; pb.commit := "" |} |} in
  (FetchBranchRecord query fresh after).1 = (FetchBranchRecord query fresh holding_server).1.
Proof.
  intros after query.
  apply (proj1 (PushBranchRecord_frame (branch_request "dev" "c1") fresh holding_server)
           "master" fresh query).
  - discriminate.
  - reflexivity.
Defined.

Lemma PushCommit_never_overwrites_witness :
  let after := (PushCommit [commit_frame "c1" "c0"; commit_frame "c1" "c0"] fresh
                  holding_server).2 in
  commit_parent (refenv (env after)) !! "c1" = Some [].
Proof.
  intros after.
  apply (proj1 (proj2 (@PushCommit_never_overwrites plain
                         [commit_frame "c1" "c0"; commit_frame "c1" "c0"] fresh holding_server
                         plain_store_keeps_env))).
  vm_compute. reflexivity.
Defined.

Lemma FetchCommit_after_PushCommit_witness :
  let pushed := PushCommit [commit_frame "c2" "c1"] fresh holding_server in
  pushed.1 = (Return {| pb.pcr_error := pb.ok |}, fresh)
  ∧ FetchCommit Py.Pep479 {| pb.fc_commit := "c2" |} fresh pushed.2
    = ({| frames := [ {| pb.fcr_commit := "c2";
                         pb.fcr_total_byte_size := 4;
                         pb.fcr_record := {| pb.parent := b "c1"; pb.ref := b "refs";
                                             pb.spec := b "spec" |};
                         pb.fcr_error := pb.default_error |} ];
          ending := Exhausted |}, fresh).
Proof.
  apply (@FetchCommit_after_PushCommit plain (commit_frame "c2" "c1") [] fresh holding_server
           Py.Pep479 {| pb.fc_commit := "c2" |} fresh plain_store_keeps_env).
  - simpl. lia.
  - discriminate.
  - vm_compute. reflexivity.
  - vm_compute. reflexivity.
  - vm_compute. reflexivity.
  - reflexivity.
Defined.

Lemma PushFindMissingCommits_after_PushCommit_witness :
  let request := {| pb.fmc_branch := {| pb.name := "master"; pb.commit := "c2" |};
                    pb.fmc_commits := ["c1"; "c2"] |} in
  let after := (PushCommit [commit_frame "c2" "c1"] fresh holding_server).2 in
  ∃ before_reply after_reply,
    PushFindMissingCommits request fresh holding_server = (Return before_reply, fresh)
    ∧ PushFindMissingCommits request fresh after = (Return after_reply, fresh)
    ∧ ∀ c, c ∈ pb.fmcr_commits after_reply
           ↔ c ∈ pb.fmcr_commits before_reply ∧ c ≠ "c2".
Proof.
  intros request after.
  apply (@PushFindMissingCommits_after_PushCommit plain (commit_frame "c2" "c1") [] fresh
           holding_server request fresh plain_store_keeps_env).
  simpl. lia.
Defined.

End records_checks.


Module schema_facts.

Import grpc server server_rest records_facts missing_facts.

Lemma PushSchema_hashenv request context self :
  let after := (PushSchema request context self).2 in
  hashenv (env after)
  = {| hash_data := hash_data (hashenv (env self));
       hash_schema := (put_no_overwrite (pb.digest (pb.ps_rec request))
                         (pb.blob (pb.ps_rec request))
                         (hash_schema (hashenv (env self)))).1 |}
  ∧ refenv (env after) = refenv (env self)
  ∧ branchenv (env after) = branchenv (env self)
  ∧ DW after = DW self.
Proof.
  unfold PushSchema, CW_schema.
  destruct (put_no_overwrite _ _ _) as [schemas written]. simpl.
  destruct (falsy _); done.
Qed.

(** X11. [FetchSchema] of a digest the server lacks returns (does not abort)
    a reply with error code 5 and an empty blob, with the status of the call
    set to NOT_FOUND. After [PushSchema] of a digest, [FetchSchema] returns
    with OK the blob first recorded under it: the pushed blob when the digest
    was new, the blob already there otherwise. Data hashes, commits, branches
    and the writer are as they were. *)
Theorem FetchSchema_after_PushSchema request context self query context' :
  pb.digest (fsq_rec query) = pb.digest (pb.ps_rec request) →
  let digest := pb.digest (pb.ps_rec request) in
  let after := (PushSchema request context self).2 in
  let kept := default (pb.blob (pb.ps_rec request))
                (hash_schema (hashenv (env self)) !! digest) in
  (hash_schema (hashenv (env self)) !! digest = None →
   let msg := "SCHEMA HASH: " +:+ digest +:+ " DOES NOT EXIST ON SERVER" in
   FetchSchema query context' self
   = (Return {| fsr_rec := {| pb.digest := digest; pb.blob := [] |};
                fsr_error := {| pb.code := 5; pb.message := msg |} |},
      set_code NOT_FOUND (set_details msg context'), self))
  ∧ FetchSchema query context' after
    = (Return {| fsr_rec := {| pb.digest := digest; pb.blob := kept |};
                 fsr_error := pb.ok |}, context', after)
  ∧ hash_data (hashenv (env after)) = hash_data (hashenv (env self))
  ∧ refenv (env after) = refenv (env self)
  ∧ branchenv (env after) = branchenv (env self)
  ∧ DW after = DW self.
Proof.
  intros Hquery digest after kept.
  destruct (PushSchema_hashenv request context self) as (Hhash & Href & Hbranch & Hdw).
  fold after in Hhash, Href, Hbranch, Hdw. split; [|split].
  - intros Hnone msg. unfold FetchSchema. rewrite Hquery. fold digest. by rewrite Hnone.
  - unfold FetchSchema. rewrite Hquery, Hhash. simpl.
    by rewrite put_no_overwrite_lookup.
  - rewrite Hhash. done.
Qed.

(** X12. [PushFindMissingSchemas] replies, without repetition, with exactly
    the client's schema digests the server has no blob for, and always with
    OK. After [PushSchema] of a digest, that digest is no longer reported and
    every other digest is reported as before. *)
Theorem PushFindMissingSchemas_difference request context self pushed context' :
  let after := (PushSchema pushed context' self).2 in
  ∃ reply after_reply,
    PushFindMissingSchemas request context self = (Return reply, context)
    ∧ fmsr_error reply = pb.ok
    ∧ fmsr_commit reply = fms_commit request
    ∧ NoDup (fmsr_schema_digests reply)
    ∧ (∀ d, d ∈ fmsr_schema_digests reply
            ↔ d ∈ fms_schema_digests request
              ∧ hash_schema (hashenv (env self)) !! d = None)
    ∧ PushFindMissingSchemas request context after = (Return after_reply, context)
    ∧ (∀ d, d ∈ fmsr_schema_digests after_reply
            ↔ d ∈ fmsr_schema_digests reply ∧ d ≠ pb.digest (pb.ps_rec pushed)).
Proof.
  intros after.
  destruct (PushSchema_hashenv pushed context' self) as (Hhash & _).
  fold after in Hhash.
  unfold PushFindMissingSchemas, list_all_schema_digests. rewrite Hhash.
  eexists _, _. split; [reflexivity|]. cbn [fmsr_error fmsr_commit fmsr_schema_digests app].
  split; [done|]. split; [done|]. split; [apply NoDup_elements|].
  assert (Hspec : ∀ (m : gmap string bytes) d,
            d ∈ elements ((list_to_set (fms_schema_digests request) : gset string)
                          ∖ list_to_set (elements (dom m)))
            ↔ d ∈ fms_schema_digests request ∧ m !! d = None).
  { intros m d. rewrite elements_difference_spec, elem_of_elements, not_elem_of_dom. done. }
  split; [apply Hspec|]. split; [reflexivity|].
  intros d. cbn [fmsr_schema_digests hash_schema]. rewrite !Hspec.
  rewrite <- !not_elem_of_dom, put_no_overwrite_dom.
  rewrite not_elem_of_union, not_elem_of_singleton. tauto.
Qed.

(** X13. [FetchFindMissingSchemas] replies, without repetition, with exactly
    the schema digests of the commit that are not in the client's list; when
    the commit cannot be unpacked the call leaves with that exception. *)
Theorem FetchFindMissingSchemas_difference `{CommitContents} request context self :
  match schema_hashes (refenv (env self)) (fms_commit request) with
  | inl e => FetchFindMissingSchemas request context self = (Raise e, context)
  | inr hashes =>
      ∃ reply,
        FetchFindMissingSchemas request context self = (Return reply, context)
        ∧ fmsr_error reply = pb.ok
        ∧ fmsr_commit reply = fms_commit request
        ∧ NoDup (fmsr_schema_digests reply)
        ∧ ∀ d, d ∈ fmsr_schema_digests reply
               ↔ d ∈ hashes ∧ d ∉ fms_schema_digests request
  end.
Proof.
  unfold FetchFindMissingSchemas.
  destruct (schema_hashes _ _) as [e|hashes]; [done|].
  eexists. split; [reflexivity|]. cbn [fmsr_error fmsr_commit fmsr_schema_digests app].
  split; [done|]. split; [done|]. split; [apply NoDup_elements|].
  intros d. apply elements_difference_spec.
Qed.

End schema_facts.

Module schema_checks.

Import grpc server server_rest fixtures schema_facts.

Lemma FetchSchema_after_PushSchema_witness :
  let query := {| fsq_rec := {| pb.digest := "s1"; pb.blob := [] |} |} in
  let after := (PushSchema (schema_request "s1" "other") fresh holding_server).2 in
  FetchSchema query fresh after
  = (Return {| fsr_rec := {| pb.digest := "s1"; pb.blob := b "schema" |};
               fsr_error := pb.ok |}, fresh, after).
Proof.
  intros query after.
  destruct (FetchSchema_after_PushSchema (schema_request "s1" "other") fresh holding_server
              query fresh eq_refl) as (_ & Hfetch & _).
  exact Hfetch.
Defined.

Lemma FetchFindMissingSchemas_difference_witness :
  let request := {| fms_commit := "c1"; fms_schema_digests := ["s2"; "s3"] |} in
  ∃ reply,
    @FetchFindMissingSchemas two_schemas request fresh holding_server = (Return reply, fresh)
    ∧ fmsr_error reply = pb.ok
    ∧ fmsr_commit reply = "c1"
    ∧ NoDup (fmsr_schema_digests reply)
    ∧ ∀ d, d ∈ fmsr_schema_digests reply ↔ d ∈ ["s1"; "s2"] ∧ d ∉ ["s2"; "s3"].
Proof.
  intros request.
  exact (@FetchFindMissingSchemas_difference two_schemas request fresh holding_server).
Defined.

End schema_checks.

Module origin_facts.

Import grpc server server_rest.

#[local] Arguments backend_decoder : simpl never.
#[local] Arguments data_type_of_backend : simpl never.
#[local] Arguments compression_opts : simpl never.
#[local] Open Scope list_scope.

Section facts.
Context `{Collaborators}.

Lemma FetchFindDataOrigin_loop_reportable self context : ∀ digests,
  Forall (reportable self) digests →
  ∃ dtypes,
    FetchFindDataOrigin_loop self digests context
    = (OriginFrame <$> zip_with origin_response digests dtypes, Exhausted, context)
    ∧ length dtypes = length digests
    ∧ Forall2 (λ digest dtype,
                 ∃ hashVal, hash_data (hashenv (env self)) !! digest = Some hashVal
                            ∧ data_type_of_backend (backend (backend_decoder hashVal))
                              = Some dtype) digests dtypes.
Proof.
  induction 1 as [|digest digests (hashVal & dtype & Hd & Hty) _ (dtypes & IH & Hlen & Hall)].
  - exists []. done.
  - exists (dtype :: dtypes). simpl in *. rewrite Hd, Hty, IH. simpl.
    split; [done|]. split; [by rewrite Hlen|]. constructor; [|done]. eauto.
Qed.

(** X15. When the server holds every digest asked for, each under a known
    backend code, [FetchFindDataOrigin] yields one origin per request, in the
    order asked, naming the digest as its own uri, with the data type of the
    backend code of its locator; the stream ends exhausted, on either
    runtime, and no status is set. *)
Theorem FetchFindDataOrigin_all_reportable rt request_iterator context self :
  Forall (reportable self) (pb.ffo_digest <$> request_iterator) →
  ∃ dtypes,
    FetchFindDataOrigin rt request_iterator context self
    = ({| frames := OriginFrame
                    <$> zip_with origin_response (pb.ffo_digest <$> request_iterator) dtypes;
          ending := Exhausted |}, context)
    ∧ length dtypes = length request_iterator
    ∧ Forall2 (λ digest dtype,
                 ∃ hashVal, hash_data (hashenv (env self)) !! digest = Some hashVal
                            ∧ data_type_of_backend (backend (backend_decoder hashVal))
                              = Some dtype)
        (pb.ffo_digest <$> request_iterator) dtypes.
Proof.
  intros Hall.
  destruct (FetchFindDataOrigin_loop_reportable self context _ Hall)
    as (dtypes & Hloop & Hlen & Htypes).
  exists dtypes. unfold FetchFindDataOrigin. rewrite Hloop.
  rewrite length_fmap in Hlen. split; [by destruct rt|done].
Qed.

(** X16. When [FetchFindDataOrigin] reaches a digest whose locator carries a
    backend code it does not know, the generator raises [TypeError] after the
    origins of the digests before it: no error frame is sent for it, no
    status is set, and the digests after it are not looked at. *)
Theorem FetchFindDataOrigin_unknown_backend rt before request after context self hashVal :
  Forall (reportable self) (pb.ffo_digest <$> before) →
  hash_data (hashenv (env self)) !! pb.ffo_digest request = Some hashVal →
  data_type_of_backend (backend (backend_decoder hashVal)) = None →
  ∃ dtypes,
    FetchFindDataOrigin rt (before ++ request :: after) context self
    = ({| frames := OriginFrame
                    <$> zip_with origin_response (pb.ffo_digest <$> before) dtypes;
          ending := Raised Py.TypeError |}, context)
    ∧ length dtypes = length before.
Proof.
  intros Hbefore Hd Hty.
  assert (Hloop : ∀ digests, Forall (reportable self) digests →
            ∃ dtypes,
              FetchFindDataOrigin_loop self
                (digests ++ pb.ffo_digest request :: (pb.ffo_digest <$> after)) context
              = (OriginFrame <$> zip_with origin_response digests dtypes,
                 Raised Py.TypeError, context)
              ∧ length dtypes = length digests).
  { induction 1 as [|digest digests (v & dtype & Hv & Hdt) _ (dtypes & IH & Hlen)].
    - exists []. simpl in *. rewrite Hd, Hty. done.
    - exists (dtype :: dtypes). simpl in *. rewrite Hv, Hdt, IH. simpl.
      by rewrite Hlen. }
  destruct (Hloop _ Hbefore) as (dtypes & Heq & Hlen).
  exists dtypes. unfold FetchFindDataOrigin.
  rewrite fmap_app, fmap_cons, Heq, length_fmap in *. split; [by destruct rt|done].
Qed.

End facts.

Lemma reply_compression_answerable request :
  ¬ unanswerable request →
  reply_compression request
  = inr (pb.pfor_compression_expected (origin_reply request),
         pb.pfor_compression_opts_expected (origin_reply request)).
Proof.
  intros Hok. unfold reply_compression, origin_reply, unanswerable in *. simpl.
  destruct (pb.pfo_compression_is_desired request); [|done].
  destruct (pb.pfo_data_type request); try done.
  exfalso. apply Hok. eauto.
Qed.

Lemma PushFindDataOrigin_loop_answerable before : ∀ rest,
  Forall (λ request, ¬ unanswerable request) before →
  PushFindDataOrigin_loop (before ++ rest)
  = ((origin_reply <$> before) ++ (PushFindDataOrigin_loop rest).1,
     (PushFindDataOrigin_loop rest).2).
Proof.
  intros rest. induction 1 as [|request before Hok _ IH]; simpl.
  - by destruct (PushFindDataOrigin_loop rest).
  - rewrite (reply_compression_answerable _ Hok), IH. simpl.
    by destruct request.
Qed.

(** X17. [PushFindDataOrigin] answers the requests in order, each with its
    digest as the uri to send to, the server as the location, and compression
    expected exactly when the request desires it (no options otherwise). A
    stream in which no request desires compression for an unknown data type
    is answered in full and ends exhausted; at the first such request the
    generator raises [TypeError], the requests before it answered and the
    ones after it not. *)
Theorem PushFindDataOrigin_answers rt before :
  Forall (λ request, ¬ unanswerable request) before →
  PushFindDataOrigin rt before
  = {| frames := origin_reply <$> before; ending := Exhausted |}
  ∧ ∀ request after,
      unanswerable request →
      PushFindDataOrigin rt (before ++ request :: after)
      = {| frames := origin_reply <$> before; ending := Raised Py.TypeError |}.
Proof.
  intros Hbefore. split.
  - unfold PushFindDataOrigin.
    rewrite <- (app_nil_r before) at 1.
    rewrite (PushFindDataOrigin_loop_answerable before [] Hbefore). simpl.
    rewrite app_nil_r. by destruct rt.
  - intros request after [Hdesired [tag Htag]]. unfold PushFindDataOrigin.
    rewrite (PushFindDataOrigin_loop_answerable before _ Hbefore). simpl.
    unfold reply_compression. rewrite Hdesired, Htag. simpl.
    rewrite app_nil_r. by destruct rt.
Qed.

End origin_facts.

Module origin_checks.

Import grpc server server_rest fixtures origin_facts.

Lemma FetchFindDataOrigin_all_reportable_witness :
  ∃ dtypes,
    FetchFindDataOrigin Py.Pep479 [origin_request "t"; origin_request "a"] fresh string_server
    = ({| frames := OriginFrame <$> zip_with origin_response ["t"; "a"] dtypes;
          ending := Exhausted |}, fresh)
    ∧ length dtypes = 2%nat
    ∧ Forall2 (λ digest dtype,
                 ∃ hashVal, hash_data (hashenv (env string_server)) !! digest = Some hashVal
                            ∧ data_type_of_backend (backend (backend_decoder hashVal))
                              = Some dtype) ["t"; "a"] dtypes.
Proof.
  apply (@FetchFindDataOrigin_all_reportable plain Py.Pep479
           [origin_request "t"; origin_request "a"] fresh string_server).
  repeat apply Forall_cons_2; [| |apply Forall_nil_2].
  - exists "30:abc", pb.STR. split; vm_compute; reflexivity.
  - exists "00:xyz", pb.NP_ARRAY. split; vm_compute; reflexivity.
Defined.

Lemma FetchFindDataOrigin_unknown_backend_witness :
  ∃ dtypes,
    FetchFindDataOrigin Py.Pep479 [origin_request "a"; origin_request "d"; origin_request "a"]
      fresh odd_backend_server
    = ({| frames := OriginFrame <$> zip_with origin_response ["a"] dtypes;
          ending := Raised Py.TypeError |}, fresh)
    ∧ length dtypes = 1%nat.
Proof.
  apply (@FetchFindDataOrigin_unknown_backend plain Py.Pep479 [origin_request "a"]
           (origin_request "d") [origin_request "a"] fresh odd_backend_server "50:d").
  - apply Forall_cons_2; [|apply Forall_nil_2].
    exists "00:xyz", pb.NP_ARRAY. split; vm_compute; reflexivity.
  - vm_compute. reflexivity.
  - vm_compute. reflexivity.
Defined.

Lemma PushFindDataOrigin_answers_witness :
  let plain_request :=
    {| pb.pfo_digest := "a"; pb.pfo_data_type := pb.UNRECOGNIZED 7;
       pb.pfo_compression_is_desired := false |} in
  let odd_request :=
    {| pb.pfo_digest := "z"; pb.pfo_data_type := pb.UNRECOGNIZED 7;
       pb.pfo_compression_is_desired := true |} in
  PushFindDataOrigin Py.Pep479 [plain_request]
  = {| frames := [origin_reply plain_request]; ending := Exhausted |}
  ∧ PushFindDataOrigin Py.Pep479 [plain_request; odd_request; plain_request]
    = {| frames := [origin_reply plain_request]; ending := Raised Py.TypeError |}.
Proof.
  intros plain_request odd_request.
  destruct (PushFindDataOrigin_answers Py.Pep479 [plain_request]) as [Hfull Hstop].
  - apply Forall_cons_2; [|apply Forall_nil_2]. intros [Hdesired _]. discriminate.
  - split; [exact Hfull|].
    apply (Hstop odd_request [plain_request]). split; [reflexivity|]. by exists 7.
Defined.

End origin_checks.

(** * Further properties of arrayset writes and of the torch dataset *)

Module arrayset_rest_facts.

Import arrayset arrayset_rest arrayset_facts.

#[local] Open Scope list_scope.
#[local] Open Scope nat_scope.

Lemma within_max_Forall2 : ∀ dims maxima,
  length dims = length maxima →
  within_max dims maxima = true ↔ Forall2 (λ extent maximum, extent ≤ maximum) dims maxima.
Proof.
  induction dims as [|d dims IH]; intros [|m maxima] Hlen; simpl in *; try discriminate.
  - split; [constructor|done].
  - rewrite andb_true_iff, Nat.leb_le, IH by lia. split.
    + intros [? ?]. by constructor.
    + intros Hall. by inversion Hall.
Qed.

(** The value check passes exactly the values the schema admits. *)
Lemma verify_array_conforms sch value :
  verify_array sch value = None ↔ conforms sch value.
Proof.
  unfold verify_array, conforms. destruct value as [a|]; [|done].
  destruct (c_contiguous a); simpl; [|split; [done|intros [? _]; done]].
  destruct (decide (dtype a ≠ schema_dtype sch)) as [Hne|Heq%dec_stable].
  { split; [done|]. intros (_ & ? & _). done. }
  destruct (variable_shape sch).
  - destruct (decide (length (shape a) ≠ length (schema_max_shape sch)))
      as [Hne|Hlen%dec_stable].
    { split; [done|]. intros (_ & _ & Hall). by apply Forall2_length in Hall. }
    destruct (within_max (shape a) (schema_max_shape sch)) eqn:Hmax; simpl.
    + apply within_max_Forall2 in Hmax; done.
    + split; [done|]. intros (_ & _ & Hall).
      apply within_max_Forall2 in Hall; [congruence|done].
  - destruct (decide (shape a ≠ schema_max_shape sch)) as [Hne|Hshape%dec_stable].
    + split; [done|]. intros (_ & _ & ?). done.
    + done.
Qed.

Section facts.
Context `{HashSpace}.

(** X18. A write is accepted exactly when the key is suitable and the value
    is one the schema admits; an accepted write of array [a] records the
    digest of [a] under the key and leaves every other key as it was. *)
Theorem setitem_accepts_exactly key value aset :
  ((∃ k digest, (setitem key value aset).1 = Stored k digest)
   ↔ is_Some (validate_key key) ∧ conforms (schema aset) value)
  ∧ ∀ k digest,
      (setitem key value aset).1 = Stored k digest →
      validate_key key = Some k
      ∧ (∃ a, value = Array a ∧ digest = digest_of a)
      ∧ samples (setitem key value aset).2 = <[k := digest]> (samples aset)
      ∧ schema (setitem key value aset).2 = schema aset.
Proof.
  unfold setitem.
  destruct (validate_key key) as [k|] eqn:Hk.
  - destruct (verify_array (schema aset) value) as [msg|] eqn:Hv.
    + assert (Hno : ¬ conforms (schema aset) value)
        by (rewrite <- verify_array_conforms; congruence).
      split; [split|]; simpl.
      * intros (? & ? & ?). done.
      * intros [_ ?]. done.
      * intros ? ? ?. done.
    + pose proof (proj1 (verify_array_conforms _ _) Hv) as Hok.
      destruct value as [a|]; [|done]. simpl. split; [split|].
      * intros _. eauto.
      * intros _. eauto.
      * intros k' digest [= <- <-]. split; [done|]. split; [eauto|].
        rewrite write_payload_samples, write_payload_schema. done.
  - split; [split|]; simpl.
    + intros (? & ? & ?). done.
    + intros [[? ?] _]. done.
    + intros ? ? ?. done.
Qed.

(** X19. Integer and string keys do not collide: after a sample is written
    under a suitable integer key and another under a suitable string key, in
    either order, each key holds the digest of its own sample. *)
Theorem integer_and_string_keys_coexist n s k1 k2 a1 a2 aset :
  validate_key (KInt n) = Some k1 →
  validate_key (KStr s) = Some k2 →
  conforms (schema aset) (Array a1) →
  conforms (schema aset) (Array a2) →
  let int_first := (setitem (KStr s) (Array a2) (setitem (KInt n) (Array a1) aset).2).2 in
  let str_first := (setitem (KInt n) (Array a1) (setitem (KStr s) (Array a2) aset).2).2 in
  k1 ≠ k2
  ∧ samples int_first !! k1 = Some (digest_of a1)
  ∧ samples int_first !! k2 = Some (digest_of a2)
  ∧ samples str_first = samples int_first.
Proof.
  intros Hk1 Hk2 Hv1%verify_array_conforms Hv2%verify_array_conforms int_first str_first.
  assert (Hne : k1 ≠ k2).
  { simpl in Hk1, Hk2. destruct (decide (0 ≤ n)%Z); [|done].
    destruct (decide (1 ≤ String.length s ≤ 64)); [|done].
    destruct (all_name_chars s); [|done]. congruence. }
  assert (Hint : samples int_first
                 = <[k2 := digest_of a2]> (<[k1 := digest_of a1]> (samples aset))).
  { subst int_first. rewrite (setitem_stored (KInt n) k1 a1 aset) by done. simpl.
    rewrite (setitem_stored (KStr s) k2 a2); [|done|].
    - simpl. rewrite write_payload_samples. simpl. by rewrite write_payload_samples.
    - simpl. by rewrite write_payload_schema. }
  assert (Hstr : samples str_first
                 = <[k1 := digest_of a1]> (<[k2 := digest_of a2]> (samples aset))).
  { subst str_first. rewrite (setitem_stored (KStr s) k2 a2 aset) by done. simpl.
    rewrite (setitem_stored (KInt n) k1 a1); [|done|].
    - simpl. rewrite write_payload_samples. simpl. by rewrite write_payload_samples.
    - simpl. by rewrite write_payload_schema. }
  split; [done|]. rewrite Hstr, Hint. split; [|split].
  - rewrite lookup_insert_ne by done. by rewrite lookup_insert_eq.
  - by rewrite lookup_insert_eq.
  - by apply insert_insert_ne.
Qed.

Lemma write_payload_resolvable a aset :
  resolvable aset →
  let after := write_payload a (digest_of a) aset in
  (∀ digest locator,
     hash_index after !! digest = Some locator →
     ∃ a', payloads after !! slot locator = Some a' ∧ digest_of a' = digest)
  ∧ (∀ digest, is_Some (hash_index aset !! digest) → is_Some (hash_index after !! digest))
  ∧ is_Some (hash_index after !! digest_of a).
Proof.
  intros [Hsamples Hindex] after. subst after. unfold write_payload.
  destruct (hash_index aset !! digest_of a) as [locator|] eqn:Hd.
  - rewrite Hd. eauto.
  - simpl. split; [|split].
    + intros digest locator. destruct (decide (digest = digest_of a)) as [->|Hne].
      * rewrite lookup_insert_eq. intros [= <-]. simpl.
        exists a. split; [|done]. by apply list_lookup_middle.
      * rewrite lookup_insert_ne by done. intros Hl.
        destruct (Hindex _ _ Hl) as (a' & Ha' & Hdigest).
        exists a'. split; [|done]. by apply lookup_app_l_Some.
    + intros digest [locator Hl]. destruct (decide (digest = digest_of a)) as [->|Hne].
      * rewrite lookup_insert_eq. eauto.
      * rewrite lookup_insert_ne by done. eauto.
    + rewrite lookup_insert_eq. eauto.
Qed.

Lemma write_payload_keeps_lookup a aset digest locator x :
  resolvable aset →
  hash_index aset !! digest = Some locator →
  payloads aset !! slot locator = Some x →
  let after := write_payload a (digest_of a) aset in
  hash_index after !! digest = Some locator
  ∧ payloads after !! slot locator = Some x.
Proof.
  intros _ Hl Hx after. subst after. unfold write_payload.
  destruct (hash_index aset !! digest_of a) as [held|] eqn:Hd; [done|]. simpl.
  split; [|by apply lookup_app_l_Some].
  rewrite lookup_insert_ne; [done|]. intros <-. congruence.
Qed.

Lemma write_payload_contiguous a digest aset :
  c_contiguous a = true →
  stored_contiguous aset →
  stored_contiguous (write_payload a digest aset).
Proof.
  intros Ha Hall. unfold stored_contiguous, write_payload.
  destruct (hash_index aset !! digest); [done|]. simpl.
  apply Forall_app. split; [done|]. by apply Forall_singleton.
Qed.

(** Two C-contiguous arrays of one digest are the same array, in a hash space
    that tells tensors apart. *)
Lemma collision_free_contiguous a1 a2 :
  collision_free →
  c_contiguous a1 = true →
  c_contiguous a2 = true →
  digest_of a1 = digest_of a2 →
  a1 = a2.
Proof.
  intros Hfree H1 H2 Hd. destruct (Hfree _ _ _ _ _ _ Hd) as (? & ? & ?).
  destruct a1, a2. simpl in *. congruence.
Qed.

(** X20. Writes, accepted or refused, keep the arrayset resolvable (every
    recorded sample has its digest in the hash index, and every entry of the
    hash index locates a stored payload of that digest) and its payloads C
    contiguous. After an accepted write of array [a] under a key, every other
    key reads as it did before, and the key written reads back an array of
    the digest recorded for it; in a hash space that tells tensors apart (no
    two of different element type, shape or element bytes share a digest)
    that array is [a] itself. *)
Theorem setitem_keeps_resolvable key value aset :
  resolvable aset →
  stored_contiguous aset →
  let after := (setitem key value aset).2 in
  resolvable after
  ∧ stored_contiguous after
  ∧ ∀ k a,
      (setitem key value aset).1 = Stored k (digest_of a) →
      value = Array a →
      (∀ other, validate_key other ≠ Some k → getitem other after = getitem other aset)
      ∧ (∃ a', getitem key after = Found a' ∧ digest_of a' = digest_of a)
      ∧ (collision_free → getitem key after = Found a).
Proof.
  intros Hres Hcont after. subst after. unfold setitem.
  destruct (validate_key key) as [k|] eqn:Hk; [|split; [done|split; [done|intros ? ? ?; done]]].
  destruct (verify_array (schema aset) value) as [msg|] eqn:Hv;
    [split; [done|split; [done|intros ? ? ?; done]]|].
  destruct value as [a|]; [|split; [done|split; [done|intros ? ? ?; done]]].
  assert (Ha : c_contiguous a = true).
  { apply verify_array_conforms in Hv. by destruct Hv. }
  destruct (write_payload_resolvable a aset Hres) as (Hindex & Hmono & Hnew).
  pose proof (write_payload_contiguous a (digest_of a) aset Ha Hcont) as Hcont'.
  pose proof Hres as [Hsamples Hlocated]. simpl.
  assert (Hafter : resolvable
            (record_sample k (digest_of a) (write_payload a (digest_of a) aset))).
  { split; simpl; [|exact Hindex].
    intros k' digest. destruct (decide (k' = k)) as [->|Hne].
    - rewrite lookup_insert_eq. by intros [= <-].
    - rewrite lookup_insert_ne by done. rewrite write_payload_samples.
      intros Hs. apply Hmono. by eapply Hsamples. }
  split; [exact Hafter|]. split; [exact Hcont'|].
  intros k' a0 [= <- Hdigest] [= <-].
  destruct Hnew as [locator Hl]. destruct (Hindex _ _ Hl) as (a' & Ha' & Hda').
  assert (Hread : getitem key
                    (record_sample k (digest_of a) (write_payload a (digest_of a) aset))
                  = Found a').
  { unfold getitem. rewrite Hk. simpl. by rewrite lookup_insert_eq, Hl, Ha'. }
  split; [|split].
  - intros other Hother. unfold getitem.
    destruct (validate_key other) as [k'|]; [|done].
    assert (Hne : k' ≠ k) by congruence. simpl.
    rewrite lookup_insert_ne by done. rewrite write_payload_samples.
    destruct (samples aset !! k') as [digest|] eqn:Hs; [|done].
    destruct (Hsamples _ _ Hs) as [held Hheld].
    destruct (Hlocated _ _ Hheld) as (x & Hx & _).
    destruct (write_payload_keeps_lookup a aset digest held x Hres Hheld Hx) as [-> ->].
    by rewrite Hheld, Hx.
  - exists a'. done.
  - intros Hfree. rewrite Hread. f_equal.
    apply collision_free_contiguous; [done| |done|done].
    eapply Forall_forall in Hcont'; [exact Hcont'|]. by eapply list_elem_of_lookup_2.
Qed.

End facts.

End arrayset_rest_facts.

Module torch_dset_rest_facts.

Import torch_dset torch_dset_rest torch_dset_facts.

#[local] Open Scope list_scope.
#[local] Open Scope nat_scope.

Lemma od_lookup_zip {A} (names : list string) : ∀ (components : list A) i name a,
  NoDup names →
  names !! i = Some name →
  components !! i = Some a →
  od_lookup name (zip names components) = Some a.
Proof.
  induction names as [|n names IH]; intros components i name a Hnodup Hname Ha; [done|].
  destruct components as [|c components]; [done|].
  apply NoDup_cons in Hnodup as [Hfresh Hnodup]. simpl.
  destruct i as [|i]; simpl in *.
  - injection Hname as ->. injection Ha as ->. by destruct (decide (name = name)).
  - destruct (decide (name = n)) as [->|_]; [|by eapply IH].
    exfalso. apply Hfresh. by eapply list_elem_of_lookup_2.
Qed.

(** X21. With [as_dict], for a dataset made by the constructor that wraps any
    number of columns other than one and whose [index_get] returns a tuple,
    the item is an ordered dictionary in which each column name looks up the
    component at that column's position. It has as many entries as the
    shorter of the column names and the tuple: components beyond the columns
    are dropped and columns beyond the tuple are absent. *)
Theorem getitem_by_column_name {Column A} `{PyIter A}
    (hangar_dataset : HangarDataset Column A) (index : Z) (components : list A) :
  index_get hangar_dataset index = inr (Tuple components) →
  length (keys (columns hangar_dataset)) ≠ 1 →
  ∃ entries,
    getitem (init hangar_dataset true) index = inr (OrderedDict entries)
    ∧ length entries = min (length (keys (columns hangar_dataset))) (length components)
    ∧ ∀ i name a,
        keys (columns hangar_dataset) !! i = Some name →
        components !! i = Some a →
        od_lookup name entries = Some a.
Proof.
  intros Hget Hcount.
  exists (zip (keys (columns hangar_dataset)) components).
  split; [|split].
  - unfold getitem. simpl. rewrite Hget. simpl.
    rewrite OrderedDict_of_nodup
      by (apply zip_keys_nodup, (keys_unique (columns hangar_dataset))).
    destruct (keys (columns hangar_dataset)) as [|n1 [|n2 names]]; simpl in *; done.
  - apply length_zip_with.
  - intros i name a Hname Ha. eapply od_lookup_zip; [|done..].
    apply (keys_unique (columns hangar_dataset)).
Qed.

End torch_dset_rest_facts.

Module rest_checks.

Import fixtures.

Lemma setitem_accepts_exactly_witness :
  let a := array_of "int64" [2; 3]%nat "abcdef" in
  let written := arrayset.setitem (arrayset.KStr "1") (arrayset.Array a) fixed_aset in
  arrayset.validate_key (arrayset.KStr "1") = Some (arrayset.Str "1")
  ∧ (∃ a', arrayset.Array a = arrayset.Array a' ∧ arrayset.digest_of a = arrayset.digest_of a')
  ∧ arrayset.samples written.2
    = <[arrayset.Str "1" := arrayset.digest_of a]> (arrayset.samples fixed_aset)
  ∧ arrayset.schema written.2 = arrayset.schema fixed_aset.
Proof.
  intros a written.
  apply (proj2 (arrayset_rest_facts.setitem_accepts_exactly (arrayset.KStr "1")
                  (arrayset.Array a) fixed_aset)).
  reflexivity.
Defined.

Lemma integer_and_string_keys_coexist_witness :
  let a1 := array_of "int64" [2; 3]%nat "abcdef" in
  let a2 := array_of "int64" [2; 3]%nat "ghijkl" in
  let int_first :=
    (arrayset.setitem (arrayset.KStr "1") (arrayset.Array a2)
       (arrayset.setitem (arrayset.KInt 1) (arrayset.Array a1) fixed_aset).2).2 in
  let str_first :=
    (arrayset.setitem (arrayset.KInt 1) (arrayset.Array a1)
       (arrayset.setitem (arrayset.KStr "1") (arrayset.Array a2) fixed_aset).2).2 in
  arrayset.Int 1 ≠ arrayset.Str "1"
  ∧ arrayset.samples int_first !! arrayset.Int 1 = Some (arrayset.digest_of a1)
  ∧ arrayset.samples int_first !! arrayset.Str "1" = Some (arrayset.digest_of a2)
  ∧ arrayset.samples str_first = arrayset.samples int_first.
Proof.
  intros a1 a2.
  apply (arrayset_rest_facts.integer_and_string_keys_coexist 1 "1"
           (arrayset.Int 1) (arrayset.Str "1") a1 a2 fixed_aset).
  - reflexivity.
  - reflexivity.
  - repeat split.
  - repeat split.
Defined.

Lemma numbered_digest_collision_free : @arrayset_rest.collision_free numbered_digest.
Proof.
  intros dtype1 shape1 buffer1 dtype2 shape2 buffer2 Hd. simpl in Hd.
  apply (inj pretty), (inj encode) in Hd. injection Hd as -> -> Hbuffer.
  split; [done|]. split; [done|].
  rewrite <- (String.list_byte_of_string_of_list_byte buffer1),
          <- (String.list_byte_of_string_of_list_byte buffer2).
  by rewrite Hbuffer.
Qed.

Lemma variable_aset_resolvable : @arrayset_rest.resolvable numbered_digest variable_aset.
Proof.
  split.
  - intros k digest Hk. simpl in Hk. by rewrite lookup_empty in Hk.
  - intros digest locator Hl. simpl in Hl. by rewrite lookup_empty in Hl.
Defined.

(** Two arrays of the same element bytes and different shapes, [(1, 2)] and
    [(2, 1)], written under two keys: each key reads back its own array. *)
Lemma setitem_keeps_resolvable_witness :
  let row := array_of "float32" [1; 2]%nat "ab" in
  let column := array_of "float32" [2; 1]%nat "ab" in
  let first := (@arrayset.setitem numbered_digest (arrayset.KInt 7)
                  (arrayset.Array row) variable_aset).2 in
  let second := (@arrayset.setitem numbered_digest (arrayset.KStr "c")
                   (arrayset.Array column) first).2 in
  @arrayset_rest.resolvable numbered_digest second
  ∧ arrayset_rest.stored_contiguous second
  ∧ arrayset_rest.getitem (arrayset.KInt 7) first = arrayset_rest.Found row
  ∧ arrayset_rest.getitem (arrayset.KStr "c") second = arrayset_rest.Found column
  ∧ arrayset_rest.getitem (arrayset.KInt 7) second = arrayset_rest.Found row.
Proof.
  intros row column first second.
  destruct (@arrayset_rest_facts.setitem_keeps_resolvable numbered_digest
              (arrayset.KInt 7) (arrayset.Array row) variable_aset
              variable_aset_resolvable (Forall_nil_2 _))
    as (Hres1 & Hcont1 & Hread1).
  destruct (Hread1 (arrayset.Int 7) row eq_refl eq_refl) as (_ & _ & Hrow).
  destruct (@arrayset_rest_facts.setitem_keeps_resolvable numbered_digest
              (arrayset.KStr "c") (arrayset.Array column) first Hres1 Hcont1)
    as (Hres2 & Hcont2 & Hread2).
  destruct (Hread2 (arrayset.Str "c") column eq_refl eq_refl) as (Hframe & _ & Hcolumn).
  split; [exact Hres2|]. split; [exact Hcont2|].
  split; [exact (Hrow numbered_digest_collision_free)|].
  split; [exact (Hcolumn numbered_digest_collision_free)|].
  etransitivity; [|exact (Hrow numbered_digest_collision_free)].
  apply Hframe. discriminate.
Defined.

Lemma getitem_by_column_name_witness :
  ∃ entries,
    torch_dset.getitem (torch_dset.init image_class_dataset true) 2
    = inr (torch_dset.OrderedDict entries)
    ∧ length entries = 2%nat
    ∧ ∀ i name a,
        torch_dset.keys (torch_dset.columns image_class_dataset) !! i = Some name →
        ["img"; "cls"] !! i = Some a →
        torch_dset_rest.od_lookup name entries = Some a.
Proof.
  apply (torch_dset_rest_facts.getitem_by_column_name image_class_dataset 2 ["img"; "cls"]).
  - reflexivity.
  - simpl. lia.
Defined.

End rest_checks.


Module fetch_data_facts.

Import grpc server server_rest.

#[local] Arguments backend_decoder : simpl never.

(** X22. [FetchData] of a digest the server lacks is aborted with NOT_FOUND
    before any frame (where [FetchCommit] sends an error frame). For a digest
    it holds, whose backend reads the sample, the stream is the chunks of the
    serialised sample compressed with blosc, cname blosclz, level 3, no
    shuffle, each frame carrying the digest, the size of the compressed
    record and OK. A read that raises makes the call leave with that
    exception, again before any frame. *)
Theorem FetchData_stream `{Collaborators} `{Readers} uri context self :
  match hash_data (hashenv (env self)) !! uri with
  | None =>
      ∃ details, FetchData uri context self = Abort NOT_FOUND details
  | Some hashVal =>
      match read_data (backend (backend_decoder hashVal)) (backend_decoder hashVal) with
      | inl e => FetchData uri context self = Raise e
      | inr data =>
          let record := blosc_compress (serialize_data data).2 3 "blosclz" false in
          ∃ sent,
            FetchData uri context self = Return sent
            ∧ pb.fdr_raw_data <$> sent = chunk_bytes record
            ∧ Forall (λ reply, pb.fdr_uri reply = uri
                               ∧ pb.fdr_nbytes reply = Z.of_nat (length record)
                               ∧ pb.fdr_error reply = pb.ok) sent
      end
  end.
Proof.
  unfold FetchData.
  destruct (hash_data (hashenv (env self)) !! uri) as [hashVal|]; [|eauto].
  destruct (read_data _ _) as [e|data]; simpl; [done|].
  destruct (serialize_data data) as [dtype_code raw_record]. simpl.
  eexists. split; [reflexivity|]. split.
  - rewrite <- list_fmap_compose. apply list_fmap_id.
  - apply Forall_fmap, Forall_true. done.
Qed.

End fetch_data_facts.

Module fetch_data_checks.

Import grpc server server_rest fixtures fetch_data_facts.

Lemma FetchData_stream_witness :
  ∃ sent,
    @FetchData plain naming_readers "t" fresh string_server = Return sent
    ∧ pb.fdr_raw_data <$> sent = [b "blosclz:abc"]
    ∧ Forall (λ reply, pb.fdr_uri reply = "t"
                       ∧ pb.fdr_nbytes reply = 11
                       ∧ pb.fdr_error reply = pb.ok) sent.
Proof.
  exact (@FetchData_stream plain naming_readers "t" fresh string_server).
Defined.

End fetch_data_checks.


Module compression_facts.

Import grpc server server_rest.

#[local] Arguments backend_decoder : simpl never.
#[local] Arguments data_type_of_backend : simpl never.
#[local] Arguments compression_opts : simpl never.
#[local] Open Scope list_scope.
#[local] Open Scope nat_scope.

Section facts.
Context `{Collaborators}.

(** An origin frame at position [i] reports the digest asked for at position
    [i], which the server holds under a backend of the data type reported. *)
Lemma FetchFindDataOrigin_loop_lookup self : ∀ digests context i response,
  (FetchFindDataOrigin_loop self digests context).1.1 !! i = Some (OriginFrame response) →
  ∃ digest hashVal,
    digests !! i = Some digest
    ∧ hash_data (hashenv (env self)) !! digest = Some hashVal
    ∧ data_type_of_backend (backend (backend_decoder hashVal))
      = Some (pb.dor_data_type response)
    ∧ response = origin_response digest (pb.dor_data_type response).
Proof.
  induction digests as [|digest rest IH]; intros context i response; simpl; [done|].
  destruct (hash_data (hashenv (env self)) !! digest) as [hashVal|] eqn:Hd.
  - destruct (data_type_of_backend (String.substring 0 2 hashVal))
      as [dtype|] eqn:Hty; [|done].
    destruct (FetchFindDataOrigin_loop self rest context) as [[later fin] ctx] eqn:Hrest.
    destruct i as [|i]; simpl.
    + intros [= <-]. exists digest, hashVal. done.
    + intros Hin. specialize (IH context i response). rewrite Hrest in IH.
      exact (IH Hin).
  - destruct i as [|i]; simpl; done.
Qed.

(** A request is answered when the server can report its digest and the
    digests of the requests before it. *)
Lemma FetchFindDataOrigin_loop_reached self : ∀ digests context i,
  i < length digests →
  Forall (reportable self) (take (S i) digests) →
  ∃ response,
    (FetchFindDataOrigin_loop self digests context).1.1 !! i = Some (OriginFrame response).
Proof.
  induction digests as [|digest rest IH]; intros context i Hlt Hall; simpl in *; [lia|].
  apply Forall_cons in Hall as [(hashVal & dtype & Hd & Hty) Hall].
  simpl in Hty. rewrite Hd, Hty.
  destruct (FetchFindDataOrigin_loop self rest context) as [[later fin] ctx] eqn:Hrest.
  destruct i as [|i]; simpl; [eauto|].
  specialize (IH context i). rewrite Hrest in IH. apply IH; [lia|done].
Qed.

End facts.

Lemma reply_compression_accepted request expected opts :
  reply_compression request = inr (expected, opts) →
  ¬ unanswerable request
  ∧ expected = pb.pfo_compression_is_desired request
  ∧ opts = if pb.pfo_compression_is_desired request
           then compression_opts (pushed_cname (pb.pfo_data_type request))
           else ∅.
Proof.
  unfold reply_compression, unanswerable.
  destruct (pb.pfo_compression_is_desired request).
  - destruct (pb.pfo_data_type request); intros [= <- <-]; (split; [|done]);
      intros [_ [tag ?]]; done.
  - intros [= <- <-]. split; [|done]. intros [? _]. done.
Qed.

Lemma PushFindDataOrigin_loop_lookup : ∀ all_requests i reply,
  (PushFindDataOrigin_loop all_requests).1 !! i = Some reply →
  ∃ request,
    all_requests !! i = Some request
    ∧ ¬ unanswerable request
    ∧ reply = origin_reply request.
Proof.
  induction all_requests as [|request rest IH]; intros i reply; simpl; [done|].
  destruct (reply_compression request) as [e|[expected opts]] eqn:Hc; [done|].
  apply reply_compression_accepted in Hc as (Hok & -> & ->).
  destruct (PushFindDataOrigin_loop rest) as [later fin]. simpl in *.
  destruct i as [|i]; simpl.
  - intros [= <-]. exists request. done.
  - apply IH.
Qed.

Lemma PushFindDataOrigin_loop_reached all_requests i request :
  all_requests !! i = Some request →
  Forall (λ earlier, ¬ unanswerable earlier) (take (S i) all_requests) →
  (PushFindDataOrigin_loop all_requests).1 !! i = Some (origin_reply request).
Proof.
  intros Hi Hall. pose proof (lookup_lt_Some _ _ _ Hi) as Hlt.
  rewrite <- (take_drop (S i) all_requests) at 1.
  rewrite (origin_facts.PushFindDataOrigin_loop_answerable _ _ Hall). simpl.
  rewrite lookup_app_l by (rewrite length_fmap, length_take; lia).
  rewrite list_lookup_fmap, lookup_take_lt by lia. by rewrite Hi.
Qed.

(** C6 (as amended). [FetchFindDataOrigin] answers request by request: the
    origin at a position of its stream reports the digest asked for at that
    position, names it as the uri, and advertises blosc with cname blosclz at
    level 3 whatever the backend code of the digest (arrays 00/01/10, strings
    30, bytes 31); a request is answered whenever the server can report its
    digest and those of the requests before it. The codec advertised is the
    one [FetchData] applies: fetching the uri of an origin sends the chunks
    of the sample compressed with blosc under the cname advertised, at level
    3. [PushFindDataOrigin] answers request by request too: the reply at a
    position answers the request at that position and, when that request
    desires compression, expects blosc at level 3 with cname zstd for string
    payloads and cname blosclz for array and bytes payloads (no options when
    it does not); a request is answered whenever neither it nor a request
    before it desires compression for an unknown data type. *)
Theorem advertised_compression_options :
  (∀ (C : Collaborators) rt request_iterator context self i response,
     frames (FetchFindDataOrigin rt request_iterator context self).1 !! i
     = Some (OriginFrame response) →
     ∃ request hashVal,
       request_iterator !! i = Some request
       ∧ pb.dor_digest response = pb.ffo_digest request
       ∧ pb.dor_uri response = pb.ffo_digest request
       ∧ hash_data (hashenv (env self)) !! pb.ffo_digest request = Some hashVal
       ∧ data_type_of_backend (backend (backend_decoder hashVal))
         = Some (pb.dor_data_type response)
       ∧ pb.dor_compression response = true
       ∧ pb.dor_compression_opts response
         = {[ "id" := "blosc"; "cname" := "blosclz"; "clevel" := "3" ]})
  ∧ (∀ (C : Collaborators) rt request_iterator context self i request,
       request_iterator !! i = Some request →
       Forall (reportable self) (pb.ffo_digest <$> take (S i) request_iterator) →
       ∃ response,
         frames (FetchFindDataOrigin rt request_iterator context self).1 !! i
         = Some (OriginFrame response))
  ∧ (∀ (C : Collaborators) (R : Readers) rt request_iterator context self i response
       hashVal data fetch_context,
       frames (FetchFindDataOrigin rt request_iterator context self).1 !! i
       = Some (OriginFrame response) →
       hash_data (hashenv (env self)) !! pb.dor_uri response = Some hashVal →
       read_data (backend (backend_decoder hashVal)) (backend_decoder hashVal) = inr data →
       ∃ cname sent,
         pb.dor_compression_opts response !! "cname" = Some cname
         ∧ pb.dor_compression_opts response !! "clevel" = Some "3"
         ∧ FetchData (pb.dor_uri response) fetch_context self = Return sent
         ∧ pb.fdr_raw_data <$> sent
           = chunk_bytes (blosc_compress (serialize_data data).2 3 cname false))
  ∧ (∀ rt request_iterator i reply,
       frames (PushFindDataOrigin rt request_iterator) !! i = Some reply →
       ∃ request,
         request_iterator !! i = Some request
         ∧ ¬ unanswerable request
         ∧ pb.pfor_digest reply = pb.pfo_digest request
         ∧ pb.pfor_uri reply = pb.pfo_digest request
         ∧ pb.pfor_compression_expected reply = pb.pfo_compression_is_desired request
         ∧ pb.pfor_compression_opts_expected reply
           = if pb.pfo_compression_is_desired request
             then {[ "id" := "blosc";
                     "cname" := pushed_cname (pb.pfo_data_type request);
                     "clevel" := "3" ]}
             else ∅)
  ∧ (∀ rt request_iterator i request,
       request_iterator !! i = Some request →
       Forall (λ earlier, ¬ unanswerable earlier) (take (S i) request_iterator) →
       is_Some (frames (PushFindDataOrigin rt request_iterator) !! i)).
Proof.
  assert (Hframes : ∀ (C : Collaborators) rt request_iterator context self,
            frames (FetchFindDataOrigin rt request_iterator context self).1
            = (FetchFindDataOrigin_loop self (pb.ffo_digest <$> request_iterator)
                 context).1.1).
  { intros C rt request_iterator context self. unfold FetchFindDataOrigin.
    by destruct (FetchFindDataOrigin_loop self _ context) as [[yielded fin] ctx]. }
  assert (Hpushed : ∀ rt request_iterator,
            frames (PushFindDataOrigin rt request_iterator)
            = (PushFindDataOrigin_loop request_iterator).1).
  { intros rt request_iterator. unfold PushFindDataOrigin.
    by destruct (PushFindDataOrigin_loop request_iterator) as [yielded fin]. }
  assert (Hcname : compression_opts "blosclz" !! "cname" = Some "blosclz")
    by (vm_compute; reflexivity).
  assert (Hclevel : compression_opts "blosclz" !! "clevel" = Some "3")
    by (vm_compute; reflexivity).
  split; [|split; [|split; [|split]]].
  - intros C rt request_iterator context self i response. rewrite Hframes. intros Hin.
    destruct (FetchFindDataOrigin_loop_lookup self _ context i response Hin)
      as (digest & hashVal & Hi & Hd & Hty & Hresponse).
    apply list_lookup_fmap_Some in Hi as (request & -> & Hi).
    exists request, hashVal. rewrite Hresponse. simpl. done.
  - intros C rt request_iterator context self i request Hi Hall. rewrite Hframes.
    apply FetchFindDataOrigin_loop_reached.
    + rewrite length_fmap. by eapply lookup_lt_Some.
    + by rewrite <- fmap_take.
  - intros C R rt request_iterator context self i response hashVal data fetch_context.
    rewrite Hframes. intros Hin Hd Hread.
    destruct (FetchFindDataOrigin_loop_lookup self _ context i response Hin)
      as (digest & held & _ & _ & _ & Hresponse).
    exists "blosclz". rewrite Hresponse in *. simpl in *.
    unfold FetchData. rewrite Hd. simpl. rewrite Hread. simpl.
    destruct (serialize_data data) as [dtype_code raw_record]. simpl.
    eexists. split; [exact Hcname|]. split; [exact Hclevel|]. split; [reflexivity|].
    rewrite <- list_fmap_compose. apply list_fmap_id.
  - intros rt request_iterator i reply. rewrite Hpushed. intros Hin.
    destruct (PushFindDataOrigin_loop_lookup _ _ _ Hin) as (request & Hi & Hok & ->).
    exists request. done.
  - intros rt request_iterator i request Hi Hall. rewrite Hpushed.
    rewrite (PushFindDataOrigin_loop_reached _ _ _ Hi Hall). eauto.
Qed.

End compression_facts.

Module compression_checks.

Import grpc server server_rest fixtures compression_facts.

#[local] Open Scope list_scope.

Lemma advertised_compression_options_witness :
  let fetched := [origin_request "a"; origin_request "t"] in
  let response := origin_response "t" pb.STR in
  let plain_request :=
    {| pb.pfo_digest := "a"; pb.pfo_data_type := pb.NP_ARRAY;
       pb.pfo_compression_is_desired := false |} in
  let string_request :=
    {| pb.pfo_digest := "t"; pb.pfo_data_type := pb.STR;
       pb.pfo_compression_is_desired := true |} in
  let pushed := [plain_request; string_request] in
  (∃ request hashVal,
     fetched !! 1%nat = Some request
     ∧ pb.dor_digest response = pb.ffo_digest request
     ∧ pb.dor_uri response = pb.ffo_digest request
     ∧ hash_data (hashenv (env string_server)) !! pb.ffo_digest request = Some hashVal
     ∧ data_type_of_backend (backend (backend_decoder hashVal))
       = Some (pb.dor_data_type response)
     ∧ pb.dor_compression response = true
     ∧ pb.dor_compression_opts response
       = {[ "id" := "blosc"; "cname" := "blosclz"; "clevel" := "3" ]})
  ∧ (∃ response',
       frames (FetchFindDataOrigin Py.Pep479 fetched fresh string_server).1 !! 1%nat
       = Some (OriginFrame response'))
  ∧ (∃ cname sent,
       pb.dor_compression_opts response !! "cname" = Some cname
       ∧ pb.dor_compression_opts response !! "clevel" = Some "3"
       ∧ @FetchData plain naming_readers (pb.dor_uri response) fresh string_server
         = Return sent
       ∧ pb.fdr_raw_data <$> sent
         = chunk_bytes (@blosc_compress naming_readers
                          (@serialize_data naming_readers ":abc").2 3 cname false))
  ∧ (∃ request,
       pushed !! 1%nat = Some request
       ∧ ¬ unanswerable request
       ∧ pb.pfor_digest (origin_reply string_request) = pb.pfo_digest request
       ∧ pb.pfor_uri (origin_reply string_request) = pb.pfo_digest request
       ∧ pb.pfor_compression_expected (origin_reply string_request)
         = pb.pfo_compression_is_desired request
       ∧ pb.pfor_compression_opts_expected (origin_reply string_request)
         = if pb.pfo_compression_is_desired request
           then {[ "id" := "blosc";
                   "cname" := pushed_cname (pb.pfo_data_type request);
                   "clevel" := "3" ]}
           else ∅)
  ∧ is_Some (frames (PushFindDataOrigin Py.Pep479 pushed) !! 1%nat).
Proof.
  intros fetched response plain_request string_request pushed.
  destruct advertised_compression_options
    as (Hfetch & Hreached & Hcodec & Hpush & Hanswered).
  assert (Hframe : frames (FetchFindDataOrigin Py.Pep479 fetched fresh string_server).1
                     !! 1%nat = Some (OriginFrame response))
    by (vm_compute; reflexivity).
  split; [|split; [|split; [|split]]].
  - exact (Hfetch plain Py.Pep479 fetched fresh string_server 1%nat response Hframe).
  - apply (Hreached plain Py.Pep479 fetched fresh string_server 1%nat (origin_request "t")).
    + reflexivity.
    + repeat apply Forall_cons_2; [| |apply Forall_nil_2].
      * exists "00:xyz", pb.NP_ARRAY. split; vm_compute; reflexivity.
      * exists "30:abc", pb.STR. split; vm_compute; reflexivity.
  - apply (Hcodec plain naming_readers Py.Pep479 fetched fresh string_server 1%nat response
             "30:abc" ":abc" fresh Hframe).
    + vm_compute. reflexivity.
    + vm_compute. reflexivity.
  - apply (Hpush Py.Pep479 pushed 1%nat (origin_reply string_request)).
    vm_compute. reflexivity.
  - apply (Hanswered Py.Pep479 pushed 1%nat string_request).
    + reflexivity.
    + repeat apply Forall_cons_2; [| |apply Forall_nil_2]; intros [Hdesired [tag Htag]];
        discriminate.
Defined.

End compression_checks.
